(** * csvplotter: the measurement pipeline of [CSVEventHandler.plot_data]

    A shallow embedding of [src/csv_plotter.py].  The routine under study is
    [CSVEventHandler.plot_data]: it reads the CSV file, drops incomplete rows,
    smooths the diameter column, converts units, derives the diametrical
    strain and the strain rate, stores the four series in
    [parent.calculated_data] and redraws four plots.

    Numbers.  The program computes with IEEE doubles (numpy [float64]).  The
    embedding keeps what the program's control flow and its special values
    depend on and abstracts rounding: a finite double is an exact rational,
    and the three non-finite values [inf], [-inf] and [nan] are kept, with
    the IEEE rules for them (a division by zero does not raise in numpy, it
    yields [inf] or [nan]).  Rounding, overflow and the sign of zero are not
    modelled. *)

From Stdlib Require Import QArith Qreduction ZArith List String Ascii Bool Lia Lqa.
Import ListNotations.

Local Open Scope Q_scope.

(** ** Numeric values *)

Module Num.

Inductive num : Type :=
| Fin (q : Q)
| PInf
| NInf
| NaN.

Definition is_finite (x : num) : bool :=
  match x with Fin _ => true | _ => false end.

Definition is_nan (x : num) : bool :=
  match x with NaN => true | _ => false end.

(** [inf] with the sign of a rational, zero counting as positive. *)
Definition inf_of_sign (q : Q) : num :=
  if Qle_bool 0 q then PInf else NInf.

Definition neg (x : num) : num :=
  match x with
  | Fin q => Fin (Qred (- q))
  | PInf => NInf
  | NInf => PInf
  | NaN => NaN
  end.

Definition add (x y : num) : num :=
  match x, y with
  | NaN, _ | _, NaN => NaN
  | Fin a, Fin b => Fin (Qred (a + b))
  | PInf, NInf | NInf, PInf => NaN
  | PInf, _ | _, PInf => PInf
  | NInf, _ | _, NInf => NInf
  end.

Definition sub (x y : num) : num :=
  match x, y with
  | NaN, _ | _, NaN => NaN
  | Fin a, Fin b => Fin (Qred (a - b))
  | PInf, PInf | NInf, NInf => NaN
  | PInf, _ | _, NInf => PInf
  | NInf, _ | _, PInf => NInf
  end.

Definition mul (x y : num) : num :=
  match x, y with
  | NaN, _ | _, NaN => NaN
  | Fin a, Fin b => Fin (Qred (a * b))
  | Fin a, PInf | PInf, Fin a =>
      if Qeq_bool a 0 then NaN else inf_of_sign a
  | Fin a, NInf | NInf, Fin a =>
      if Qeq_bool a 0 then NaN else inf_of_sign (- a)
  | PInf, PInf | NInf, NInf => PInf
  | PInf, NInf | NInf, PInf => NInf
  end.

Definition div (x y : num) : num :=
  match x, y with
  | NaN, _ | _, NaN => NaN
  | Fin a, Fin b =>
      if Qeq_bool b 0
      then (if Qeq_bool a 0 then NaN else inf_of_sign a)
      else Fin (Qred (a / b))
  | Fin _, PInf | Fin _, NInf => Fin 0
  | PInf, Fin b => inf_of_sign b
  | NInf, Fin b => neg (inf_of_sign b)
  | _, _ => NaN
  end.

(** [==] of two doubles: [nan] equals nothing. *)
Definition eqb (x y : num) : bool :=
  match x, y with
  | Fin a, Fin b => Qeq_bool a b
  | PInf, PInf | NInf, NInf => true
  | _, _ => false
  end.

(** [<] of two doubles: false as soon as one side is [nan]. *)
Definition ltb (x y : num) : bool :=
  match x, y with
  | NaN, _ | _, NaN => false
  | Fin a, Fin b => negb (Qle_bool b a)
  | NInf, NInf | PInf, _ => false
  | NInf, _ | _, PInf => true
  | Fin _, NInf => false
  end.

Definition leb (x y : num) : bool := ltb x y || eqb x y.

(** Strictly positive: [0 < x]. *)
Definition pos (x : num) : bool := ltb (Fin 0) x.

End Num.

Import Num.

Declare Scope num_scope.
Delimit Scope num_scope with num.
Bind Scope num_scope with num.
Infix "+" := add : num_scope.
Infix "-" := sub : num_scope.
Infix "*" := mul : num_scope.
Infix "/" := div : num_scope.
Notation "- x" := (neg x) : num_scope.

(** An integer literal of the source, as a double. *)
Definition lit (z : Z) : num := Fin (inject_Z z).

(** ** Exceptions and results *)

(** The exceptions the modelled part of the program can raise.  All of them
    are caught by the [except Exception] of [plot_data]. *)
Inductive exn : Type :=
| ReadError (msg : string)        (* [pd.read_csv] failed *)
| ValueError (msg : string)
| IndexError (msg : string)
| UnboundLocalError (name : string).

Inductive result (A : Type) : Type :=
| Ok (a : A)
| Raise (e : exn).
Arguments Ok {A} a.
Arguments Raise {A} e.

Definition is_error {A} (r : result A) : bool :=
  match r with Ok _ => false | Raise _ => true end.

Definition rbind {A B} (r : result A) (k : A -> result B) : result B :=
  match r with
  | Ok a => k a
  | Raise e => Raise e
  end.

Declare Scope result_scope.
Delimit Scope result_scope with result.
Notation "'let?' x ':=' r 'in' k" :=
  (rbind r (fun x => k))
  (at level 10, x pattern, r at level 100, k at level 200) : result_scope.

(** [str(e)] *)
Definition exn_str (e : exn) : string :=
  match e with
  | ReadError msg => msg
  | ValueError msg => msg
  | IndexError msg => msg
  | UnboundLocalError name =>
      "cannot access local variable '" ++ name
      ++ "' where it is not associated with a value"
  end%string.

Local Open Scope result_scope.

(** ** Array helpers (numpy broadcasting on one-dimensional arrays) *)

Definition zip_with {A B C} (f : A -> B -> C) : list A -> list B -> list C :=
  fix go (xs : list A) (ys : list B) : list C :=
    match xs, ys with
    | x :: xs', y :: ys' => f x y :: go xs' ys'
    | _, _ => []
    end.

(** [arr * k], [arr / k], [arr - k] with a scalar [k] *)
Definition scale (arr : list num) (k : num) : list num :=
  map (fun v => (v * k)%num) arr.
Definition unscale (arr : list num) (k : num) : list num :=
  map (fun v => (v / k)%num) arr.
Definition shift_down (arr : list num) (k : num) : list num :=
  map (fun v => (v - k)%num) arr.

(** ** [scipy.signal.savgol_filter(x, 5, 2)]

    Window length 5, polynomial order 2, the default [mode='interp'].  In the
    interior the filter is the correlation of the data with the least-squares
    weights (-3, 12, 17, 12, -3)/35.  For the first two and the last two
    samples a parabola is fitted by least squares to the first (last) five
    samples and evaluated at the sample's place; written out, that is the
    weighted sum of the five samples given by [fit_weights].  The weights
    are the exact fractions; scipy computes them, and the sums, in doubles,
    so its values agree with these up to rounding only. *)

Definition q35 (z : Z) : num := Fin (z # 35).

(** Row [k] of the hat matrix of the parabola through five equally spaced
    samples: the weights that give the fitted value at place [k] (0 to 4). *)
Definition fit_weights (k : nat) : list num :=
  match k with
  | 0%nat => [q35 31; q35 9; q35 (-3); q35 (-5); q35 3]
  | 1%nat => [q35 9; q35 13; q35 12; q35 6; q35 (-5)]
  | 2%nat => [q35 (-3); q35 12; q35 17; q35 12; q35 (-3)]
  | 3%nat => [q35 (-5); q35 6; q35 12; q35 13; q35 9]
  | _ => [q35 3; q35 (-5); q35 (-3); q35 9; q35 31]
  end.

(** Sum of products, accumulated from the left. *)
Definition dot (ws xs : list num) : num :=
  match zip_with mul ws xs with
  | [] => Fin 0
  | p :: ps => fold_left add ps p
  end.

Definition fit_at (k : nat) (window : list num) : num :=
  dot (fit_weights k) window.

(** The filter at every place that has two neighbours on each side. *)
Fixpoint savgol_interior (x : list num) : list num :=
  match x with
  | x0 :: ((x1 :: x2 :: x3 :: x4 :: _) as rest) =>
      fit_at 2 [x0; x1; x2; x3; x4] :: savgol_interior rest
  | _ => []
  end.

Definition savgol_window_msg : string :=
  "If mode is 'interp', window_length must be less than or equal to the size of x.".

Definition savgol_filter (x : list num) : result (list num) :=
  if (List.length x <? 5)%nat
  then Raise (ValueError savgol_window_msg)
  else
    let first := firstn 5 x in
    let last := skipn (List.length x - 5) x in
    Ok ([fit_at 0 first; fit_at 1 first]
          ++ savgol_interior x
          ++ [fit_at 3 last; fit_at 4 last]).

(** ** [numpy.gradient(f, x)]

    One-dimensional [f] with the coordinate array [x], [edge_order=1].  The
    spacings are [diff(x)]; when they are all equal numpy takes the scalar
    spacing and the plain central difference, otherwise the second-order
    formula for unequal spacings.  The two ends are one-sided differences. *)

Definition diff (x : list num) : list num :=
  zip_with sub (tl x) x.

Definition uniform (dx : list num) : bool :=
  match dx with
  | [] => true
  | d0 :: _ => forallb (fun d => eqb d d0) dx
  end.

(** [out[1:-1] = (f[2:] - f[:-2]) / (2. * ax_dx)] *)
Fixpoint gradient_interior_uniform (f : list num) (h : num) : list num :=
  match f with
  | f0 :: ((_ :: f2 :: _) as rest) =>
      ((f2 - f0) / (lit 2 * h))%num :: gradient_interior_uniform rest h
  | _ => []
  end.

(** [a = -(dx2)/(dx1 * (dx1 + dx2))], [b = (dx2 - dx1) / (dx1 * dx2)],
    [c = dx1 / (dx2 * (dx1 + dx2))],
    [out[1:-1] = a * f[:-2] + b * f[1:-1] + c * f[2:]] *)
Definition coef_a (dx1 dx2 : num) : num := (- dx2 / (dx1 * (dx1 + dx2)))%num.
Definition coef_b (dx1 dx2 : num) : num := ((dx2 - dx1) / (dx1 * dx2))%num.
Definition coef_c (dx1 dx2 : num) : num := (dx1 / (dx2 * (dx1 + dx2)))%num.

Fixpoint gradient_interior (f dx : list num) : list num :=
  match f, dx with
  | f0 :: ((f1 :: f2 :: _) as rest), dx1 :: ((dx2 :: _) as dxs) =>
      (coef_a dx1 dx2 * f0 + coef_b dx1 dx2 * f1 + coef_c dx1 dx2 * f2)%num
        :: gradient_interior rest dxs
  | _, _ => []
  end.

Definition gradient_length_msg : string :=
  "when 1d, distances must match the length of the corresponding dimension".
Definition gradient_index_msg : string :=
  "index 0 is out of bounds for axis 0 with size 0".

(** With fewer than two samples there is no spacing, and taking the first
    one ([diffx[0]]) raises.  [dx_0] and [dx_n] are the scalar spacing when
    the spacings are all equal, the first and the last spacing otherwise. *)
Definition gradient (f x : list num) : result (list num) :=
  if negb (List.length x =? List.length f)%nat
  then Raise (ValueError gradient_length_msg)
  else if (List.length f <? 2)%nat
  then Raise (IndexError gradient_index_msg)
  else
    let dx := diff x in
    let dx_0 := hd NaN dx in
    let dx_n := if uniform dx then hd NaN dx else List.last dx NaN in
    let f_0 := nth 0 f NaN in
    let f_1 := nth 1 f NaN in
    let f_n := nth (List.length f - 1) f NaN in
    let f_m := nth (List.length f - 2) f NaN in
    let interior :=
      if uniform dx
      then gradient_interior_uniform f dx_0
      else gradient_interior f dx in
    Ok ([((f_1 - f_0) / dx_0)%num] ++ interior ++ [((f_n - f_m) / dx_n)%num]).





Definition all_finite (x : list num) : Prop :=
  Forall (fun v => is_finite v = true) x.


(** A value as the arithmetic produces it: a finite value is a fraction in
    lowest terms. *)
Definition normal (v : num) : Prop :=
  match v with
  | Fin q => Qred q = q
  | _ => True
  end.

(** The numerical gradient, entry by entry, written out from its formulas
    and not through the functions above: the forward difference at the first
    place, the backward difference at the last; in between, over evenly
    spaced coordinates with spacing [h], the central difference
    [(f[i+1] - f[i-1]) / (2 h)]; over unevenly spaced coordinates, with
    [hs = x[i] - x[i-1]] and [hd = x[i+1] - x[i]], the second-order weighted
    difference
    [-hd / (hs (hs + hd)) f[i-1] + (hd - hs) / (hs hd) f[i]
     + hs / (hd (hs + hd)) f[i+1]]. *)
Definition spec_gradient_at (f x : list num) (i : nat) : num :=
  let F k := nth k f NaN in
  let X k := nth k x NaN in
  let n := List.length f in
  if (i =? 0)%nat then ((F 1%nat - F 0%nat) / (X 1%nat - X 0%nat))%num
  else if (i =? n - 1)%nat
  then ((F (n - 1)%nat - F (n - 2)%nat) / (X (n - 1)%nat - X (n - 2)%nat))%num
  else
    let hs := (X i - X (i - 1)%nat)%num in
    let hd := (X (i + 1)%nat - X i)%num in
    if uniform (diff x)
    then ((F (i + 1)%nat - F (i - 1)%nat) / (lit 2 * hd))%num
    else (- hd / (hs * (hs + hd)) * F (i - 1)%nat
          + (hd - hs) / (hs * hd) * F i
          + hs / (hd * (hs + hd)) * F (i + 1)%nat)%num.

(** The plain central difference of the specification's words, over the
    two neighbours whatever their distances:
    [(f[i+1] - f[i-1]) / (x[i+1] - x[i-1])]. *)
Definition central_difference (f x : list num) (i : nat) : num :=
  ((nth (i + 1) f NaN - nth (i - 1) f NaN)
   / (nth (i + 1) x NaN - nth (i - 1) x NaN))%num.

(** The rational held by a finite value. *)
Definition value (v : num) : Q :=
  match v with
  | Fin q => q
  | _ => 0
  end.

(** ** The table read from the CSV file

    [pd.read_csv] yields a table of doubles in which a missing cell is
    [nan].  [plot_data] reads column 0 as the time in seconds and column 1 as
    the diameter in millimetres, after [dropna()] has removed every row that
    has a missing cell in any column.  A row of the model has its two leading
    cells and the cells of the further columns, each a finite number or
    missing; tables with fewer than two columns, with non-numeric columns or
    with infinite entries are outside the model. *)

Record row : Type := {
  c_time : option Q;
  c_diameter : option Q;
  c_rest : list (option Q)
}.

(** The double in a cell. *)
Definition cell (c : option Q) : num :=
  match c with
  | Some q => Fin q
  | None => NaN
  end.

(** [df.iloc[:, 0]] and [df.iloc[:, 1]], at one row *)
Definition r_time (r : row) : num := cell (c_time r).
Definition r_diameter (r : row) : num := cell (c_diameter r).

Definition DataFrame := list row.

Definition complete (r : row) : bool :=
  negb (is_nan (r_time r)) && negb (is_nan (r_diameter r))
  && forallb (fun c => negb (is_nan (cell c))) (c_rest r).

Definition dropna (df : DataFrame) : DataFrame := filter complete df.

(** ** The computation of [plot_data]: smoothing, units, strain, strain rate *)

(** The tuple stored in [parent.calculated_data], in its order. *)
Record DerivedSeries : Type := {
  time_converted : list num;
  diameter_converted : list num;
  diametrical_strain : list num;
  strain_rate_converted : list num
}.

(** Reading a local variable that no branch has assigned. *)
Definition local {A} (name : string) (v : option A) : result A :=
  match v with
  | Some a => Ok a
  | None => Raise (UnboundLocalError name)
  end.

(** The [if]/[elif] chain on the time unit; it has no [else], so with any
    other text [time_converted] and [time_factor] stay unassigned. *)
Definition convert_time (time_unit : string) (time : list num)
  : option (list num * num) :=
  if (time_unit =? "s")%string then Some (time, lit 1)
  else if (time_unit =? "min")%string then Some (unscale time (lit 60), lit 60)
  else if (time_unit =? "hour")%string then Some (unscale time (lit 3600), lit 3600)
  else None.

(** The [if]/[else] on the diameter unit: the converted diameter and the
    converted initial diameter. *)
Definition convert_diameter (diameter_unit : string)
    (diameter_smooth : list num) (initial_diameter : num) : list num * num :=
  if (diameter_unit =? "μm")%string
  then (scale diameter_smooth (lit 1000), (initial_diameter * lit 1000)%num)
  else (diameter_smooth, initial_diameter).

(** The [if]/[elif] chain on the strain-rate unit; it has no [else] either.
    [time_factor] is read only inside a branch that is taken. *)
Definition convert_strain_rate (strain_rate_unit : string)
    (strain_rate : list num) (time_factor : option num)
  : result (option (list num)) :=
  if (strain_rate_unit =? "1/s")%string then
    let? tf := local "time_factor" time_factor in
    Ok (Some (scale strain_rate tf))
  else if (strain_rate_unit =? "1/min")%string then
    let? tf := local "time_factor" time_factor in
    Ok (Some (scale (scale strain_rate tf) (lit 60)))
  else if (strain_rate_unit =? "1/hour")%string then
    let? tf := local "time_factor" time_factor in
    Ok (Some (scale (scale strain_rate tf) (lit 3600)))
  else if (strain_rate_unit =? "μm/s")%string then
    let? tf := local "time_factor" time_factor in
    Ok (Some (scale (scale strain_rate tf) (lit 1000)))
  else if (strain_rate_unit =? "μm/min")%string then
    let? tf := local "time_factor" time_factor in
    Ok (Some (scale (scale (scale strain_rate tf) (lit 1000)) (lit 60)))
  else if (strain_rate_unit =? "μm/hour")%string then
    let? tf := local "time_factor" time_factor in
    Ok (Some (scale (scale (scale strain_rate tf) (lit 1000)) (lit 3600)))
  else Ok None.

(** [(diameter_converted - initial_diameter_converted) / initial_diameter_converted] *)
Definition strain_of (diameter_converted : list num)
    (initial_diameter_converted : num) : list num :=
  unscale (shift_down diameter_converted initial_diameter_converted)
          initial_diameter_converted.

(** From the table just read to the tuple that is about to be stored.  The
    last two [local] reads are the evaluation of the tuple, left to right. *)
Definition compute_series (time_unit diameter_unit strain_rate_unit : string)
    (initial_diameter : num) (table : DataFrame) : result DerivedSeries :=
  let df := dropna table in
  let time := map r_time df in
  let diameter := map r_diameter df in
  let? diameter_smooth := savgol_filter diameter in
  let tc := convert_time time_unit time in
  let '(diameter_converted, initial_diameter_converted) :=
    convert_diameter diameter_unit diameter_smooth initial_diameter in
  let diametrical_strain :=
    strain_of diameter_converted initial_diameter_converted in
  let? strain_rate := gradient diametrical_strain time in
  let? strain_rate_converted :=
    convert_strain_rate strain_rate_unit strain_rate (option_map snd tc) in
  let? time_converted := local "time_converted" (option_map fst tc) in
  let? strain_rate_converted :=
    local "strain_rate_converted" strain_rate_converted in
  Ok {| time_converted := time_converted;
        diameter_converted := diameter_converted;
        diametrical_strain := diametrical_strain;
        strain_rate_converted := strain_rate_converted |}.

(** ** The plotting state: figure, canvas and the fields of the parent widget *)

Inductive axis_scale : Type := linear | log.

(** One [ax.plot(x, y, fmt, label=...)] *)
Record Line : Type := {
  xdata : list num;
  ydata : list num;
  fmt : string;
  line_label : string
}.

(** What the program has asked of one axes.  [xlim_request] and
    [ylim_request] hold the two bounds of the last [set_xlim] ([set_ylim])
    call that matplotlib accepted, [None] while the limits are left to
    matplotlib (new axes, and after [autoscale]).  They are the arguments of
    the call, not the view limits matplotlib derives from them: it widens
    two identical bounds and keeps the old bound in place of a non-positive
    one on a logarithmic axis, and neither is modelled. *)
Record Axes : Type := {
  lines : list Line;
  xlabel : string;
  ylabel : string;
  xscale : axis_scale;
  yscale : axis_scale;
  xlim_request : option (num * num);
  ylim_request : option (num * num);
  legend : bool
}.

(** A figure is the list of its axes, [figure.axes]. *)
Definition Figure := list Axes.

Definition new_axes : Axes :=
  {| lines := []; xlabel := ""; ylabel := ""; xscale := linear;
     yscale := linear; xlim_request := None; ylim_request := None; legend := false |}.

(** The four keys of [parent.scales] and [parent.ranges], which are also the
    places of the 2 x 2 grid of subplots. *)
Inductive position : Type := P00 | P01 | P10 | P11.

Definition index_of (pos : position) : nat :=
  match pos with P00 => 0 | P01 => 1 | P10 => 2 | P11 => 3 end.

Definition range : Type :=
  option num * option num * option num * option num.

(** The fields of [CSVPlotter] that [plot_data] reads or writes, the text
    shown by its label, the figure, what the canvas drew last and the number
    of [canvas.draw] calls queued through [QTimer.singleShot]. *)
Record CSVPlotter : Type := {
  label : string;
  figure : Figure;
  canvas : Figure;
  queued_draws : nat;
  calculated_data : option DerivedSeries;
  scales : position -> axis_scale * axis_scale;
  ranges : position -> range;
  time_unit_combo : string;
  diameter_unit_combo : string;
  strain_rate_unit_combo : string
}.

Record CSVEventHandler : Type := {
  file_path : string;
  initial_diameter : num
}.

Definition set_label (s : string) (p : CSVPlotter) : CSVPlotter :=
  {| label := s; figure := figure p; canvas := canvas p;
     queued_draws := queued_draws p; calculated_data := calculated_data p;
     scales := scales p; ranges := ranges p;
     time_unit_combo := time_unit_combo p;
     diameter_unit_combo := diameter_unit_combo p;
     strain_rate_unit_combo := strain_rate_unit_combo p |}.

Definition set_figure (f : Figure) (p : CSVPlotter) : CSVPlotter :=
  {| label := label p; figure := f; canvas := canvas p;
     queued_draws := queued_draws p; calculated_data := calculated_data p;
     scales := scales p; ranges := ranges p;
     time_unit_combo := time_unit_combo p;
     diameter_unit_combo := diameter_unit_combo p;
     strain_rate_unit_combo := strain_rate_unit_combo p |}.

Definition set_calculated_data (d : DerivedSeries) (p : CSVPlotter)
  : CSVPlotter :=
  {| label := label p; figure := figure p; canvas := canvas p;
     queued_draws := queued_draws p; calculated_data := Some d;
     scales := scales p; ranges := ranges p;
     time_unit_combo := time_unit_combo p;
     diameter_unit_combo := diameter_unit_combo p;
     strain_rate_unit_combo := strain_rate_unit_combo p |}.

(** [QTimer.singleShot(0, self.parent.canvas.draw)] *)
Definition queue_draw (p : CSVPlotter) : CSVPlotter :=
  {| label := label p; figure := figure p; canvas := canvas p;
     queued_draws := S (queued_draws p); calculated_data := calculated_data p;
     scales := scales p; ranges := ranges p;
     time_unit_combo := time_unit_combo p;
     diameter_unit_combo := diameter_unit_combo p;
     strain_rate_unit_combo := strain_rate_unit_combo p |}.

(** [canvas.draw()], run later by the event loop (a queued call, or any
    repaint of the widget): the canvas renders the figure as it is then. *)
Definition canvas_draw (p : CSVPlotter) : CSVPlotter :=
  {| label := label p; figure := figure p; canvas := figure p;
     queued_draws := pred (queued_draws p);
     calculated_data := calculated_data p;
     scales := scales p; ranges := ranges p;
     time_unit_combo := time_unit_combo p;
     diameter_unit_combo := diameter_unit_combo p;
     strain_rate_unit_combo := strain_rate_unit_combo p |}.

(** *** Operations on axes *)

Definition plot (x y : list num) (f l : string) (ax : Axes) : Axes :=
  {| lines := lines ax ++ [{| xdata := x; ydata := y; fmt := f;
                              line_label := l |}];
     xlabel := xlabel ax; ylabel := ylabel ax; xscale := xscale ax;
     yscale := yscale ax; xlim_request := xlim_request ax; ylim_request := ylim_request ax;
     legend := legend ax |}.

Definition set_xlabel (s : string) (ax : Axes) : Axes :=
  {| lines := lines ax; xlabel := s; ylabel := ylabel ax;
     xscale := xscale ax; yscale := yscale ax; xlim_request := xlim_request ax;
     ylim_request := ylim_request ax; legend := legend ax |}.

Definition set_ylabel (s : string) (ax : Axes) : Axes :=
  {| lines := lines ax; xlabel := xlabel ax; ylabel := s;
     xscale := xscale ax; yscale := yscale ax; xlim_request := xlim_request ax;
     ylim_request := ylim_request ax; legend := legend ax |}.

Definition set_xscale (s : axis_scale) (ax : Axes) : Axes :=
  {| lines := lines ax; xlabel := xlabel ax; ylabel := ylabel ax;
     xscale := s; yscale := yscale ax; xlim_request := xlim_request ax;
     ylim_request := ylim_request ax; legend := legend ax |}.

Definition set_yscale (s : axis_scale) (ax : Axes) : Axes :=
  {| lines := lines ax; xlabel := xlabel ax; ylabel := ylabel ax;
     xscale := xscale ax; yscale := s; xlim_request := xlim_request ax;
     ylim_request := ylim_request ax; legend := legend ax |}.

Definition axis_limits_msg : string := "Axis limits cannot be NaN or Inf".

(** [ax.set_xlim(lo, hi)] and [ax.set_ylim(lo, hi)]: matplotlib raises a
    [ValueError] for a bound that is not finite; any other call is accepted
    and recorded with its arguments. *)
Definition set_xlim (lo hi : num) (ax : Axes) : result Axes :=
  if is_finite lo && is_finite hi
  then Ok {| lines := lines ax; xlabel := xlabel ax; ylabel := ylabel ax;
             xscale := xscale ax; yscale := yscale ax; xlim_request := Some (lo, hi);
             ylim_request := ylim_request ax; legend := legend ax |}
  else Raise (ValueError axis_limits_msg).

Definition set_ylim (lo hi : num) (ax : Axes) : result Axes :=
  if is_finite lo && is_finite hi
  then Ok {| lines := lines ax; xlabel := xlabel ax; ylabel := ylabel ax;
             xscale := xscale ax; yscale := yscale ax; xlim_request := xlim_request ax;
             ylim_request := Some (lo, hi); legend := legend ax |}
  else Raise (ValueError axis_limits_msg).

Definition show_legend (ax : Axes) : Axes :=
  {| lines := lines ax; xlabel := xlabel ax; ylabel := ylabel ax;
     xscale := xscale ax; yscale := yscale ax; xlim_request := xlim_request ax;
     ylim_request := ylim_request ax; legend := true |}.

(** [figure.subplots(2, 2)]: four fresh axes. *)
Definition subplots_2x2 : Figure := [new_axes; new_axes; new_axes; new_axes].

(** Apply [f] to the axes at place [pos] of the figure. *)
Fixpoint update_at (n : nat) (f : Axes -> Axes) (fig : Figure) : Figure :=
  match fig, n with
  | [], _ => []
  | ax :: rest, O => f ax :: rest
  | ax :: rest, S n' => ax :: update_at n' f rest
  end.

(** ** State and exceptions

    A statement of [plot_data] may change the parent widget and may raise.
    What was changed before an exception stays changed, so a computation
    returns the state along with its outcome. *)

Definition M (A : Type) : Type := CSVPlotter -> result A * CSVPlotter.

Definition ret {A} (a : A) : M A := fun p => (Ok a, p).

Definition bind {A B} (m : M A) (k : A -> M B) : M B :=
  fun p =>
    match m p with
    | (Ok a, p') => k a p'
    | (Raise e, p') => (Raise e, p')
    end.

Definition lift {A} (r : result A) : M A := fun p => (r, p).
Definition read {A} (field : CSVPlotter -> A) : M A := fun p => (Ok (field p), p).
Definition modify (f : CSVPlotter -> CSVPlotter) : M unit := fun p => (Ok tt, f p).

Declare Scope monad_scope.
Delimit Scope monad_scope with monad.
Notation "x <- m ;; k" := (bind m (fun x => k))
  (at level 61, m at next level, right associativity) : monad_scope.
Notation "m ;; k" := (bind m (fun _ => k))
  (at level 61, right associativity) : monad_scope.

Local Open Scope monad_scope.

(** A method call on the axes at [pos]. *)
Definition on_axes (pos : position) (f : Axes -> Axes) : M unit :=
  modify (fun p => set_figure (update_at (index_of pos) f (figure p)) p).

(** A method call on the axes at [pos] that may raise; the axes are left as
    they were when it does. *)
Definition try_on_axes (pos : position) (f : Axes -> result Axes) : M unit :=
  fun p =>
    match f (nth (index_of pos) (figure p) new_axes) with
    | Ok ax => (Ok tt, set_figure (update_at (index_of pos) (fun _ => ax) (figure p)) p)
    | Raise e => (Raise e, p)
    end.

(** The body of the [for pos, ax in ...] loop. *)
Definition apply_scale_and_range (pos : position) : M unit :=
  sc <- read (fun p => scales p pos) ;;
  rg <- read (fun p => ranges p pos) ;;
  let '(x_scale, y_scale) := sc in
  let '(x_min, x_max, y_min, y_max) := rg in
  on_axes pos (set_xscale x_scale) ;;
  on_axes pos (set_yscale y_scale) ;;
  match x_min, x_max with
  | Some lo, Some hi => try_on_axes pos (set_xlim lo hi)
  | _, _ => ret tt
  end ;;
  match y_min, y_max with
  | Some lo, Some hi => try_on_axes pos (set_ylim lo hi)
  | _, _ => ret tt
  end.

Fixpoint for_each {A} (xs : list A) (body : A -> M unit) : M unit :=
  match xs with
  | [] => ret tt
  | x :: rest => body x ;; for_each rest body
  end.

Definition is_empty (s : string) : bool :=
  match s with EmptyString => true | _ => false end.

(** The four [plot] calls and the [for pos, ax in ...] loop. *)
Definition draw_series (d : DerivedSeries) : M unit :=
  on_axes P00 (plot (time_converted d) (diameter_converted d)
                 "b-" "Absolute Diameter") ;;
  on_axes P01 (plot (time_converted d) (diametrical_strain d)
                 "r-" "Diametrical Strain") ;;
  on_axes P10 (plot (time_converted d) (strain_rate_converted d)
                 "g-" "Strain Rate") ;;
  on_axes P11 (plot (diametrical_strain d) (strain_rate_converted d)
                 "m-" "Creep Rate vs Strain") ;;
  for_each [P00; P01; P10; P11] apply_scale_and_range.

(** The axis labels with their units, and the legends. *)
Definition label_axes (time_unit diameter_unit strain_rate_unit : string)
  : M unit :=
  on_axes P00 (set_xlabel ("Time (" ++ time_unit ++ ")")) ;;
  on_axes P00 (set_ylabel ("Diameter (" ++ diameter_unit ++ ")")) ;;
  on_axes P01 (set_xlabel ("Time (" ++ time_unit ++ ")")) ;;
  on_axes P01 (set_ylabel "Diametrical Strain (unitless)") ;;
  on_axes P10 (set_xlabel ("Time (" ++ time_unit ++ ")")) ;;
  on_axes P10 (set_ylabel ("Strain Rate (" ++ strain_rate_unit ++ ")")) ;;
  on_axes P11 (set_xlabel "Diametrical Strain (unitless)") ;;
  on_axes P11 (set_ylabel ("Strain Rate (" ++ strain_rate_unit ++ ")")) ;;
  for_each [P00; P01; P10; P11] (fun pos => on_axes pos show_legend).

(** The [try] block of [plot_data].  [csv] is what [pd.read_csv(file_path)]
    gives at this call: the table, or the exception it raised.  The three
    unit texts are local variables assigned inside [if self.file_path:] and
    read again by the axis labels after it; with an empty path they are
    unassigned there.  The [print] calls are left out. *)
Definition plot_data_try (h : CSVEventHandler) (csv : result DataFrame)
  : M unit :=
  units <-
    (if is_empty (file_path h) then ret None
     else
       table <- lift csv ;;
       time_unit <- read time_unit_combo ;;
       diameter_unit <- read diameter_unit_combo ;;
       strain_rate_unit <- read strain_rate_unit_combo ;;
       d <- lift (compute_series time_unit diameter_unit strain_rate_unit
                    (initial_diameter h) table) ;;
       modify (set_calculated_data d) ;;
       draw_series d ;;
       ret (Some (time_unit, diameter_unit, strain_rate_unit))) ;;
  u <- lift (local "time_unit" units) ;;
  let '(time_unit, diameter_unit, strain_rate_unit) := u in
  label_axes time_unit diameter_unit strain_rate_unit ;;
  modify queue_draw.

(** [f"Plotting error: {e}"] *)
Definition error_text (e : exn) : string := "Plotting error: " ++ exn_str e.

(** [CSVEventHandler.plot_data]: the figure is cleared and given its four
    new axes before the [try]; whatever the [try] block raises is caught and
    shown in the label.  The function returns to its caller in either case. *)
Definition plot_data (h : CSVEventHandler) (csv : result DataFrame)
    (p : CSVPlotter) : CSVPlotter :=
  let p := set_figure [] p in
  let p := set_figure subplots_2x2 p in
  match plot_data_try h csv p with
  | (Ok _, p') => p'
  | (Raise e, p') => set_label (error_text e) p'
  end.

(** Whether the call took the [except] branch, and with which exception. *)
Definition plot_data_raised (h : CSVEventHandler) (csv : result DataFrame)
    (p : CSVPlotter) : option exn :=
  match fst (plot_data_try h csv (set_figure subplots_2x2 (set_figure [] p))) with
  | Ok _ => None
  | Raise e => Some e
  end.

(** The steps of the [try] block that come before the assignment to
    [parent.calculated_data]: reading the table and computing the series.
    With an empty path those steps are skipped and the first axis label
    raises. *)
Definition steps_before_store (h : CSVEventHandler) (csv : result DataFrame)
    (p : CSVPlotter) : result DerivedSeries :=
  if is_empty (file_path h) then Raise (UnboundLocalError "time_unit")
  else
    let? table := csv in
    compute_series (time_unit_combo p) (diameter_unit_combo p)
      (strain_rate_unit_combo p) (initial_diameter h) table.

(** The transform of the specification: raw samples, reference diameter and
    unit selection in, derived series or an exception out. *)
Definition transform (raw : DataFrame) (reference_diameter_mm : num)
    (units : string * string * string) : result DerivedSeries :=
  let '(time_unit, diameter_unit, strain_rate_unit) := units in
  compute_series time_unit diameter_unit strain_rate_unit
    reference_diameter_mm raw.

(** Two widgets with the same unit selection. *)
Definition same_selection (p1 p2 : CSVPlotter) : Prop :=
  time_unit_combo p1 = time_unit_combo p2
  /\ diameter_unit_combo p1 = diameter_unit_combo p2
  /\ strain_rate_unit_combo p1 = strain_rate_unit_combo p2.

(** A widget as [CSVPlotter.__init__] leaves it, with the first entry of
    each combo box selected. *)
Definition initial_widget : CSVPlotter :=
  {| label := ""; figure := []; canvas := []; queued_draws := 0;
     calculated_data := None;
     scales := fun _ => (linear, linear);
     ranges := fun _ => (None, None, None, None);
     time_unit_combo := "s"; diameter_unit_combo := "mm";
     strain_rate_unit_combo := "1/s" |}.

(** A computation that touches nothing but the figure. *)
Definition only_figure {A} (m : M A) : Prop :=
  forall p, snd (m p) = set_figure (figure (snd (m p))) p.

(** A row of a two-column table, and of a three-column one. *)
Definition row2 (t d : option Q) : row :=
  {| c_time := t; c_diameter := d; c_rest := [] |}.
Definition row3 (t d x : option Q) : row :=
  {| c_time := t; c_diameter := d; c_rest := [x] |}.

(** Seven unevenly spaced rows with a third column, one of them incomplete. *)
Definition irregular_rows : DataFrame :=
  [ row3 (Some 0) (Some 10) (Some 1);
    row3 (Some 1) (Some 11) (Some 1);
    row3 (Some 3) (Some 14) (Some 1);
    row3 (Some 4) None (Some 1);
    row3 (Some 4) (Some 10) (Some 1);
    row3 (Some 9) (Some 11) (Some 1);
    row3 (Some 10) (Some 3) (Some 1) ].

(** A handler for a chosen file with the reference diameter 10 mm, the
    widget after a first successful call and its queued draw, and a table
    that has lost its last row. *)
Definition sample_handler : CSVEventHandler :=
  {| file_path := "data.csv"; initial_diameter := lit 10 |}.

Definition four_rows : DataFrame :=
  [ row2 (Some 0) (Some 10); row2 (Some 1) (Some 10);
    row2 (Some 2) (Some 10); row2 (Some 3) (Some 10) ].

(** The five rows (0,10.0) ... (4,10.0) of the specification's scenario. *)
Definition five_rows : DataFrame :=
  four_rows ++ [ row2 (Some 4) (Some 10) ].

Definition shown_widget : CSVPlotter :=
  canvas_draw (plot_data sample_handler (Ok five_rows) initial_widget).

(** ** The unit selections offered by the three combo boxes ([addItems]) *)

Definition time_units : list string := ["s"; "min"; "hour"]%string.
Definition diameter_units : list string := ["mm"; "μm"]%string.
Definition strain_rate_units : list string :=
  ["1/s"; "1/min"; "1/hour"; "μm/s"; "μm/min"; "μm/hour"]%string.

(** ** The unit tables as the specification words them

    These follow the text of the specification, not the code; the theorems
    below compare the code with them. *)

(** "s→1, min→60, hour→3600" *)
Definition spec_time_factor (time_unit : string) : Z :=
  if (time_unit =? "s")%string then 1
  else if (time_unit =? "min")%string then 60
  else 3600.

(** "1/s→×time_factor; 1/min→×time_factor×60; 1/hour→×time_factor×3600;
    μm/s→×time_factor×1000; μm/min→×time_factor×1000×60;
    μm/hour→×time_factor×1000×3600" *)
Definition spec_rate_multiplier (time_unit strain_rate_unit : string) : Z :=
  let time_factor := spec_time_factor time_unit in
  if (strain_rate_unit =? "1/s")%string then time_factor
  else if (strain_rate_unit =? "1/min")%string then time_factor * 60
  else if (strain_rate_unit =? "1/hour")%string then time_factor * 3600
  else if (strain_rate_unit =? "μm/s")%string then time_factor * 1000
  else if (strain_rate_unit =? "μm/min")%string then time_factor * 1000 * 60
  else time_factor * 1000 * 3600.

(** "value divided by divisor"; the divisor 1 leaves the value as it is. *)
Definition spec_time_at (time_unit : string) (t : num) : num :=
  if (time_unit =? "s")%string then t
  else (t / lit (spec_time_factor time_unit))%num.

Definition spec_time (time_unit : string) (time : list num) : list num :=
  map (spec_time_at time_unit) time.

(** "mm→×1, μm→×1000" *)
Definition spec_diameter_factor (diameter_unit : string) : Z :=
  if (diameter_unit =? "μm")%string then 1000 else 1.

(** The factor applied; the factor 1 leaves the value as it is. *)
Definition spec_diameter (diameter_unit : string) (v : num) : num :=
  if (diameter_unit =? "μm")%string then (v * lit 1000)%num else v.

(** The error the specification calls [InsufficientDataError]: the filter's
    refusal of a series shorter than its window. *)
Definition InsufficientDataError : exn := ValueError savgol_window_msg.

Definition raises {A} (r : result A) (e : exn) : Prop := r = Raise e.

(** ** The smoothing as the specification words it

    Savitzky-Golay smoothing with window 5 and order 2, stated without the
    weights of [fit_weights]: every smoothed value is the value, at the
    sample's own place, of the parabola fitted by least squares to a window
    of five consecutive raw samples.  The window is centred at the sample;
    for the first two and the last two samples it is the first and the last
    five samples of the series. *)

(** [c0 + c1 t + c2 t^2] at the place [t] of a window. *)
Definition parabola (c0 c1 c2 : Q) (t : nat) : Q :=
  c0 + c1 * inject_Z (Z.of_nat t)
  + c2 * inject_Z (Z.of_nat t) * inject_Z (Z.of_nat t).

(** The parabola is a least-squares fit of the five samples [a 0 .. a 4]
    taken at the places 0 .. 4: its residuals are orthogonal to 1, t and
    t^2, the normal equations of the least-squares problem.  They have one
    solution (see [least_squares_parabola_unique]). *)
Definition least_squares_parabola (a : nat -> Q) (c0 c1 c2 : Q) : Prop :=
  let r (t : nat) := a t - parabola c0 c1 c2 t in
  r 0%nat + r 1%nat + r 2%nat + r 3%nat + r 4%nat == 0
  /\ r 1%nat + 2 * r 2%nat + 3 * r 3%nat + 4 * r 4%nat == 0
  /\ r 1%nat + 4 * r 2%nat + 9 * r 3%nat + 16 * r 4%nat == 0.

(** Where the window of sample [i] starts in a series of [n] samples. *)
Definition window_start (n i : nat) : nat := Nat.min (i - 2) (n - 5).

(** [v] is the smoothed value at place [i] of the raw series. *)
Definition smoothed_at (raw : list num) (i : nat) (v : num) : Prop :=
  let j := window_start (List.length raw) i in
  exists c0 c1 c2 q,
    least_squares_parabola (fun t => value (nth (j + t) raw NaN)) c0 c1 c2
    /\ v = Fin q
    /\ q == parabola c0 c1 c2 (i - j).

(** * The rest of the program: what is drawn, and the code around [plot_data] *)

(** ** The axes after a call of [plot_data] *)

(** [set_xlim] and [set_ylim] are called only when both bounds of a range
    are set; the call is accepted when both bounds are finite. *)
Definition limits_ok (lo hi : option num) : bool :=
  match lo, hi with
  | Some a, Some b => is_finite a && is_finite b
  | _, _ => true
  end.

Definition range_ok (r : range) : bool :=
  let '(x_min, x_max, y_min, y_max) := r in
  limits_ok x_min x_max && limits_ok y_min y_max.

Definition ranges_ok (p : CSVPlotter) : bool :=
  forallb (fun pos => range_ok (ranges p pos)) [P00; P01; P10; P11].

(** The limits asked for an axis: the pair of bounds when both are set,
    none otherwise (the limits are then left to matplotlib). *)
Definition both_bounds (lo hi : option num) : option (num * num) :=
  match lo, hi with
  | Some a, Some b => Some (a, b)
  | _, _ => None
  end.

(** The line drawn at each place of the grid, and the axis labels. *)
Definition rendered_line (d : DerivedSeries) (pos : position) : Line :=
  match pos with
  | P00 => {| xdata := time_converted d; ydata := diameter_converted d;
              fmt := "b-"; line_label := "Absolute Diameter" |}
  | P01 => {| xdata := time_converted d; ydata := diametrical_strain d;
              fmt := "r-"; line_label := "Diametrical Strain" |}
  | P10 => {| xdata := time_converted d; ydata := strain_rate_converted d;
              fmt := "g-"; line_label := "Strain Rate" |}
  | P11 => {| xdata := diametrical_strain d; ydata := strain_rate_converted d;
              fmt := "m-"; line_label := "Creep Rate vs Strain" |}
  end.

Definition rendered_xlabel (p : CSVPlotter) (pos : position) : string :=
  match pos with
  | P11 => "Diametrical Strain (unitless)"
  | _ => "Time (" ++ time_unit_combo p ++ ")"
  end.

Definition rendered_ylabel (p : CSVPlotter) (pos : position) : string :=
  match pos with
  | P00 => "Diameter (" ++ diameter_unit_combo p ++ ")"
  | P01 => "Diametrical Strain (unitless)"
  | _ => "Strain Rate (" ++ strain_rate_unit_combo p ++ ")"
  end.

Definition rendered_axes (p : CSVPlotter) (d : DerivedSeries)
    (pos : position) : Axes :=
  let '(x_min, x_max, y_min, y_max) := ranges p pos in
  {| lines := [rendered_line d pos];
     xlabel := rendered_xlabel p pos;
     ylabel := rendered_ylabel p pos;
     xscale := fst (scales p pos);
     yscale := snd (scales p pos);
     xlim_request := both_bounds x_min x_max;
     ylim_request := both_bounds y_min y_max;
     legend := true |}.

(** The effect on one axes of an accepted pass through the loop body. *)
Definition with_xlim (lo hi : num) (ax : Axes) : Axes :=
  {| lines := lines ax; xlabel := xlabel ax; ylabel := ylabel ax;
     xscale := xscale ax; yscale := yscale ax; xlim_request := Some (lo, hi);
     ylim_request := ylim_request ax; legend := legend ax |}.

Definition with_ylim (lo hi : num) (ax : Axes) : Axes :=
  {| lines := lines ax; xlabel := xlabel ax; ylabel := ylabel ax;
     xscale := xscale ax; yscale := yscale ax; xlim_request := xlim_request ax;
     ylim_request := Some (lo, hi); legend := legend ax |}.

Definition dress (p : CSVPlotter) (pos : position) (ax : Axes) : Axes :=
  let '(x_scale, y_scale) := scales p pos in
  let '(x_min, x_max, y_min, y_max) := ranges p pos in
  let ax1 := set_yscale y_scale (set_xscale x_scale ax) in
  let ax2 := match x_min, x_max with
             | Some lo, Some hi => with_xlim lo hi ax1
             | _, _ => ax1
             end in
  match y_min, y_max with
  | Some lo, Some hi => with_ylim lo hi ax2
  | _, _ => ax2
  end.

(** ** [CSVEventHandler.on_modified] *)

(** The watcher's callback replots only for the handler's own file. *)
Definition on_modified (h : CSVEventHandler) (src_path : string)
    (csv : result DataFrame) (p : CSVPlotter) : CSVPlotter :=
  if (src_path =? file_path h)%string then plot_data h csv p else p.

(** ** The main window [CSVPlotter]: its buttons, inputs and signals

    The record [CSVPlotter] above holds what [plot_data] touches; [App] adds
    the remaining attributes of the window.  The file system is a function
    from a path to what [plot_data] gets from the file at that moment when
    it reads the table and takes its first two columns: the table, when
    [pd.read_csv] reads one whose first two columns hold finite numbers or
    blanks; otherwise the exception raised, by [pd.read_csv] for a file it
    cannot read, or by [df.iloc[:, 1]] (an [IndexError]) for a table with a
    single column.  Nothing of the widget changes between these steps, so
    both count as a failed read.  A table with text or infinite entries in
    its first two columns is outside the model.  Three
    things of the Python runtime come in as parameters: [float_of_text] is
    [float(text)] with [None] for a [ValueError]; [show] is [str] of a
    double; the path picked in a file dialog is an argument of the slot
    (empty when the dialog is cancelled). *)

Definition FileSystem := string -> result DataFrame.

(** One [Observer()] of the watchdog library: the folder and the handler it
    was scheduled with, and whether it is running. *)
Record Observer : Type := {
  watched_folder : string;
  watch_handler : CSVEventHandler;
  alive : bool
}.

Record App : Type := {
  widget : CSVPlotter;
  csv_file : option string;
  widget_initial_diameter : option num;   (* [self.initial_diameter] *)
  manual_refresh_rate : option Z;
  event_handler : option CSVEventHandler;
  observer : option Observer;
  timer : option Z           (* the interval of [timer.start], until [stop] *)
}.

Definition with_widget (f : CSVPlotter -> CSVPlotter) (a : App) : App :=
  {| widget := f (widget a); csv_file := csv_file a;
     widget_initial_diameter := widget_initial_diameter a;
     manual_refresh_rate := manual_refresh_rate a;
     event_handler := event_handler a; observer := observer a;
     timer := timer a |}.

(** [CSVPlotter.__init__] *)
Definition initial_app : App :=
  {| widget := set_label "Enter values and press 'Enter' before selecting CSV"
                 initial_widget;
     csv_file := None; widget_initial_diameter := None;
     manual_refresh_rate := None; event_handler := None; observer := None;
     timer := None |}.

(** The truth value of [self.csv_file]: [None] and the empty text are false. *)
Definition path_set (f : option string) : bool :=
  match f with
  | Some s => negb (is_empty s)
  | None => false
  end.

(** [self.event_handler.plot_data()], reading the handler's file. *)
Definition refresh (fs : FileSystem) (h : CSVEventHandler) (p : CSVPlotter)
  : CSVPlotter :=
  plot_data h (fs (file_path h)) p.

(** [manual_refresh].  The attribute [event_handler] is created together with
    the first non-empty [csv_file], so the last case does not occur (see
    [app_invariant]). *)
Definition manual_refresh (fs : FileSystem) (a : App) : App :=
  if path_set (csv_file a)
  then match event_handler a with
       | Some h => with_widget (refresh fs h) a
       | None => a
       end
  else a.

(** [int(v)] of a double: truncation towards zero, a [ValueError] for [nan]
    and an [OverflowError] for an infinity. *)
Inductive int_outcome : Type :=
| IntOk (z : Z)
| IntValueError
| IntOverflowError.

Definition int_of (v : num) : int_outcome :=
  match v with
  | Fin q => IntOk (Z.quot (Qnum q) (Z.pos (Qden q)))
  | NaN => IntValueError
  | PInf | NInf => IntOverflowError
  end.

(** What a slot leaves behind: it returns, or an exception that nothing
    catches leaves it (the state is the one reached at that point). *)
Inductive slot (A : Type) : Type :=
| Returned (a : A)
| Uncaught (a : A).
Arguments Returned {A} a.
Arguments Uncaught {A} a.

Definition set_diameter (d : num) (a : App) : App :=
  {| widget := widget a; csv_file := csv_file a;
     widget_initial_diameter := Some d;
     manual_refresh_rate := manual_refresh_rate a;
     event_handler := event_handler a; observer := observer a;
     timer := timer a |}.

Definition set_rate (r : Z) (a : App) : App :=
  {| widget := widget a; csv_file := csv_file a;
     widget_initial_diameter := widget_initial_diameter a;
     manual_refresh_rate := Some r;
     event_handler := event_handler a; observer := observer a;
     timer := timer a |}.

Definition invalid_input_msg : string :=
  "Invalid input. Enter numeric values and press 'Enter'.".

(** [save_inputs]: the two assignments and the label, inside one [try] that
    catches [ValueError] only. *)
Definition save_inputs (float_of_text : string -> option num)
    (show : num -> string) (diameter_text interval_text : string) (a : App)
  : slot App :=
  match float_of_text diameter_text with
  | None => Returned (with_widget (set_label invalid_input_msg) a)
  | Some d =>
      let a1 := set_diameter d a in
      match float_of_text interval_text with
      | None => Returned (with_widget (set_label invalid_input_msg) a1)
      | Some v =>
          match int_of (v * lit 1000)%num with
          | IntValueError =>
              Returned (with_widget (set_label invalid_input_msg) a1)
          | IntOverflowError => Uncaught a1
          | IntOk rate =>
              Returned
                (with_widget
                   (set_label ("Values Set: Diameter = " ++ show d
                               ++ " mm, Refresh Rate = "
                               ++ show (lit rate / lit 1000)%num ++ " s"))
                   (set_rate rate a1))
          end
      end
  end.

(** [select_csv], with the path picked in the dialog. *)
Definition select_csv (fs : FileSystem) (chosen : string) (a : App) : App :=
  match widget_initial_diameter a with
  | None => with_widget (set_label "Set values and press 'Enter' first!") a
  | Some d =>
      if is_empty chosen then a
      else
        let h := {| file_path := chosen; initial_diameter := d |} in
        {| widget := refresh fs h
                       (set_label ("Selected: " ++ chosen) (widget a));
           csv_file := Some chosen;
           widget_initial_diameter := widget_initial_diameter a;
           manual_refresh_rate := manual_refresh_rate a;
           event_handler := Some h; observer := observer a;
           timer := timer a |}
  end.

(** [observer.stop(); observer.join()] when there is an observer. *)
Definition stop_observer (a : App) : App :=
  {| widget := widget a; csv_file := csv_file a;
     widget_initial_diameter := widget_initial_diameter a;
     manual_refresh_rate := manual_refresh_rate a;
     event_handler := event_handler a;
     observer := option_map
                   (fun o => {| watched_folder := watched_folder o;
                                watch_handler := watch_handler o;
                                alive := false |}) (observer a);
     timer := timer a |}.

(** [s.split("/")] and ["/".join(parts[:-1])] *)
Fixpoint split_slash (s : string) : list string :=
  match s with
  | EmptyString => [EmptyString]
  | String c rest =>
      if Ascii.eqb c "/"%char then EmptyString :: split_slash rest
      else match split_slash rest with
           | w :: ws => String c w :: ws
           | [] => [String c EmptyString]
           end
  end.

Definition folder_path (csv_file : string) : string :=
  String.concat "/" (removelast (split_slash csv_file)).

Definition no_csv_msg : string := "No CSV file selected!".

(** A handler for the selected file and the saved diameter.  Both exist
    whenever a file is selected (see [app_invariant]). *)
Definition new_handler (a : App) : option CSVEventHandler :=
  match csv_file a, widget_initial_diameter a with
  | Some f, Some d => Some {| file_path := f; initial_diameter := d |}
  | _, _ => None
  end.

(** [start_auto_refresh] *)
Definition start_auto_refresh (fs : FileSystem) (a : App) : App :=
  let a := stop_observer a in
  if negb (path_set (csv_file a))
  then with_widget (set_label no_csv_msg) a
  else
    match new_handler a, csv_file a with
    | Some h, Some f =>
        {| widget := refresh fs h
                       (set_label ("Auto-refresh started for: " ++ f)
                          (widget a));
           csv_file := csv_file a;
           widget_initial_diameter := widget_initial_diameter a;
           manual_refresh_rate := manual_refresh_rate a;
           event_handler := Some h;
           observer := Some {| watched_folder := folder_path f;
                               watch_handler := h; alive := true |};
           timer := None |}
    | _, _ => a
    end.

(** [start_manual_refresh] *)
Definition start_manual_refresh (fs : FileSystem) (show : num -> string)
    (a : App) : App :=
  let a := stop_observer a in
  match manual_refresh_rate a with
  | None => with_widget (set_label "Set values and press 'Enter' first!") a
  | Some rate =>
      if negb (path_set (csv_file a))
      then with_widget (set_label no_csv_msg) a
      else
        match new_handler a with
        | Some h =>
            {| widget := refresh fs h
                           (set_label ("Manual refresh started (interval: "
                                       ++ show (lit rate / lit 1000)%num
                                       ++ " s)") (widget a));
               csv_file := csv_file a;
               widget_initial_diameter := widget_initial_diameter a;
               manual_refresh_rate := manual_refresh_rate a;
               event_handler := Some h; observer := observer a;
               timer := Some rate |}
        | None => a
        end
  end.

(** *** Scales and ranges *)

Definition position_eqb (a b : position) : bool :=
  match a, b with
  | P00, P00 | P01, P01 | P10, P10 | P11, P11 => true
  | _, _ => false
  end.

Definition set_scales (sc : position -> axis_scale * axis_scale)
    (p : CSVPlotter) : CSVPlotter :=
  {| label := label p; figure := figure p; canvas := canvas p;
     queued_draws := queued_draws p; calculated_data := calculated_data p;
     scales := sc; ranges := ranges p;
     time_unit_combo := time_unit_combo p;
     diameter_unit_combo := diameter_unit_combo p;
     strain_rate_unit_combo := strain_rate_unit_combo p |}.

Definition set_ranges (rg : position -> range) (p : CSVPlotter)
  : CSVPlotter :=
  {| label := label p; figure := figure p; canvas := canvas p;
     queued_draws := queued_draws p; calculated_data := calculated_data p;
     scales := scales p; ranges := rg;
     time_unit_combo := time_unit_combo p;
     diameter_unit_combo := diameter_unit_combo p;
     strain_rate_unit_combo := strain_rate_unit_combo p |}.

(** [self.scales[position][idx] = scale] with [idx = 0 if axis == 'x' else 1] *)
Definition store_scale (pos : position) (axis : string) (scale : axis_scale)
    (p : CSVPlotter) : CSVPlotter :=
  set_scales
    (fun q =>
       if position_eqb q pos
       then (if (axis =? "x")%string then (scale, snd (scales p q))
             else (fst (scales p q), scale))
       else scales p q) p.

Definition update_scale (fs : FileSystem) (pos : position) (axis : string)
    (scale : axis_scale) (a : App) : App :=
  manual_refresh fs (with_widget (store_scale pos axis scale) a).

(** The four keys of the index table of [update_range]. *)
Inductive range_key : Type := X_min | X_max | Y_min | Y_max.

Definition put_bound (k : range_key) (v : option num) (r : range) : range :=
  let '(x_min, x_max, y_min, y_max) := r in
  match k with
  | X_min => (v, x_max, y_min, y_max)
  | X_max => (x_min, v, y_min, y_max)
  | Y_min => (x_min, x_max, v, y_max)
  | Y_max => (x_min, x_max, y_min, v)
  end.

Definition get_bound (k : range_key) (r : range) : option num :=
  let '(x_min, x_max, y_min, y_max) := r in
  match k with
  | X_min => x_min
  | X_max => x_max
  | Y_min => y_min
  | Y_max => y_max
  end.

(** [float(value) if value else None], with [None] for a [ValueError] too *)
Definition bound_of_text (float_of_text : string -> option num)
    (value : string) : option num :=
  if is_empty value then None else float_of_text value.

Definition store_range (pos : position) (k : range_key) (v : option num)
    (p : CSVPlotter) : CSVPlotter :=
  set_ranges
    (fun q => if position_eqb q pos then put_bound k v (ranges p q)
              else ranges p q) p.

Definition update_range (float_of_text : string -> option num)
    (fs : FileSystem) (pos : position) (k : range_key) (value : string)
    (a : App) : App :=
  manual_refresh fs
    (with_widget (store_range pos k (bound_of_text float_of_text value)) a).

(** *** The unit combo boxes: a new text, then the connected [manual_refresh] *)

Inductive unit_combo : Type := TimeUnit | DiameterUnit | StrainRateUnit.

Definition combo_text (c : unit_combo) (p : CSVPlotter) : string :=
  match c with
  | TimeUnit => time_unit_combo p
  | DiameterUnit => diameter_unit_combo p
  | StrainRateUnit => strain_rate_unit_combo p
  end.

Definition set_combo (c : unit_combo) (text : string) (p : CSVPlotter)
  : CSVPlotter :=
  {| label := label p; figure := figure p; canvas := canvas p;
     queued_draws := queued_draws p; calculated_data := calculated_data p;
     scales := scales p; ranges := ranges p;
     time_unit_combo :=
       match c with TimeUnit => text | _ => time_unit_combo p end;
     diameter_unit_combo :=
       match c with DiameterUnit => text | _ => diameter_unit_combo p end;
     strain_rate_unit_combo :=
       match c with StrainRateUnit => text | _ => strain_rate_unit_combo p end |}.

(** [currentTextChanged] fires only when the text changes. *)
Definition change_unit (fs : FileSystem) (c : unit_combo) (text : string)
    (a : App) : App :=
  if (text =? combo_text c (widget a))%string then a
  else manual_refresh fs (with_widget (set_combo c text) a).

(** The items a combo box offers. *)
Definition combo_items (c : unit_combo) : list string :=
  match c with
  | TimeUnit => time_units
  | DiameterUnit => diameter_units
  | StrainRateUnit => strain_rate_units
  end.

(** *** The timer and the file watcher *)

Definition timer_tick (fs : FileSystem) (a : App) : App :=
  match timer a with
  | Some _ => manual_refresh fs a
  | None => a
  end.

Definition file_event (fs : FileSystem) (src_path : string) (a : App) : App :=
  match observer a with
  | Some o =>
      if alive o
      then with_widget
             (on_modified (watch_handler o) src_path
                (fs (file_path (watch_handler o)))) a
      else a
  | None => a
  end.

(** *** What can happen to the window *)

Inductive event : Type :=
| PressEnter (diameter_text interval_text : string)
| SelectCSV (chosen : string)
| StartAuto
| StartManual
| ChangeUnit (c : unit_combo) (text : string)
| ChangeScale (pos : position) (axis : string) (scale : axis_scale)
| ChangeRange (pos : position) (k : range_key) (value : string)
| TimerTick
| FileModified (src_path : string).

Section Run.

Variable float_of_text : string -> option num.
Variable show : num -> string.

Definition step (fs : FileSystem) (e : event) (a : App) : slot App :=
  match e with
  | PressEnter dt it => save_inputs float_of_text show dt it a
  | SelectCSV chosen => Returned (select_csv fs chosen a)
  | StartAuto => Returned (start_auto_refresh fs a)
  | StartManual => Returned (start_manual_refresh fs show a)
  | ChangeUnit c text => Returned (change_unit fs c text a)
  | ChangeScale pos axis scale => Returned (update_scale fs pos axis scale a)
  | ChangeRange pos k value =>
      Returned (update_range float_of_text fs pos k value a)
  | TimerTick => Returned (timer_tick fs a)
  | FileModified src_path => Returned (file_event fs src_path a)
  end.

(** A run: each event with the file system as it is when it happens.  The
    run stops at an uncaught exception. *)
Fixpoint run (es : list (FileSystem * event)) (a : App) : slot App :=
  match es with
  | [] => Returned a
  | (fs, e) :: rest =>
      match step fs e a with
      | Returned a' => run rest a'
      | Uncaught a' => Uncaught a'
      end
  end.

End Run.

(** An event the window can produce: a unit combo changes to one of its
    items only. *)
Definition possible (e : event) : Prop :=
  match e with
  | ChangeUnit c text => In text (combo_items c)
  | _ => True
  end.

(** The state of a slot's outcome. *)
Definition state_of {A} (s : slot A) : A :=
  match s with Returned a | Uncaught a => a end.

(** What holds of the window at any time. *)
Definition app_invariant (a : App) : Prop :=
  (match csv_file a with
   | Some f =>
       is_empty f = false
       /\ widget_initial_diameter a <> None
       /\ exists h, event_handler a = Some h /\ file_path h = f
   | None => event_handler a = None /\ timer a = None /\ observer a = None
   end)
  /\ (match observer a with
      | Some o => is_empty (file_path (watch_handler o)) = false
                  /\ (alive o = true -> timer a = None)
      | None => True
      end)
  /\ In (time_unit_combo (widget a)) time_units
  /\ In (diameter_unit_combo (widget a)) diameter_units
  /\ In (strain_rate_unit_combo (widget a)) strain_rate_units.

(** Whether a path contains a slash, and its last component. *)
Fixpoint has_slash (s : string) : bool :=
  match s with
  | EmptyString => false
  | String c rest => Ascii.eqb c "/"%char || has_slash rest
  end.

Definition file_name (csv_file : string) : string :=
  List.last (split_slash csv_file) EmptyString.

(** ** [CSVPlotter.export_to_ascii] *)

Definition tab : string := String (ascii_of_nat 9) EmptyString.
Definition newline : string := String (ascii_of_nat 10) EmptyString.

(** [zip] over the four series of [self.calculated_data]: it stops at the
    end of the shortest series. *)
Fixpoint zip4 (a b c d : list num) : list (num * num * num * num) :=
  match a, b, c, d with
  | x :: a', y :: b', z :: c', w :: d' => (x, y, z, w) :: zip4 a' b' c' d'
  | _, _, _, _ => []
  end.

Definition export_header (time_unit diameter_unit strain_rate_unit : string)
  : string :=
  "Time (" ++ time_unit ++ ")" ++ tab
  ++ "Diameter (" ++ diameter_unit ++ ")" ++ tab
  ++ "Diametrical Strain (unitless)" ++ tab
  ++ "Strain Rate (" ++ strain_rate_unit ++ ")" ++ newline.

Definition export_row (show : num -> string) (r : num * num * num * num)
  : string :=
  let '(t, d, ds, sr) := r in
  show t ++ tab ++ show d ++ tab ++ show ds ++ tab ++ show sr ++ newline.

(** The texts written to the file, one per [f.write]. *)
Definition export_writes (show : num -> string)
    (time_unit diameter_unit strain_rate_unit : string) (data : DerivedSeries)
  : list string :=
  export_header time_unit diameter_unit strain_rate_unit
    :: map (export_row show)
         (zip4 (time_converted data) (diameter_converted data)
            (diametrical_strain data) (strain_rate_converted data)).

(** [export_to_ascii] with the path picked in the save dialog: the widget
    after the call and, when a file is written, its path and the texts
    written.  A failure of [open] is outside the model. *)
Definition export_to_ascii (show : num -> string) (chosen : string)
    (p : CSVPlotter) : CSVPlotter * option (string * list string) :=
  match calculated_data p with
  | None => (set_label "No data available to export!" p, None)
  | Some data =>
      if is_empty chosen then (p, None)
      else (set_label ("Data exported to " ++ chosen) p,
            Some (chosen,
                  export_writes show (time_unit_combo p) (diameter_unit_combo p)
                    (strain_rate_unit_combo p) data))
  end.

(** ** The single-plot window [FullScreenPlot]

    The window opened by a double click on one of the four plots: it has a
    figure of its own with one axes, the tuple of series it was given when
    it was opened, two scale boxes, four range inputs and three unit boxes.
    The fields that share a name with [CSVPlotter] carry the prefix [fs_]. *)

Record FullScreenPlot : Type := {
  fs_figure : Figure;
  ax_index : string;
  fs_calculated_data : option DerivedSeries;
  x_scale_combo : axis_scale;
  y_scale_combo : axis_scale;
  x_min_input : string;
  x_max_input : string;
  y_min_input : string;
  y_max_input : string;
  fs_time_unit_combo : string;
  fs_diameter_unit_combo : string;
  fs_strain_rate_unit_combo : string;
  fs_canvas : Figure
}.

(** [ax.relim(); ax.autoscale(axis='x')], the same for y, and for both *)
Definition autoscale_x (ax : Axes) : Axes :=
  {| lines := lines ax; xlabel := xlabel ax; ylabel := ylabel ax;
     xscale := xscale ax; yscale := yscale ax; xlim_request := None;
     ylim_request := ylim_request ax; legend := legend ax |}.

Definition autoscale_y (ax : Axes) : Axes :=
  {| lines := lines ax; xlabel := xlabel ax; ylabel := ylabel ax;
     xscale := xscale ax; yscale := yscale ax; xlim_request := xlim_request ax;
     ylim_request := None; legend := legend ax |}.

Definition autoscale (ax : Axes) : Axes := autoscale_y (autoscale_x ax).

(** [float(text) if text else None] inside the [try] *)
Definition float_or_none (float_of_text : string -> option num)
    (text : string) : result (option num) :=
  if is_empty text then Ok None
  else match float_of_text text with
       | Some v => Ok (Some v)
       | None => Raise (ValueError "could not convert string to float")
       end.

(** The body of the [try] of [update_ranges]: the axes as they are when it
    ends or raises. *)
Definition try_ranges (float_of_text : string -> option num)
    (w : FullScreenPlot) (ax : Axes) : result unit * Axes :=
  match float_or_none float_of_text (x_min_input w) with
  | Raise e => (Raise e, ax)
  | Ok x_min =>
  match float_or_none float_of_text (x_max_input w) with
  | Raise e => (Raise e, ax)
  | Ok x_max =>
  match float_or_none float_of_text (y_min_input w) with
  | Raise e => (Raise e, ax)
  | Ok y_min =>
  match float_or_none float_of_text (y_max_input w) with
  | Raise e => (Raise e, ax)
  | Ok y_max =>
      match (match x_min, x_max with
             | Some lo, Some hi => set_xlim lo hi ax
             | _, _ => Ok (autoscale_x ax)
             end) with
      | Raise e => (Raise e, ax)
      | Ok ax1 =>
          match (match y_min, y_max with
                 | Some lo, Some hi => set_ylim lo hi ax1
                 | _, _ => Ok (autoscale_y ax1)
                 end) with
          | Raise e => (Raise e, ax1)
          | Ok ax2 => (Ok tt, ax2)
          end
      end
  end end end end.

Definition set_fs_figure (f : Figure) (w : FullScreenPlot) : FullScreenPlot :=
  {| fs_figure := f; ax_index := ax_index w;
     fs_calculated_data := fs_calculated_data w;
     x_scale_combo := x_scale_combo w; y_scale_combo := y_scale_combo w;
     x_min_input := x_min_input w; x_max_input := x_max_input w;
     y_min_input := y_min_input w; y_max_input := y_max_input w;
     fs_time_unit_combo := fs_time_unit_combo w;
     fs_diameter_unit_combo := fs_diameter_unit_combo w;
     fs_strain_rate_unit_combo := fs_strain_rate_unit_combo w;
     fs_canvas := fs_canvas w |}.

(** [self.canvas.draw()] *)
Definition fs_draw (w : FullScreenPlot) : FullScreenPlot :=
  {| fs_figure := fs_figure w; ax_index := ax_index w;
     fs_calculated_data := fs_calculated_data w;
     x_scale_combo := x_scale_combo w; y_scale_combo := y_scale_combo w;
     x_min_input := x_min_input w; x_max_input := x_max_input w;
     y_min_input := y_min_input w; y_max_input := y_max_input w;
     fs_time_unit_combo := fs_time_unit_combo w;
     fs_diameter_unit_combo := fs_diameter_unit_combo w;
     fs_strain_rate_unit_combo := fs_strain_rate_unit_combo w;
     fs_canvas := fs_figure w |}.

(** [update_ranges]: every [ValueError] of the [try] ends in automatic
    limits on both axes. *)
Definition update_ranges (float_of_text : string -> option num)
    (w : FullScreenPlot) : FullScreenPlot :=
  if (ax_index w =? "All")%string then w
  else
    match fs_figure w with
    | [] => w
    | ax :: rest =>
        let ax' := match try_ranges float_of_text w ax with
                   | (Ok _, ax2) => ax2
                   | (Raise _, ax1) => autoscale ax1
                   end in
        fs_draw (set_fs_figure (ax' :: rest) w)
    end.

(** [update_scales] *)
Definition update_scales (w : FullScreenPlot) : FullScreenPlot :=
  if (ax_index w =? "All")%string then w
  else
    match fs_figure w with
    | [] => w
    | ax :: rest =>
        fs_draw
          (set_fs_figure
             (set_yscale (y_scale_combo w) (set_xscale (x_scale_combo w) ax)
                :: rest) w)
    end.

(** The [if]/[elif] chain of [update_plot] on the window's index. *)
Definition plot_by_index (w : FullScreenPlot) (data : DerivedSeries)
    (ax : Axes) : Axes :=
  if (ax_index w =? "Plot 1")%string then
    set_ylabel ("Diameter (" ++ fs_diameter_unit_combo w ++ ")")
      (plot (time_converted data) (diameter_converted data)
         "b-" "Absolute Diameter" ax)
  else if (ax_index w =? "Plot 2")%string then
    set_ylabel "Diametrical Strain (unitless)"
      (plot (time_converted data) (diametrical_strain data)
         "r-" "Diametrical Strain" ax)
  else if (ax_index w =? "Plot 3")%string then
    set_ylabel ("Strain Rate (" ++ fs_strain_rate_unit_combo w ++ ")")
      (plot (time_converted data) (strain_rate_converted data)
         "g-" "Strain Rate" ax)
  else if (ax_index w =? "Plot 4")%string then
    set_ylabel ("Strain Rate (" ++ fs_strain_rate_unit_combo w ++ ")")
      (set_xlabel "Diametrical Strain (unitless)"
         (plot (diametrical_strain data) (strain_rate_converted data)
            "m-" "Creep Rate vs Strain" ax))
  else ax.

(** [update_plot]; [ax.clear()] leaves fresh axes. *)
Definition update_plot (float_of_text : string -> option num)
    (w : FullScreenPlot) : FullScreenPlot :=
  if (ax_index w =? "All")%string then w
  else
    match fs_calculated_data w, fs_figure w with
    | Some data, ax :: rest =>
        let ax1 := plot_by_index w data new_axes in
        let ax2 := set_xlabel ("Time (" ++ fs_time_unit_combo w ++ ")") ax1 in
        let ax3 := show_legend ax2 in
        let ax4 := set_yscale (y_scale_combo w)
                     (set_xscale (x_scale_combo w) ax3) in
        fs_draw
          (update_ranges float_of_text (set_fs_figure (ax4 :: rest) w))
    | _, _ => w
    end.

(** The number behind each range input, when all four can be read. *)
Definition parsed_ranges (float_of_text : string -> option num)
    (w : FullScreenPlot) : option range :=
  match float_or_none float_of_text (x_min_input w),
        float_or_none float_of_text (x_max_input w),
        float_or_none float_of_text (y_min_input w),
        float_or_none float_of_text (y_max_input w) with
  | Ok a, Ok b, Ok c, Ok d => Some (a, b, c, d)
  | _, _, _, _ => None
  end.

(** The line a single-plot window shows, by its index. *)
Definition window_line (index : string) (data : DerivedSeries) : list Line :=
  if (index =? "Plot 1")%string then [rendered_line data P00]
  else if (index =? "Plot 2")%string then [rendered_line data P01]
  else if (index =? "Plot 3")%string then [rendered_line data P10]
  else if (index =? "Plot 4")%string then [rendered_line data P11]
  else [].

(** The axes after the [try] of [update_ranges] and its [except]. *)
Definition ranged (float_of_text : string -> option num)
    (w : FullScreenPlot) (ax : Axes) : Axes :=
  match try_ranges float_of_text w ax with
  | (Ok _, ax2) => ax2
  | (Raise _, ax1) => autoscale ax1
  end.

(** Unit texts kept by a change of the widget. *)
Definition keeps_selection (f : CSVPlotter -> CSVPlotter) : Prop :=
  forall p, same_selection p (f p).

(** [FullScreenPlot.export_to_ascii] with the path picked in the save
    dialog: the header takes the units of the window's own boxes, or of the
    parent's boxes in the window of all four plots; the rows are the tuple
    the window holds. *)
Definition fs_export_to_ascii (show : num -> string) (chosen : string)
    (parent_widget : CSVPlotter) (w : FullScreenPlot)
  : option (string * list string) :=
  match fs_calculated_data w with
  | None => None
  | Some data =>
      if is_empty chosen then None
      else
        let own := negb (ax_index w =? "All")%string in
        Some (chosen,
              export_writes show
                (if own then fs_time_unit_combo w
                 else time_unit_combo parent_widget)
                (if own then fs_diameter_unit_combo w
                 else diameter_unit_combo parent_widget)
                (if own then fs_strain_rate_unit_combo w
                 else strain_rate_unit_combo parent_widget)
                data)
  end.

(** A unit box of the window gets a new text; [currentTextChanged] fires
    when the text changes and calls [update_plot]. *)
Definition fs_combo_text (c : unit_combo) (w : FullScreenPlot) : string :=
  match c with
  | TimeUnit => fs_time_unit_combo w
  | DiameterUnit => fs_diameter_unit_combo w
  | StrainRateUnit => fs_strain_rate_unit_combo w
  end.

Definition fs_set_combo (c : unit_combo) (text : string) (w : FullScreenPlot)
  : FullScreenPlot :=
  {| fs_figure := fs_figure w; ax_index := ax_index w;
     fs_calculated_data := fs_calculated_data w;
     x_scale_combo := x_scale_combo w; y_scale_combo := y_scale_combo w;
     x_min_input := x_min_input w; x_max_input := x_max_input w;
     y_min_input := y_min_input w; y_max_input := y_max_input w;
     fs_time_unit_combo :=
       match c with TimeUnit => text | _ => fs_time_unit_combo w end;
     fs_diameter_unit_combo :=
       match c with DiameterUnit => text | _ => fs_diameter_unit_combo w end;
     fs_strain_rate_unit_combo :=
       match c with
       | StrainRateUnit => text
       | _ => fs_strain_rate_unit_combo w
       end;
     fs_canvas := fs_canvas w |}.

Definition fs_change_unit (float_of_text : string -> option num)
    (c : unit_combo) (text : string) (w : FullScreenPlot) : FullScreenPlot :=
  if (text =? fs_combo_text c w)%string then w
  else update_plot float_of_text (fs_set_combo c text w).

(** The rows of an export, without the header. *)
Definition rows_written (out : option (string * list string))
  : option (list string) :=
  option_map (fun r => tl (snd r)) out.

(** ** Sample inputs for the examples *)

(** A reading of texts that knows three numbers, and a printing of
    numbers that knows three. *)
Definition sample_float (text : string) : option num :=
  if (text =? "10")%string then Some (lit 10)
  else if (text =? "0.5")%string then Some (Fin (1 # 2))
  else if (text =? "inf")%string then Some PInf
  else None.

Definition sample_show (v : num) : string :=
  match v with
  | Fin q => if Qeq_bool q 0 then "0.0"
             else if Qeq_bool q (1 # 2) then "0.5"
             else if Qeq_bool q 10 then "10.0"
             else "..."
  | PInf => "inf"
  | NInf => "-inf"
  | NaN => "nan"
  end.

(** A file system with one readable file. *)
Definition sample_files : FileSystem :=
  fun path => if (path =? "data.csv")%string then Ok five_rows
              else Raise (ReadError "No such file or directory").

(** Enter, Select CSV, Start Manual Refresh, a change of the time unit,
    Start Auto Refresh and a change of the watched file. *)
Definition sample_run : list (FileSystem * event) :=
  [ (sample_files, PressEnter "10" "0.5");
    (sample_files, SelectCSV "data.csv");
    (sample_files, StartManual);
    (sample_files, ChangeUnit TimeUnit "min");
    (sample_files, StartAuto);
    (sample_files, FileModified "data.csv") ].

(** A widget whose first plot has the x range from [inf] to 1. *)
Definition unbounded_widget : CSVPlotter :=
  store_range P00 X_min (Some PInf)
    (store_range P00 X_max (Some (lit 1)) initial_widget).

(** The window after Enter and Select CSV. *)
Definition selected_app : App :=
  select_csv sample_files "data.csv"
    (state_of (save_inputs sample_float sample_show "10" "0.5" initial_app)).

(** A single-plot window for the fourth plot, with two samples and the x
    range typed in as 10 to [inf]. *)
Definition sample_series : DerivedSeries :=
  {| time_converted := [lit 0; lit 1];
     diameter_converted := [lit 10; lit 11];
     diametrical_strain := [lit 0; Fin (1 # 10)];
     strain_rate_converted := [Fin (1 # 10); Fin (1 # 10)] |}.

Definition sample_window : FullScreenPlot :=
  {| fs_figure := [new_axes]; ax_index := "Plot 4";
     fs_calculated_data := Some sample_series;
     x_scale_combo := log; y_scale_combo := linear;
     x_min_input := "10"; x_max_input := "inf";
     y_min_input := ""; y_max_input := "";
     fs_time_unit_combo := "min"; fs_diameter_unit_combo := "mm";
     fs_strain_rate_unit_combo := "1/s"; fs_canvas := [] |}.

(** * Properties *)

(** ** Arithmetic of [num] *)

Section NumFacts.

Lemma inject_Z_pos (z : Z) : (0 < z)%Z -> 0 < inject_Z z.
Proof. intros Hz. unfold Qlt; simpl. lia. Qed.

Lemma Qle_bool_false (a b : Q) : Qle_bool a b = false <-> b < a.
Proof.
  split; intros H.
  - apply Qnot_le_lt. intros Hle. apply Qle_bool_iff in Hle. congruence.
  - destruct (Qle_bool a b) eqn:E; [|reflexivity].
    apply Qle_bool_iff in E. exfalso. exact (Qlt_not_le _ _ H E).
Qed.

Lemma Qeq_bool_false (a b : Q) : Qeq_bool a b = false <-> ~ a == b.
Proof.
  split; intros H.
  - intros E. apply Qeq_bool_iff in E. congruence.
  - destruct (Qeq_bool a b) eqn:E; [|reflexivity].
    apply Qeq_bool_iff in E. contradiction.
Qed.



Lemma inf_of_sign_pos (q : Q) : 0 < q -> inf_of_sign q = PInf.
Proof.
  intros H. unfold inf_of_sign.
  destruct (Qle_bool 0 q) eqn:E; [reflexivity|].
  apply Qle_bool_false in E. exfalso.
  exact (Qlt_irrefl _ (Qlt_trans _ _ _ H E)).
Qed.

Lemma inf_of_sign_neg (q : Q) : 0 < q -> inf_of_sign (- q) = NInf.
Proof.
  intros H. unfold inf_of_sign.
  destruct (Qle_bool 0 (- q)) eqn:E; [|reflexivity].
  apply Qle_bool_iff in E. exfalso.
  apply (Qlt_irrefl 0). apply Qlt_le_trans with q; [assumption|].
  apply Qopp_le_compat in E. rewrite Qopp_involutive in E. exact E.
Qed.

Lemma Qeq_bool_pos (q : Q) : 0 < q -> Qeq_bool q 0 = false.
Proof.
  intros H. apply Qeq_bool_false. intros E. rewrite E in H.
  exact (Qlt_irrefl _ H).
Qed.









(** Two successive multiplications by positive integer constants are one
    multiplication by their product. *)
Lemma mul_lit_lit (x : num) (a b : Z) :
  (0 < a)%Z -> (0 < b)%Z -> (x * lit a * lit b)%num = (x * lit (a * b))%num.
Proof.
  intros Ha Hb.
  assert (Hab : (0 < a * b)%Z) by lia.
  apply inject_Z_pos in Ha, Hb, Hab.
  destruct x as [q| | |]; unfold lit; cbn [mul].
  - f_equal. apply Qred_complete. rewrite Qred_correct, inject_Z_mult. ring.
  - rewrite !Qeq_bool_pos, !inf_of_sign_pos by assumption. cbn [mul].
    rewrite Qeq_bool_pos, inf_of_sign_pos by assumption. reflexivity.
  - rewrite !Qeq_bool_pos, !inf_of_sign_neg by assumption. cbn [mul].
    rewrite Qeq_bool_pos, inf_of_sign_neg by assumption. reflexivity.
  - reflexivity.
Qed.

Lemma Qred_Qred (q : Q) : Qred (Qred q) = Qred q.
Proof. apply Qred_complete, Qred_correct. Qed.

Lemma add_normal (x y : num) : normal (x + y).
Proof. destruct x, y; cbn [add normal]; auto using Qred_Qred. Qed.

Lemma sub_normal (x y : num) : normal (x - y).
Proof. destruct x, y; cbn [sub normal]; auto using Qred_Qred. Qed.

Lemma mul_normal (x y : num) : normal (x * y).
Proof.
  destruct x as [a| | |], y as [b| | |]; cbn [mul normal];
    auto using Qred_Qred;
    match goal with
    | |- context [Qeq_bool ?q 0] => destruct (Qeq_bool q 0)
    end; cbn [normal]; auto;
    unfold inf_of_sign;
    match goal with
    | |- context [Qle_bool 0 ?q] => destruct (Qle_bool 0 q)
    end; exact I.
Qed.

Lemma div_normal (x y : num) : normal (x / y).
Proof.
  destruct x as [a| | |], y as [b| | |]; cbn [div normal]; auto.
  - destruct (Qeq_bool b 0); [|cbn [normal]; apply Qred_Qred].
    destruct (Qeq_bool a 0); [exact I|].
    unfold inf_of_sign. now destruct (Qle_bool 0 a).
  - unfold inf_of_sign. now destruct (Qle_bool 0 b).
  - unfold inf_of_sign. now destruct (Qle_bool 0 b).
Qed.

(** On values in lowest terms [==] is equality. *)
Lemma eqb_normal (x y : num) :
  normal x -> normal y -> eqb x y = true -> x = y.
Proof.
  destruct x as [a| | |], y as [b| | |]; cbn [eqb normal];
    try discriminate; try reflexivity.
  intros Ha Hb H. apply Qeq_bool_iff in H.
  rewrite <- Ha, <- Hb. f_equal. now apply Qred_complete.
Qed.

(** Multiplying by 1 changes nothing. *)
Lemma mul_one_normal (v : num) : normal v -> (v * lit 1)%num = v.
Proof.
  destruct v as [q| | |]; cbn [normal]; try reflexivity.
  intros Hq. unfold lit. cbn [mul]. f_equal.
  rewrite <- Hq at 2. apply Qred_complete.
  change (inject_Z 1) with 1. ring.
Qed.

End NumFacts.

(** ** Lengths of the arrays *)

Section Lengths.

Lemma zip_with_length {A B C} (f : A -> B -> C) (xs : list A) (ys : list B) :
  List.length (zip_with f xs ys) = Nat.min (List.length xs) (List.length ys).
Proof.
  revert ys. induction xs as [|x xs IH]; intros [|y ys]; simpl; auto.
Qed.

Lemma scale_length arr k : List.length (scale arr k) = List.length arr.
Proof. apply length_map. Qed.

Lemma unscale_length arr k : List.length (unscale arr k) = List.length arr.
Proof. apply length_map. Qed.

Lemma shift_down_length arr k : List.length (shift_down arr k) = List.length arr.
Proof. apply length_map. Qed.

Lemma diff_length (x : list num) : List.length (diff x) = (List.length x - 1)%nat.
Proof.
  unfold diff. rewrite zip_with_length. destruct x; simpl; lia.
Qed.

Lemma savgol_interior_length (x : list num) :
  List.length (savgol_interior x) = (List.length x - 4)%nat.
Proof.
  induction x as [|x0 rest IH]; [reflexivity|].
  destruct rest as [|x1 [|x2 [|x3 [|x4 r]]]]; try reflexivity.
  change (S (List.length (savgol_interior (x1 :: x2 :: x3 :: x4 :: r)))
          = (List.length (x0 :: x1 :: x2 :: x3 :: x4 :: r) - 4)%nat).
  rewrite IH. simpl. lia.
Qed.

Lemma savgol_filter_short (x : list num) :
  (List.length x < 5)%nat ->
  savgol_filter x = Raise (ValueError savgol_window_msg).
Proof.
  intros H. unfold savgol_filter.
  apply Nat.ltb_lt in H. rewrite H. reflexivity.
Qed.

Lemma savgol_filter_ok (x : list num) :
  (5 <= List.length x)%nat ->
  exists y, savgol_filter x = Ok y /\ List.length y = List.length x.
Proof.
  intros H. unfold savgol_filter.
  destruct (List.length x <? 5)%nat eqn:E.
  - apply Nat.ltb_lt in E. lia.
  - eexists. split; [reflexivity|].
    rewrite !length_app, savgol_interior_length. simpl. lia.
Qed.

Lemma gradient_interior_uniform_length (f : list num) (h : num) :
  List.length (gradient_interior_uniform f h) = (List.length f - 2)%nat.
Proof.
  induction f as [|f0 rest IH]; [reflexivity|].
  destruct rest as [|f1 [|f2 r]]; try reflexivity.
  change (S (List.length (gradient_interior_uniform (f1 :: f2 :: r) h))
          = (List.length (f0 :: f1 :: f2 :: r) - 2)%nat).
  rewrite IH. simpl. lia.
Qed.

Lemma gradient_interior_length (f dx : list num) :
  List.length dx = (List.length f - 1)%nat ->
  List.length (gradient_interior f dx) = (List.length f - 2)%nat.
Proof.
  revert dx. induction f as [|f0 rest IH]; intros dx Hdx; [reflexivity|].
  destruct rest as [|f1 [|f2 r]]; try (destruct dx; reflexivity).
  destruct dx as [|dx1 [|dx2 dxs]]; try (simpl in Hdx; lia).
  change (S (List.length (gradient_interior (f1 :: f2 :: r) (dx2 :: dxs)))
          = (List.length (f0 :: f1 :: f2 :: r) - 2)%nat).
  rewrite IH; simpl in *; lia.
Qed.

Lemma gradient_ok (f x : list num) :
  List.length x = List.length f -> (2 <= List.length f)%nat ->
  exists g, gradient f x = Ok g /\ List.length g = List.length f.
Proof.
  intros Hlen Hf. unfold gradient.
  rewrite Hlen, Nat.eqb_refl. simpl negb. cbv iota.
  destruct (List.length f <? 2)%nat eqn:E.
  - apply Nat.ltb_lt in E. lia.
  - eexists. split; [reflexivity|].
    rewrite !length_app.
    destruct (uniform (diff x)).
    + rewrite gradient_interior_uniform_length. simpl. lia.
    + rewrite gradient_interior_length; [simpl; lia|].
      rewrite diff_length. lia.
Qed.

Lemma dropna_complete (table : DataFrame) :
  Forall (fun r => complete r = true) (dropna table).
Proof.
  apply Forall_forall. intros r Hr. unfold dropna in Hr.
  apply filter_In in Hr. tauto.
Qed.

End Lengths.

(** ** The unit conversions on the listed units *)

Section Units.

Lemma scale_scale (g : list num) (a b : Z) :
  (0 < a)%Z -> (0 < b)%Z ->
  scale (scale g (lit a)) (lit b) = scale g (lit (a * b)).
Proof.
  intros Ha Hb. unfold scale. rewrite map_map.
  apply map_ext. intros v. now apply mul_lit_lit.
Qed.

Lemma spec_time_factor_pos (u : string) : (0 < spec_time_factor u)%Z.
Proof.
  unfold spec_time_factor.
  destruct (u =? "s")%string; [lia|].
  destruct (u =? "min")%string; lia.
Qed.

Lemma convert_time_listed (time_unit : string) (time : list num) :
  In time_unit time_units ->
  convert_time time_unit time
  = Some (spec_time time_unit time, lit (spec_time_factor time_unit)).
Proof.
  intros [<- | [<- | [<- | []]]]; [|reflexivity|reflexivity].
  unfold spec_time, spec_time_at. cbn [String.eqb Ascii.eqb Bool.eqb].
  now rewrite map_id.
Qed.

Lemma convert_strain_rate_listed (time_unit strain_rate_unit : string)
    (g : list num) :
  In strain_rate_unit strain_rate_units ->
  convert_strain_rate strain_rate_unit g
    (Some (lit (spec_time_factor time_unit)))
  = Ok (Some (scale g (lit (spec_rate_multiplier time_unit strain_rate_unit)))).
Proof.
  pose proof (spec_time_factor_pos time_unit) as Hpos.
  intros [<- | [<- | [<- | [<- | [<- | [<- | []]]]]]];
    unfold convert_strain_rate, spec_rate_multiplier;
    cbn [String.eqb Ascii.eqb Bool.eqb local rbind];
    rewrite ?scale_scale by lia; rewrite ?Z.mul_assoc; reflexivity.
Qed.

Lemma convert_diameter_spec (diameter_unit : string) (sm : list num)
    (initial_diameter : num) :
  convert_diameter diameter_unit sm initial_diameter
  = (map (spec_diameter diameter_unit) sm,
     spec_diameter diameter_unit initial_diameter).
Proof.
  unfold convert_diameter, spec_diameter, scale.
  destruct (diameter_unit =? "μm")%string; [reflexivity|].
  now rewrite map_id.
Qed.

End Units.

(** ** The computation on a table with at least five complete rows *)

Section Pipeline.

Variables (time_unit diameter_unit strain_rate_unit : string).
Variable initial_diameter : num.
Variable table : DataFrame.


(** With five complete rows the filter and the gradient both succeed, on
    arrays as long as the table, whatever the unit texts are. *)
Lemma smooth_and_gradient :
  (5 <= List.length (dropna table))%nat ->
  exists sm g,
    savgol_filter (map r_diameter (dropna table)) = Ok sm
    /\ List.length sm = List.length (dropna table)
    /\ gradient (strain_of (fst (convert_diameter diameter_unit sm initial_diameter))
                           (snd (convert_diameter diameter_unit sm initial_diameter)))
                (map r_time (dropna table)) = Ok g
    /\ List.length g = List.length (dropna table)
    /\ List.length (fst (convert_diameter diameter_unit sm initial_diameter))
       = List.length (dropna table).
Proof.
  intros Hn.
  destruct (savgol_filter_ok (map r_diameter (dropna table))) as [sm [Hsm Hlen]].
  { now rewrite length_map. }
  rewrite length_map in Hlen.
  assert (Hdc : List.length (fst (convert_diameter diameter_unit sm initial_diameter))
                = List.length (dropna table)).
  { unfold convert_diameter. destruct (diameter_unit =? "μm")%string; simpl;
      now rewrite ?scale_length. }
  destruct (gradient_ok
              (strain_of (fst (convert_diameter diameter_unit sm initial_diameter))
                         (snd (convert_diameter diameter_unit sm initial_diameter)))
              (map r_time (dropna table))) as [g [Hg Hglen]].
  { unfold strain_of.
    now rewrite unscale_length, shift_down_length, length_map, Hdc. }
  { unfold strain_of. rewrite unscale_length, shift_down_length, Hdc. lia. }
  exists sm, g. repeat split; try assumption.
  rewrite Hglen. unfold strain_of.
  now rewrite unscale_length, shift_down_length.
Qed.

(** The result on the listed units, written out. *)
Lemma compute_series_listed :
  In time_unit time_units ->
  In strain_rate_unit strain_rate_units ->
  (5 <= List.length (dropna table))%nat ->
  exists sm g,
    savgol_filter (map r_diameter (dropna table)) = Ok sm
    /\ List.length sm = List.length (dropna table)
    /\ gradient (strain_of (fst (convert_diameter diameter_unit sm initial_diameter))
                           (snd (convert_diameter diameter_unit sm initial_diameter)))
                (map r_time (dropna table)) = Ok g
    /\ List.length g = List.length (dropna table)
    /\ compute_series time_unit diameter_unit strain_rate_unit
         initial_diameter table
       = Ok {| time_converted := spec_time time_unit (map r_time (dropna table));
               diameter_converted :=
                 fst (convert_diameter diameter_unit sm initial_diameter);
               diametrical_strain :=
                 strain_of (fst (convert_diameter diameter_unit sm initial_diameter))
                           (snd (convert_diameter diameter_unit sm initial_diameter));
               strain_rate_converted :=
                 scale g (lit (spec_rate_multiplier time_unit strain_rate_unit)) |}.
Proof.
  intros Htu Hsu Hn.
  destruct (smooth_and_gradient Hn) as [sm [g [Hsm [Hlen [Hg [Hglen _]]]]]].
  exists sm, g. repeat split; try assumption.
  unfold compute_series.
  rewrite Hsm. cbn [rbind].
  destruct (convert_diameter diameter_unit sm initial_diameter) as [dc idc] eqn:Ecd.
  cbn [fst snd] in Hg. rewrite Hg. cbn [rbind].
  rewrite (convert_time_listed _ (map r_time (dropna table)) Htu). cbn [option_map fst snd].
  rewrite (convert_strain_rate_listed time_unit _ g Hsu). cbn [rbind local].
  reflexivity.
Qed.

(** The only exception the computation can raise on five complete rows is
    the read of a local variable that an unlisted unit text left unassigned. *)
Lemma compute_series_unbound (e : exn) :
  (5 <= List.length (dropna table))%nat ->
  compute_series time_unit diameter_unit strain_rate_unit initial_diameter table
  = Raise e ->
  exists name, e = UnboundLocalError name.
Proof.
  intros Hn.
  destruct (smooth_and_gradient Hn) as [sm [g [Hsm [_ [Hg _]]]]].
  unfold compute_series.
  rewrite Hsm. cbn [rbind].
  destruct (convert_diameter diameter_unit sm initial_diameter) as [dc idc] eqn:Ecd.
  cbn [fst snd] in Hg. rewrite Hg. cbn [rbind].
  unfold convert_strain_rate.
  destruct (convert_time time_unit (map r_time (dropna table))) as [[tc tf]|];
    cbn [option_map fst snd];
    repeat match goal with
           | |- context [if ?b then _ else _] => destruct b
           end;
    cbn [rbind local]; intros H; inversion H; eauto.
Qed.

End Pipeline.

(** ** Alignment of the four series with the rows *)

Section Alignment.

Lemma savgol_interior_nth (x : list num) (j : nat) :
  (j + 5 <= List.length x)%nat ->
  nth_error (savgol_interior x) j = Some (fit_at 2 (firstn 5 (skipn j x))).
Proof.
  revert j. induction x as [|x0 rest IH]; intros j Hj; [simpl in Hj; lia|].
  destruct rest as [|x1 [|x2 [|x3 [|x4 r]]]]; try (simpl in Hj; lia).
  destruct j as [|j'].
  - reflexivity.
  - change (nth_error (savgol_interior (x1 :: x2 :: x3 :: x4 :: r)) j'
            = Some (fit_at 2 (firstn 5 (skipn j' (x1 :: x2 :: x3 :: x4 :: r))))).
    apply IH. simpl in *. lia.
Qed.

(** Entry [i] of the filter's output, away from the two ends, is the fit
    over the five samples centred at [i]. *)
Lemma savgol_filter_centred (x sm : list num) (i : nat) :
  savgol_filter x = Ok sm ->
  (2 <= i)%nat -> (i + 3 <= List.length x)%nat ->
  nth_error sm i = Some (fit_at 2 (firstn 5 (skipn (i - 2) x))).
Proof.
  unfold savgol_filter. destruct (List.length x <? 5)%nat; [discriminate|].
  intros H Hi Hn. injection H as <-.
  destruct i as [|[|k]]; try lia.
  cbn [app nth_error]. replace (S (S k) - 2)%nat with k by lia.
  rewrite nth_error_app1.
  - apply savgol_interior_nth. lia.
  - rewrite savgol_interior_length. lia.
Qed.

Variables (time_unit diameter_unit strain_rate_unit : string).
Variable initial_diameter : num.
Variable table : DataFrame.

(** C6: on at least five complete rows and any listed unit selection the
    four series have the length of the cleaned table, and entry [i] of each
    comes from row [i]: the converted time from the time of row [i], the
    converted diameter from the filter's entry [i] (in the interior the fit
    centred at row [i]), the strain from the converted diameter at [i], the
    strain rate from the gradient's entry [i]. *)
Theorem series_aligned :
  In time_unit time_units ->
  In strain_rate_unit strain_rate_units ->
  (5 <= List.length (dropna table))%nat ->
  exists ds sm g,
    compute_series time_unit diameter_unit strain_rate_unit
      initial_diameter table = Ok ds
    /\ savgol_filter (map r_diameter (dropna table)) = Ok sm
    /\ gradient (diametrical_strain ds) (map r_time (dropna table)) = Ok g
    /\ List.length (time_converted ds) = List.length (dropna table)
    /\ List.length (diameter_converted ds) = List.length (dropna table)
    /\ List.length (diametrical_strain ds) = List.length (dropna table)
    /\ List.length (strain_rate_converted ds) = List.length (dropna table)
    /\ forall i : nat,
        nth_error (time_converted ds) i
        = option_map (fun r => spec_time_at time_unit (r_time r))
            (nth_error (dropna table) i)
        /\ nth_error (diameter_converted ds) i
           = option_map (spec_diameter diameter_unit) (nth_error sm i)
        /\ nth_error (diametrical_strain ds) i
           = option_map
               (fun v => ((v - spec_diameter diameter_unit initial_diameter)
                          / spec_diameter diameter_unit initial_diameter)%num)
               (nth_error (diameter_converted ds) i)
        /\ nth_error (strain_rate_converted ds) i
           = option_map
               (fun v => (v * lit (spec_rate_multiplier time_unit strain_rate_unit))%num)
               (nth_error g i)
        /\ ((2 <= i)%nat -> (i + 3 <= List.length (dropna table))%nat ->
            nth_error sm i
            = Some (fit_at 2 (firstn 5 (skipn (i - 2)
                                          (map r_diameter (dropna table)))))).
Proof.
  intros Htu Hsu Hn.
  destruct (compute_series_listed time_unit diameter_unit strain_rate_unit
              initial_diameter table Htu Hsu Hn)
    as [sm [g [Hsm [Hlen [Hg [Hglen Hc]]]]]].
  rewrite convert_diameter_spec in Hc, Hg. cbn [fst snd] in Hc, Hg.
  eexists. exists sm, g. split; [exact Hc|].
  cbn [time_converted diameter_converted diametrical_strain
         strain_rate_converted].
  split; [exact Hsm|]. split; [exact Hg|].
  unfold spec_time, strain_of, unscale, shift_down, scale.
  rewrite !length_map.
  repeat (split; [assumption || reflexivity|]).
  intros i. rewrite !map_map, !nth_error_map.
  repeat split.
  - now destruct (nth_error sm i).
  - intros Hi Hi'. apply (savgol_filter_centred _ _ _ Hsm Hi).
    now rewrite length_map.
Qed.

End Alignment.

(** C6, at an input. *)
Lemma series_aligned_witness :
  exists ds,
    compute_series "min" "mm" "μm/s" (lit 3) irregular_rows = Ok ds
    /\ List.length (time_converted ds) = 6%nat
    /\ List.length (diameter_converted ds) = 6%nat
    /\ List.length (diametrical_strain ds) = 6%nat
    /\ List.length (strain_rate_converted ds) = 6%nat.
Proof.
  destruct (series_aligned "min" "mm" "μm/s" (lit 3) irregular_rows)
    as [ds [sm [g [Hc [_ [_ [H1 [H2 [H3 [H4 _]]]]]]]]]].
  - simpl. auto.
  - simpl. auto 10.
  - vm_compute. lia.
  - exists ds. exact (conj Hc (conj H1 (conj H2 (conj H3 H4)))).
Defined.

(** ** The divisors of the gradient over increasing times *)

Section GradientDivisors.









End GradientDivisors.

Section GradientFinite.




Lemma nth_finite (f : list num) (i : nat) :
  all_finite f -> (i < List.length f)%nat -> is_finite (nth i f NaN) = true.
Proof.
  intros Hf Hi. unfold all_finite in Hf. rewrite Forall_forall in Hf.
  apply Hf. now apply nth_In.
Qed.


End GradientFinite.

(** ** The cleaned table *)

Section CleanedTable.

Variable table : DataFrame.

Lemma cell_finite (c : option Q) :
  is_nan (cell c) = false -> is_finite (cell c) = true.
Proof. now destruct c. Qed.

(** After [dropna] the time and diameter columns hold finite values only. *)
Lemma dropna_finite :
  all_finite (map r_time (dropna table))
  /\ all_finite (map r_diameter (dropna table)).
Proof.
  unfold all_finite. rewrite !Forall_map.
  split; eapply Forall_impl; try apply dropna_complete;
    intros r Hr; unfold complete in Hr;
    apply andb_true_iff in Hr as [Hr _];
    apply andb_true_iff in Hr as [Ht Hd];
    apply negb_true_iff in Ht, Hd; now apply cell_finite.
Qed.

End CleanedTable.

(** ** The smoothing filter *)

Section Filter.

(** The fit at place [k] of a window of finite samples is the weighted sum
    of the samples with the weights of row [k]. *)
Lemma fit_at_value (k : nat) (a0 a1 a2 a3 a4 : Q) :
  exists q,
    fit_at k [Fin a0; Fin a1; Fin a2; Fin a3; Fin a4] = Fin q
    /\ Qred q = q
    /\ q == value (nth 0 (fit_weights k) NaN) * a0
            + value (nth 1 (fit_weights k) NaN) * a1
            + value (nth 2 (fit_weights k) NaN) * a2
            + value (nth 3 (fit_weights k) NaN) * a3
            + value (nth 4 (fit_weights k) NaN) * a4.
Proof.
  destruct k as [|[|[|[|k]]]]; eexists;
    (split; [reflexivity|]); (split; [apply Qred_Qred|]);
    cbn [fit_weights nth value q35]; rewrite !Qred_correct; reflexivity.
Qed.

(** The weights are those of the least-squares parabola through five
    equally spaced samples: the residuals are orthogonal to 1, t and t^2
    (the normal equations), and the five fitted values lie on a parabola
    (their third differences vanish). *)
Lemma fit_is_least_squares (a0 a1 a2 a3 a4 : Q) :
  let w := [Fin a0; Fin a1; Fin a2; Fin a3; Fin a4] in
  let y k := value (fit_at k w) in
  (a0 - y 0%nat) + (a1 - y 1%nat) + (a2 - y 2%nat) + (a3 - y 3%nat)
    + (a4 - y 4%nat) == 0
  /\ (a1 - y 1%nat) + 2 * (a2 - y 2%nat) + 3 * (a3 - y 3%nat)
       + 4 * (a4 - y 4%nat) == 0
  /\ (a1 - y 1%nat) + 4 * (a2 - y 2%nat) + 9 * (a3 - y 3%nat)
       + 16 * (a4 - y 4%nat) == 0
  /\ y 3%nat - 3 * y 2%nat + 3 * y 1%nat - y 0%nat == 0
  /\ y 4%nat - 3 * y 3%nat + 3 * y 2%nat - y 1%nat == 0.
Proof.
  intros w y. unfold y, w.
  destruct (fit_at_value 0 a0 a1 a2 a3 a4) as [q0 [-> [_ E0]]].
  destruct (fit_at_value 1 a0 a1 a2 a3 a4) as [q1 [-> [_ E1]]].
  destruct (fit_at_value 2 a0 a1 a2 a3 a4) as [q2 [-> [_ E2]]].
  destruct (fit_at_value 3 a0 a1 a2 a3 a4) as [q3 [-> [_ E3]]].
  destruct (fit_at_value 4 a0 a1 a2 a3 a4) as [q4 [-> [_ E4]]].
  cbn [value fit_weights nth q35] in *.
  rewrite E0, E1, E2, E3, E4.
  repeat split; ring.
Qed.

(** A window of five equal samples is fitted by that sample. *)
Lemma fit_constant (k : nat) (c : Q) :
  fit_at k [Fin c; Fin c; Fin c; Fin c; Fin c] = Fin (Qred c).
Proof.
  destruct (fit_at_value k c c c c c) as [q [-> [Hq E]]].
  f_equal. rewrite <- Hq. apply Qred_complete. rewrite E.
  destruct k as [|[|[|[|k]]]]; cbn [fit_weights nth value q35]; ring.
Qed.

Lemma savgol_interior_constant (c : Q) (n : nat) :
  savgol_interior (repeat (Fin c) n) = repeat (Fin (Qred c)) (n - 4).
Proof.
  induction n as [|n IH]; [reflexivity|].
  destruct n as [|[|[|[|m]]]]; try reflexivity.
  change (fit_at 2 [Fin c; Fin c; Fin c; Fin c; Fin c]
            :: savgol_interior (repeat (Fin c) (S (S (S (S m)))))
          = repeat (Fin (Qred c)) (S (S (S (S (S m)))) - 4)).
  rewrite IH, fit_constant.
  replace (S (S (S (S (S m)))) - 4)%nat with (S (S (S (S (S m))) - 4))%nat
    by lia.
  reflexivity.
Qed.

Lemma firstn_repeat {A} (x : A) (k n : nat) :
  firstn k (repeat x n) = repeat x (Nat.min k n).
Proof.
  revert n. induction k as [|k IH]; intros [|n]; cbn; try reflexivity.
  now rewrite IH.
Qed.

Lemma skipn_repeat {A} (x : A) (k n : nat) :
  skipn k (repeat x n) = repeat x (n - k).
Proof.
  revert n. induction k as [|k IH]; intros [|n]; cbn; try reflexivity.
  apply IH.
Qed.

(** The filter returns a constant series of any length from 5 on
    unchanged. *)
Lemma savgol_filter_constant (c : Q) (n : nat) :
  (5 <= n)%nat ->
  savgol_filter (repeat (Fin c) n) = Ok (repeat (Fin (Qred c)) n).
Proof.
  intros Hn. unfold savgol_filter. rewrite repeat_length.
  destruct (n <? 5)%nat eqn:E; [apply Nat.ltb_lt in E; lia|].
  rewrite savgol_interior_constant.
  rewrite firstn_repeat, skipn_repeat.
  replace (Nat.min 5 n) with 5%nat by lia.
  replace (n - (n - 5))%nat with 5%nat by lia.
  cbn [repeat]. rewrite !fit_constant.
  f_equal.
  transitivity (repeat (Fin (Qred c)) (2 + ((n - 4) + 2)));
    [|f_equal; lia].
  rewrite !repeat_app. reflexivity.
Qed.

Lemma fit_at_normal (k : nat) (w : list num) :
  List.length w = 5%nat -> normal (fit_at k w).
Proof.
  destruct w as [|x0 [|x1 [|x2 [|x3 [|x4 [|x5 r]]]]]]; try discriminate.
  intros _. destruct k as [|[|[|[|k]]]];
    unfold fit_at, dot; cbn [fit_weights zip_with fold_left];
    apply add_normal.
Qed.

Lemma savgol_interior_normal (x : list num) :
  Forall normal (savgol_interior x).
Proof.
  induction x as [|x0 rest IH]; [constructor|].
  destruct rest as [|x1 [|x2 [|x3 [|x4 r]]]]; try constructor.
  - now apply fit_at_normal.
  - exact IH.
Qed.

(** Every entry of the filter's output is in lowest terms, so the factor 1
    of the millimetre branch is a multiplication by 1. *)
Lemma savgol_filter_normal (x sm : list num) :
  savgol_filter x = Ok sm -> Forall normal sm.
Proof.
  unfold savgol_filter.
  destruct (List.length x <? 5)%nat eqn:E; [discriminate|].
  apply Nat.ltb_ge in E.
  assert (H1 : List.length (firstn 5 x) = 5%nat)
    by (rewrite length_firstn; lia).
  assert (H2 : List.length (skipn (List.length x - 5) x) = 5%nat)
    by (rewrite length_skipn; lia).
  remember (firstn 5 x) as first.
  remember (skipn (List.length x - 5) x) as last.
  intros H. injection H as <-.
  change (Forall normal ([fit_at 0 first; fit_at 1 first]
                           ++ savgol_interior x
                           ++ [fit_at 3 last; fit_at 4 last])).
  apply Forall_app. split; [|apply Forall_app; split].
  - constructor; [|constructor; [|constructor]]; now apply fit_at_normal.
  - apply savgol_interior_normal.
  - constructor; [|constructor; [|constructor]]; now apply fit_at_normal.
Qed.

Lemma times_one (sm : list num) :
  Forall normal sm -> scale sm (lit 1) = sm.
Proof.
  intros H. unfold scale. rewrite <- (map_id sm) at 2.
  apply map_ext_Forall. eapply Forall_impl; [|exact H].
  intros v Hv. now apply mul_one_normal.
Qed.

(** The normal equations determine the parabola. *)
Lemma least_squares_parabola_unique (a : nat -> Q) (c0 c1 c2 d0 d1 d2 : Q) :
  least_squares_parabola a c0 c1 c2 ->
  least_squares_parabola a d0 d1 d2 ->
  c0 == d0 /\ c1 == d1 /\ c2 == d2.
Proof.
  unfold least_squares_parabola, parabola. cbn [Z.of_nat Pos.of_succ_nat Pos.succ].
  change (inject_Z 0) with 0. change (inject_Z 1) with 1.
  change (inject_Z 2) with 2. change (inject_Z 3) with 3.
  change (inject_Z 4) with 4.
  intros [A1 [A2 A3]] [B1 [B2 B3]].
  repeat split; lra.
Qed.

(** The fit at place [k] of a window is the value at [k] of the window's
    least-squares parabola. *)
Lemma fit_at_parabola (k : nat) (a : nat -> Q) :
  (k <= 4)%nat ->
  exists c0 c1 c2 q,
    least_squares_parabola a c0 c1 c2
    /\ fit_at k [Fin (a 0%nat); Fin (a 1%nat); Fin (a 2%nat); Fin (a 3%nat);
                 Fin (a 4%nat)] = Fin q
    /\ q == parabola c0 c1 c2 k.
Proof.
  intros Hk.
  destruct (fit_at_value k (a 0%nat) (a 1%nat) (a 2%nat) (a 3%nat) (a 4%nat))
    as [q [Hq [_ E]]].
  exists ((31 * a 0%nat + 9 * a 1%nat - 3 * a 2%nat - 5 * a 3%nat
           + 3 * a 4%nat) * (1 # 35)),
    ((- (54) * a 0%nat + 13 * a 1%nat + 40 * a 2%nat + 27 * a 3%nat
      - 26 * a 4%nat) * (1 # 70)),
    ((2 * a 0%nat - a 1%nat - 2 * a 2%nat - a 3%nat + 2 * a 4%nat)
     * (1 # 14)), q.
  split.
  - unfold least_squares_parabola, parabola.
    cbn [Z.of_nat Pos.of_succ_nat Pos.succ].
    change (inject_Z 0) with 0. change (inject_Z 1) with 1.
    change (inject_Z 2) with 2. change (inject_Z 3) with 3.
    change (inject_Z 4) with 4.
    repeat split; ring.
  - split; [exact Hq|]. rewrite E. unfold parabola.
    destruct k as [|[|[|[|[|k]]]]]; try lia;
      cbn [fit_weights nth value q35 Z.of_nat Pos.of_succ_nat Pos.succ];
      ring.
Qed.

Lemma firstn_five (l : list num) :
  (5 <= List.length l)%nat ->
  firstn 5 l = [nth 0 l NaN; nth 1 l NaN; nth 2 l NaN; nth 3 l NaN;
                nth 4 l NaN].
Proof.
  destruct l as [|x0 [|x1 [|x2 [|x3 [|x4 r]]]]]; cbn [List.length]; try lia.
  reflexivity.
Qed.

Lemma window_values (x : list num) (j : nat) :
  all_finite x -> (j + 5 <= List.length x)%nat ->
  let a t := value (nth (j + t) x NaN) in
  firstn 5 (skipn j x)
  = [Fin (a 0%nat); Fin (a 1%nat); Fin (a 2%nat); Fin (a 3%nat);
     Fin (a 4%nat)].
Proof.
  intros Hx Hj a.
  rewrite firstn_five by (rewrite length_skipn; lia).
  rewrite !nth_skipn.
  assert (E : forall t, (t < 5)%nat ->
                nth (j + t) x NaN = Fin (a t)).
  { intros t Ht. unfold a.
    pose proof (nth_finite x (j + t) Hx ltac:(lia)) as Hf.
    destruct (nth (j + t) x NaN); try discriminate Hf. reflexivity. }
  rewrite !E by lia. reflexivity.
Qed.

Lemma Ok_inj {A} (a b : A) : Ok a = Ok b -> a = b.
Proof. intros H. now inversion H. Qed.

Lemma savgol_filter_value (x sm : list num) :
  savgol_filter x = Ok sm ->
  (5 <= List.length x)%nat
  /\ sm = ([fit_at 0 (firstn 5 x); fit_at 1 (firstn 5 x)]
            ++ savgol_interior x)
           ++ [fit_at 3 (skipn (List.length x - 5) x);
               fit_at 4 (skipn (List.length x - 5) x)].
Proof.
  unfold savgol_filter.
  destruct (List.length x <? 5)%nat eqn:E; [discriminate|].
  apply Nat.ltb_ge in E. cbv zeta. intros H. apply Ok_inj in H.
  split; [exact E|]. rewrite <- H. apply app_assoc.
Qed.

(** Every entry of the filter's output is a fit over the window of its
    place. *)
Lemma savgol_filter_nth (x sm : list num) (i : nat) :
  savgol_filter x = Ok sm -> (i < List.length x)%nat ->
  let j := window_start (List.length x) i in
  nth i sm NaN = fit_at (i - j) (firstn 5 (skipn j x)).
Proof.
  intros H Hi j.
  destruct (savgol_filter_value x sm H) as [Hn Hsm].
  destruct (Nat.lt_ge_cases i 2) as [Hlow | Hge].
  - (* the first two places *)
    assert (Ej : j = 0%nat) by (unfold j, window_start; lia).
    rewrite Ej, Nat.sub_0_r, Hsm. cbn [skipn].
    destruct i as [|[|i]]; try lia; reflexivity.
  - destruct (Nat.le_gt_cases (i + 3) (List.length x)) as [Hmid | Hhigh].
    + (* the places with two neighbours on each side *)
      assert (Ej : j = (i - 2)%nat) by (unfold j, window_start; lia).
      rewrite Ej. replace (i - (i - 2))%nat with 2%nat by lia.
      apply nth_error_nth. now apply savgol_filter_centred.
    + (* the last two places *)
      assert (Ej : j = (List.length x - 5)%nat)
        by (unfold j, window_start; lia).
      rewrite Ej, Hsm.
      rewrite (@firstn_all2 _ 5 (skipn (List.length x - 5) x))
        by (rewrite length_skipn; lia).
      rewrite app_nth2;
        rewrite length_app, savgol_interior_length; cbn [List.length];
        [|lia].
      destruct (Nat.eq_dec i (List.length x - 2)) as [E | E].
      * replace (i - (2 + (List.length x - 4)))%nat with 0%nat by lia.
        replace (i - (List.length x - 5))%nat with 3%nat by lia.
        reflexivity.
      * replace (i - (2 + (List.length x - 4)))%nat with 1%nat by lia.
        replace (i - (List.length x - 5))%nat with 4%nat by lia.
        reflexivity.
Qed.

(** The filter computes the smoothing of the specification. *)
Lemma savgol_filter_smoothed (x sm : list num) (i : nat) :
  all_finite x -> savgol_filter x = Ok sm -> (i < List.length x)%nat ->
  smoothed_at x i (nth i sm NaN).
Proof.
  intros Hx H Hi.
  destruct (savgol_filter_value x sm H) as [Hn _].
  unfold smoothed_at. cbv zeta.
  rewrite (savgol_filter_nth x sm i H Hi). cbv zeta.
  assert (Hj : (window_start (List.length x) i + 5 <= List.length x)%nat)
    by (unfold window_start; lia).
  assert (Hk : (i - window_start (List.length x) i <= 4)%nat)
    by (unfold window_start; lia).
  rewrite (window_values x _ Hx Hj). cbv zeta.
  destruct (fit_at_parabola (i - window_start (List.length x) i)
              (fun t => value (nth (window_start (List.length x) i + t) x NaN))
              Hk)
    as [c0 [c1 [c2 [q [Hls [Hq E]]]]]].
  exists c0, c1, c2, q. exact (conj Hls (conj Hq E)).
Qed.

End Filter.

(** ** The gradient, entry by entry *)

Section GradientShape.

Lemma diff_nth (x : list num) (i : nat) :
  (S i < List.length x)%nat ->
  nth i (diff x) NaN = (nth (S i) x NaN - nth i x NaN)%num.
Proof.
  revert i. induction x as [|a rest IH]; intros i Hi; [simpl in Hi; lia|].
  destruct rest as [|b r]; [simpl in Hi; lia|].
  change (diff (a :: b :: r)) with ((b - a)%num :: diff (b :: r)).
  destruct i as [|i]; [reflexivity|].
  cbn [nth]. rewrite IH by (simpl in *; lia). reflexivity.
Qed.

Lemma diff_normal (x : list num) : Forall normal (diff x).
Proof.
  induction x as [|a rest IH]; [constructor|].
  destruct rest as [|b r]; [constructor|].
  change (diff (a :: b :: r)) with ((b - a)%num :: diff (b :: r)).
  constructor; [apply sub_normal | exact IH].
Qed.

Lemma last_nth (l : list num) :
  List.last l NaN = nth (List.length l - 1) l NaN.
Proof.
  induction l as [|a rest IH]; [reflexivity|].
  destruct rest as [|b r]; [reflexivity|].
  change (List.last (a :: b :: r) NaN) with (List.last (b :: r) NaN).
  rewrite IH. cbn [List.length].
  replace (S (S (List.length r)) - 1)%nat
    with (S (S (List.length r) - 1))%nat by lia.
  reflexivity.
Qed.

(** When the spacings pass numpy's test of being all equal, each of them is
    the first one. *)
Lemma uniform_nth (x : list num) (i : nat) :
  uniform (diff x) = true -> (S i < List.length x)%nat ->
  nth i (diff x) NaN = hd NaN (diff x).
Proof.
  intros Hu Hi. pose proof (diff_normal x) as Hn.
  assert (Hlen : (i < List.length (diff x))%nat)
    by (rewrite diff_length; lia).
  destruct (diff x) as [|d0 dx] eqn:E; [simpl in Hlen; lia|].
  cbn [uniform] in Hu. rewrite forallb_forall in Hu.
  cbn [hd]. rewrite Forall_forall in Hn.
  assert (Hin : In (nth i (d0 :: dx) NaN) (d0 :: dx)) by now apply nth_In.
  apply eqb_normal; [now apply Hn | apply Hn; now left | now apply Hu].
Qed.

Lemma gradient_interior_uniform_nth (f : list num) (h : num) (j : nat) :
  (j + 2 < List.length f)%nat ->
  nth_error (gradient_interior_uniform f h) j
  = Some ((nth (j + 2) f NaN - nth j f NaN) / (lit 2 * h))%num.
Proof.
  revert j. induction f as [|f0 rest IH]; intros j Hj; [simpl in Hj; lia|].
  destruct rest as [|f1 [|f2 r]]; try (simpl in Hj; lia).
  destruct j as [|j]; [reflexivity|].
  change (nth_error (gradient_interior_uniform (f1 :: f2 :: r) h) j
          = Some ((nth (j + 2) (f1 :: f2 :: r) NaN
                   - nth j (f1 :: f2 :: r) NaN) / (lit 2 * h))%num).
  apply IH. simpl in *. lia.
Qed.

Lemma gradient_interior_nth (f dx : list num) (j : nat) :
  (j + 2 < List.length f)%nat -> (j + 1 < List.length dx)%nat ->
  nth_error (gradient_interior f dx) j
  = Some (coef_a (nth j dx NaN) (nth (j + 1) dx NaN) * nth j f NaN
          + coef_b (nth j dx NaN) (nth (j + 1) dx NaN) * nth (j + 1) f NaN
          + coef_c (nth j dx NaN) (nth (j + 1) dx NaN) * nth (j + 2) f NaN)%num.
Proof.
  revert dx j. induction f as [|f0 rest IH]; intros dx j Hj Hd;
    [simpl in Hj; lia|].
  destruct rest as [|f1 [|f2 r]]; try (simpl in Hj; lia).
  destruct dx as [|dx1 [|dx2 dxs]]; try (simpl in Hd; lia).
  destruct j as [|j]; [reflexivity|].
  change (nth_error (gradient_interior (f1 :: f2 :: r) (dx2 :: dxs)) j
          = Some (coef_a (nth j (dx2 :: dxs) NaN) (nth (j + 1) (dx2 :: dxs) NaN)
                    * nth j (f1 :: f2 :: r) NaN
                  + coef_b (nth j (dx2 :: dxs) NaN) (nth (j + 1) (dx2 :: dxs) NaN)
                    * nth (j + 1) (f1 :: f2 :: r) NaN
                  + coef_c (nth j (dx2 :: dxs) NaN) (nth (j + 1) (dx2 :: dxs) NaN)
                    * nth (j + 2) (f1 :: f2 :: r) NaN)%num).
  apply IH; simpl in *; lia.
Qed.

(** [gradient] computes [spec_gradient_at] at every place. *)
Lemma gradient_pointwise (f x g : list num) (i : nat) :
  gradient f x = Ok g -> (i < List.length f)%nat ->
  nth_error g i = Some (spec_gradient_at f x i).
Proof.
  unfold gradient.
  destruct (List.length x =? List.length f)%nat eqn:El; [|discriminate].
  apply Nat.eqb_eq in El. cbn [negb].
  destruct (List.length f <? 2)%nat eqn:E2; [discriminate|].
  apply Nat.ltb_ge in E2.
  intros H Hi. injection H as <-.
  assert (Hhd : hd NaN (diff x) = (nth 1 x NaN - nth 0 x NaN)%num).
  { rewrite <- diff_nth by lia. now destruct (diff x). }
  unfold spec_gradient_at.
  destruct (i =? 0)%nat eqn:E0.
  - apply Nat.eqb_eq in E0. subst i. cbn [app nth_error]. now rewrite Hhd.
  - apply Nat.eqb_neq in E0.
    destruct i as [|j]; [congruence|]. cbn [app nth_error].
    destruct (S j =? List.length f - 1)%nat eqn:En.
    + apply Nat.eqb_eq in En.
      assert (Hlast : List.last (diff x) NaN
                      = (nth (List.length f - 1) x NaN
                         - nth (List.length f - 2) x NaN)%num).
      { rewrite last_nth, diff_length, El.
        replace (List.length f - 1 - 1)%nat with (List.length f - 2)%nat by lia.
        rewrite diff_nth by lia. do 2 f_equal. lia. }
      rewrite nth_error_app2.
      * replace (j - _)%nat with 0%nat.
        -- cbn [nth_error]. do 2 f_equal.
           destruct (uniform (diff x)) eqn:Eu; [|exact Hlast].
           rewrite <- Hlast, last_nth, diff_length, El.
           symmetry. apply uniform_nth; [exact Eu | lia].
        -- destruct (uniform (diff x));
             rewrite ?gradient_interior_uniform_length,
               ?gradient_interior_length; rewrite ?diff_length; lia.
      * destruct (uniform (diff x));
          rewrite ?gradient_interior_uniform_length,
            ?gradient_interior_length; rewrite ?diff_length; lia.
    + apply Nat.eqb_neq in En.
      replace (S j - 1)%nat with j by lia.
      replace (S j + 1)%nat with (j + 2)%nat by lia.
      destruct (uniform (diff x)) eqn:Eu.
      * rewrite nth_error_app1
          by (rewrite gradient_interior_uniform_length; lia).
        rewrite gradient_interior_uniform_nth by lia.
        do 3 f_equal.
        replace (j + 2)%nat with (S (S j)) by lia.
        rewrite <- diff_nth by lia.
        symmetry. apply uniform_nth; [exact Eu | lia].
      * rewrite nth_error_app1
          by (rewrite gradient_interior_length; rewrite ?diff_length; lia).
        rewrite gradient_interior_nth by (rewrite ?diff_length; lia).
        rewrite !diff_nth by lia.
        replace (j + 1)%nat with (S j) by lia.
        replace (j + 2)%nat with (S (S j)) by lia.
        reflexivity.
Qed.

(** Over finite, evenly spaced coordinates the interior divisor is the
    distance between the two neighbours: the interior entries are the plain
    central differences (f[i+1] - f[i-1]) / (x[i+1] - x[i-1]). *)
Lemma central_difference_uniform (x : list num) (i : nat) :
  uniform (diff x) = true -> all_finite x ->
  (1 <= i)%nat -> (i + 1 < List.length x)%nat ->
  (lit 2 * (nth (i + 1) x NaN - nth i x NaN))%num
  = (nth (i + 1) x NaN - nth (i - 1) x NaN)%num.
Proof.
  intros Hu Hx Hi Hn.
  assert (E : nth (i - 1) (diff x) NaN = nth i (diff x) NaN).
  { rewrite !uniform_nth by (assumption || lia). reflexivity. }
  rewrite !diff_nth in E by lia.
  replace (S (i - 1)) with i in E by lia.
  replace (S i) with (i + 1)%nat in E by lia.
  pose proof (nth_finite x (i - 1) Hx) as Ha.
  pose proof (nth_finite x i Hx) as Hb.
  pose proof (nth_finite x (i + 1) Hx) as Hc.
  destruct (nth (i - 1) x NaN) as [a| | |]; try (discriminate Ha; lia).
  destruct (nth i x NaN) as [b| | |]; try (discriminate Hb; lia).
  destruct (nth (i + 1) x NaN) as [c| | |]; try (discriminate Hc; lia).
  cbn [sub] in E. injection E as E.
  assert (E' : b - a == c - b) by now apply Qred_eq_iff.
  unfold lit. cbn [sub mul]. f_equal. apply Qred_complete.
  rewrite Qred_correct. change (inject_Z 2) with 2. lra.
Qed.

End GradientShape.

(** ** The divisors of the gradient in the pipeline *)

Section GradientSafety.

Variable table : DataFrame.


End GradientSafety.


(** Without the precondition a divisor can be zero: two rows with the same
    time give a zero spacing, and the strain rate there is not finite. *)
Lemma repeated_time_divides_by_zero :
  gradient [lit 1; lit 2; lit 4; lit 5; lit 7] [lit 0; lit 1; lit 1; lit 2; lit 3]
  = Ok [lit 1; NaN; NaN; Fin (3 # 2); lit 2]
  /\ diff [lit 0; lit 1; lit 1; lit 2; lit 3] = [lit 1; lit 0; lit 1; lit 1].
Proof. split; vm_compute; reflexivity. Qed.

(** ** The transform: errors and derived series *)

Section Transform.

Variables (time_unit diameter_unit strain_rate_unit : string).
Variable initial_diameter : num.
Variable table : DataFrame.

(** C3: the transform fails with the insufficient-data error (the filter's
    refusal of a series shorter than its window of 5) exactly when fewer than
    five rows remain after the incomplete rows are dropped; with five or more
    remaining rows that error does not occur. *)
Theorem insufficient_data_iff :
  raises (compute_series time_unit diameter_unit strain_rate_unit
            initial_diameter table) InsufficientDataError
  <-> (List.length (dropna table) < 5)%nat.
Proof.
  unfold raises. split.
  - intros H.
    destruct (Nat.lt_ge_cases (List.length (dropna table)) 5) as [Hlt | Hge];
      [assumption|].
    destruct (compute_series_unbound _ _ _ _ _ _ Hge H) as [name Hname].
    discriminate Hname.
  - intros H. unfold compute_series.
    rewrite savgol_filter_short by now rewrite length_map.
    reflexivity.
Qed.

(** C2 as amended: on at least five complete rows and any listed unit
    selection, the stored strain rate is the numerical gradient of the
    diametrical strain with respect to the raw time column in seconds, every
    entry multiplied by the single factor of the specification's table:
    time_factor x (1, 60, 3600, 1000, 1000 x 60 or 1000 x 3600).  The
    gradient is the forward difference at the first row and the backward
    difference at the last; in between it is the central difference
    (f[i+1] - f[i-1]) / (2 h) when the times are evenly spaced with spacing
    h, and otherwise, with hs = t[i] - t[i-1] and hd = t[i+1] - t[i], the
    weighted difference -hd / (hs (hs + hd)) f[i-1] + (hd - hs) / (hs hd)
    f[i] + hs / (hd (hs + hd)) f[i+1]. *)
Theorem strain_rate_is_scaled_gradient :
  In time_unit time_units ->
  In strain_rate_unit strain_rate_units ->
  (5 <= List.length (dropna table))%nat ->
  exists ds g,
    compute_series time_unit diameter_unit strain_rate_unit
      initial_diameter table = Ok ds
    /\ gradient (diametrical_strain ds) (map r_time (dropna table)) = Ok g
    /\ strain_rate_converted ds
       = map (fun v => (v * lit (spec_rate_multiplier time_unit strain_rate_unit))%num) g
    /\ forall i : nat,
        (i < List.length (dropna table))%nat ->
        nth_error (strain_rate_converted ds) i
        = Some (spec_gradient_at (diametrical_strain ds)
                  (map r_time (dropna table)) i
                * lit (spec_rate_multiplier time_unit strain_rate_unit))%num.
Proof.
  intros Htu Hsu Hn.
  destruct (compute_series_listed time_unit diameter_unit strain_rate_unit
              initial_diameter table Htu Hsu Hn)
    as [sm [g [_ [Hlen [Hg [_ Hc]]]]]].
  eexists. exists g. split; [exact Hc|].
  cbn [diametrical_strain strain_rate_converted].
  split; [exact Hg|]. split; [reflexivity|].
  intros i Hi. unfold scale. rewrite nth_error_map.
  rewrite (gradient_pointwise _ _ _ i Hg); [reflexivity|].
  unfold strain_of. rewrite unscale_length, shift_down_length.
  rewrite convert_diameter_spec. cbn [fst]. now rewrite length_map, Hlen.
Qed.

End Transform.

(** C2 as amended, at an input: irregular spacing, minutes, micrometres per
    hour. *)
Lemma strain_rate_is_scaled_gradient_witness :
  exists ds g,
    compute_series "min" "μm" "μm/hour" (lit 3) irregular_rows = Ok ds
    /\ gradient (diametrical_strain ds) (map r_time (dropna irregular_rows)) = Ok g
    /\ strain_rate_converted ds
       = map (fun v => (v * lit (spec_rate_multiplier "min" "μm/hour"))%num) g
    /\ nth_error (strain_rate_converted ds) 1
       = Some (spec_gradient_at (diametrical_strain ds)
                 (map r_time (dropna irregular_rows)) 1
               * lit (spec_rate_multiplier "min" "μm/hour"))%num.
Proof.
  destruct (strain_rate_is_scaled_gradient "min" "μm" "μm/hour" (lit 3)
              irregular_rows) as [ds [g [H1 [H2 [H3 H4]]]]].
  - simpl. auto.
  - simpl. auto 10.
  - vm_compute. lia.
  - exists ds, g. refine (conj H1 (conj H2 (conj H3 (H4 1%nat _)))).
    vm_compute. lia.
Defined.

(** C2, the claim as stated fails: over unevenly spaced times an interior
    entry of the strain rate is not the central difference of the strain.
    On the six complete rows at the times 0, 1, 3, 4, 9, 10, with units s, mm
    and 1/s (factor 1), the strain rate at the second row is 7/18, and the
    central difference of the strain over its two neighbours is 11/45. *)
Lemma uneven_spacing_not_central_difference :
  exists ds,
    compute_series "s" "mm" "1/s" (lit 3) irregular_rows = Ok ds
    /\ map r_time (dropna irregular_rows)
       = [lit 0; lit 1; lit 3; lit 4; lit 9; lit 10]
    /\ spec_rate_multiplier "s" "1/s" = 1%Z
    /\ nth 1 (strain_rate_converted ds) NaN = Fin (7 # 18)
    /\ (central_difference (diametrical_strain ds)
          (map r_time (dropna irregular_rows)) 1
        * lit (spec_rate_multiplier "s" "1/s"))%num = Fin (11 # 45)
    /\ eqb (nth 1 (strain_rate_converted ds) NaN)
           (central_difference (diametrical_strain ds)
              (map r_time (dropna irregular_rows)) 1
            * lit (spec_rate_multiplier "s" "1/s"))%num = false.
Proof.
  eexists. split; [vm_compute; reflexivity|].
  split; [vm_compute; reflexivity|].
  split; [vm_compute; reflexivity|].
  split; [vm_compute; reflexivity|].
  split; vm_compute; reflexivity.
Qed.

Section Strain.

Variables (time_unit diameter_unit strain_rate_unit : string).
Variable initial_diameter : num.
Variable table : DataFrame.

(** The unit factor of the diameter, as a multiplication: x1000 for
    micrometres, x1 otherwise; on the filter's output the factor 1 changes
    nothing. *)
Lemma spec_diameter_times (v : num) :
  normal v ->
  spec_diameter diameter_unit v
  = (v * lit (spec_diameter_factor diameter_unit))%num.
Proof.
  intros Hv. unfold spec_diameter, spec_diameter_factor.
  destruct (diameter_unit =? "μm")%string; [reflexivity|].
  symmetry. now apply mul_one_normal.
Qed.

(** C4: the diametrical strain is, entry by entry,
    (converted diameter - converted reference) / converted reference, where
    the converted diameter is the unit-converted smoothed diameter (x1 for
    mm, x1000 for micrometres) and the reference diameter gets the same
    unit factor.  The smoothed diameter is the Savitzky-Golay smoothing with
    window 5 and order 2 of the whole raw diameter column: entry [i] is the
    value at row [i] of the least-squares parabola of the five raw samples
    of its window.  The raw diameter enters the strain only through it. *)
Theorem strain_from_smoothed :
  In time_unit time_units ->
  In strain_rate_unit strain_rate_units ->
  (5 <= List.length (dropna table))%nat ->
  exists ds sm,
    compute_series time_unit diameter_unit strain_rate_unit
      initial_diameter table = Ok ds
    /\ savgol_filter (map r_diameter (dropna table)) = Ok sm
    /\ diameter_converted ds = map (spec_diameter diameter_unit) sm
    /\ diameter_converted ds
       = map (fun v => (v * lit (spec_diameter_factor diameter_unit))%num) sm
    /\ (normal initial_diameter ->
        spec_diameter diameter_unit initial_diameter
        = (initial_diameter * lit (spec_diameter_factor diameter_unit))%num)
    /\ diametrical_strain ds
       = map (fun v => ((v - spec_diameter diameter_unit initial_diameter)
                        / spec_diameter diameter_unit initial_diameter)%num)
             (diameter_converted ds)
    /\ List.length sm = List.length (dropna table)
    /\ forall i : nat,
        (i < List.length (dropna table))%nat ->
        smoothed_at (map r_diameter (dropna table)) i (nth i sm NaN).
Proof.
  intros Htu Hsu Hn.
  destruct (compute_series_listed time_unit diameter_unit strain_rate_unit
              initial_diameter table Htu Hsu Hn)
    as [sm [g [Hsm [Hlen [_ [_ Hc]]]]]].
  rewrite convert_diameter_spec in Hc. cbn [fst snd] in Hc.
  eexists. exists sm. split; [exact Hc|]. split; [exact Hsm|].
  cbn [diameter_converted diametrical_strain].
  split; [reflexivity|].
  split.
  { apply map_ext_Forall.
    eapply Forall_impl; [|exact (savgol_filter_normal _ _ Hsm)].
    intros v Hv. now apply spec_diameter_times. }
  split; [apply spec_diameter_times|].
  split; [unfold strain_of, unscale, shift_down; now rewrite map_map|].
  split; [exact Hlen|].
  intros i Hi. apply savgol_filter_smoothed.
  - apply dropna_finite.
  - exact Hsm.
  - now rewrite length_map.
Qed.

Lemma div_zero_not_finite (x : num) (q : Q) :
  q == 0 -> is_finite (x / Fin q) = false.
Proof.
  intros Hq. apply Qeq_bool_iff in Hq.
  destruct x as [a| | |]; cbn [div]; try reflexivity.
  - rewrite Hq. destruct (Qeq_bool a 0); [reflexivity|].
    unfold inf_of_sign. now destruct (Qle_bool 0 a).
  - unfold inf_of_sign. now destruct (Qle_bool 0 q).
  - unfold inf_of_sign. now destruct (Qle_bool 0 q).
Qed.

Lemma spec_diameter_zero (d : num) :
  eqb d (Fin 0) = true ->
  exists q, spec_diameter diameter_unit d = Fin q /\ q == 0.
Proof.
  destruct d as [q| | |]; cbn [eqb]; try discriminate.
  intros H. apply Qeq_bool_iff in H. unfold spec_diameter.
  destruct (diameter_unit =? "μm")%string.
  - eexists. split; [reflexivity|]. rewrite Qred_correct, H. reflexivity.
  - now exists q.
Qed.

(** Arithmetic on a value that is not finite gives a value that is not
    finite, whatever the other argument is (division: for the dividend). *)
Lemma sub_not_finite (x y : num) :
  is_finite x = false -> is_finite (x - y) = false.
Proof. destruct x, y; cbn; intros H; try reflexivity; discriminate H. Qed.

Lemma add_not_finite_l (x y : num) :
  is_finite x = false -> is_finite (x + y) = false.
Proof. destruct x, y; cbn; intros H; try reflexivity; discriminate H. Qed.

Lemma add_not_finite_r (x y : num) :
  is_finite y = false -> is_finite (x + y) = false.
Proof. destruct x, y; cbn; intros H; try reflexivity; discriminate H. Qed.

Lemma mul_not_finite_l (x y : num) :
  is_finite x = false -> is_finite (x * y) = false.
Proof.
  destruct x, y; cbn; intros H; try reflexivity; try discriminate H;
    unfold inf_of_sign;
    repeat match goal with
           | |- context [if ?b then _ else _] => destruct b
           end; reflexivity.
Qed.

Lemma mul_not_finite_r (x y : num) :
  is_finite y = false -> is_finite (x * y) = false.
Proof.
  destruct x, y; cbn; intros H; try reflexivity; try discriminate H;
    unfold inf_of_sign;
    repeat match goal with
           | |- context [if ?b then _ else _] => destruct b
           end; reflexivity.
Qed.

Lemma div_not_finite_l (x y : num) :
  is_finite x = false -> is_finite (x / y) = false.
Proof.
  destruct x, y; cbn; intros H; try reflexivity; try discriminate H;
    unfold inf_of_sign;
    repeat match goal with
           | |- context [if ?b then _ else _] => destruct b
           end; reflexivity.
Qed.

Lemma nth_not_finite (f : list num) (k : nat) :
  Forall (fun v => is_finite v = false) f -> is_finite (nth k f NaN) = false.
Proof.
  intros Hf. revert k. induction Hf as [|v f Hv _ IH]; intros [|k];
    cbn [nth]; auto.
Qed.

Lemma gradient_interior_uniform_not_finite (f : list num) (h : num) :
  Forall (fun v => is_finite v = false) f ->
  Forall (fun v => is_finite v = false) (gradient_interior_uniform f h).
Proof.
  induction f as [|f0 rest IH]; intros Hf; [constructor|].
  destruct rest as [|f1 [|f2 r]]; [constructor | constructor |].
  change (Forall (fun v => is_finite v = false)
            (((f2 - f0) / (lit 2 * h))%num
               :: gradient_interior_uniform (f1 :: f2 :: r) h)).
  pose proof (Forall_inv (Forall_inv_tail (Forall_inv_tail Hf))) as H2.
  constructor; [|apply IH; exact (Forall_inv_tail Hf)].
  now apply div_not_finite_l, sub_not_finite.
Qed.

Lemma gradient_interior_not_finite (f dx : list num) :
  Forall (fun v => is_finite v = false) f ->
  Forall (fun v => is_finite v = false) (gradient_interior f dx).
Proof.
  revert dx. induction f as [|f0 rest IH]; intros dx Hf; [constructor|].
  destruct rest as [|f1 [|f2 r]]; [constructor | constructor |].
  destruct dx as [|dx1 [|dx2 dxs]]; [constructor | constructor |].
  change (Forall (fun v => is_finite v = false)
            ((coef_a dx1 dx2 * f0 + coef_b dx1 dx2 * f1
              + coef_c dx1 dx2 * f2)%num
               :: gradient_interior (f1 :: f2 :: r) (dx2 :: dxs))).
  pose proof (Forall_inv (Forall_inv_tail (Forall_inv_tail Hf))) as H2.
  constructor; [|apply IH; exact (Forall_inv_tail Hf)].
  now apply add_not_finite_r, mul_not_finite_r.
Qed.

(** The gradient of a series without a finite entry has no finite entry. *)
Lemma gradient_not_finite (f x g : list num) :
  gradient f x = Ok g ->
  Forall (fun v => is_finite v = false) f ->
  Forall (fun v => is_finite v = false) g.
Proof.
  unfold gradient.
  destruct (negb (List.length x =? List.length f)%nat); [discriminate|].
  destruct (List.length f <? 2)%nat; [discriminate|].
  cbv zeta. intros H Hf. apply Ok_inj in H. subst g.
  apply Forall_app. split.
  - constructor; [|constructor].
    apply div_not_finite_l, sub_not_finite. now apply nth_not_finite.
  - apply Forall_app. split.
    + destruct (uniform (diff x)).
      * now apply gradient_interior_uniform_not_finite.
      * now apply gradient_interior_not_finite.
    + constructor; [|constructor].
      apply div_not_finite_l, sub_not_finite. now apply nth_not_finite.
Qed.

(** C1, as the code has it: the reference diameter is not checked.  With at
    least five complete rows and listed units the transform raises nothing
    and returns the four series for every reference diameter, zero and
    negative ones included; the strain is, entry by entry, (converted
    diameter - converted reference) / converted reference under the
    division of doubles.  With a zero reference every entry of the strain
    and every entry of the strain rate is [inf], [-inf] or [nan]. *)
Theorem reference_not_checked :
  In time_unit time_units ->
  In strain_rate_unit strain_rate_units ->
  (5 <= List.length (dropna table))%nat ->
  exists ds,
    compute_series time_unit diameter_unit strain_rate_unit
      initial_diameter table = Ok ds
    /\ diametrical_strain ds
       = map (fun v => ((v - spec_diameter diameter_unit initial_diameter)
                        / spec_diameter diameter_unit initial_diameter)%num)
             (diameter_converted ds)
    /\ (eqb initial_diameter (Fin 0) = true ->
        Forall (fun v => is_finite v = false) (diametrical_strain ds)
        /\ Forall (fun v => is_finite v = false)
             (strain_rate_converted ds)).
Proof.
  intros Htu Hsu Hn.
  destruct (compute_series_listed time_unit diameter_unit strain_rate_unit
              initial_diameter table Htu Hsu Hn)
    as [sm [g [_ [_ [Hg [_ Hc]]]]]].
  rewrite convert_diameter_spec in Hc, Hg. cbn [fst snd] in Hc, Hg.
  eexists. split; [exact Hc|].
  cbn [diametrical_strain diameter_converted strain_rate_converted].
  split; [unfold strain_of, unscale, shift_down; now rewrite map_map|].
  intros Hz. destruct (spec_diameter_zero _ Hz) as [q [Hq Hq0]].
  assert (Hs : Forall (fun v => is_finite v = false)
                 (strain_of (map (spec_diameter diameter_unit) sm)
                    (spec_diameter diameter_unit initial_diameter))).
  { rewrite Hq. unfold strain_of, unscale.
    apply Forall_forall. intros v Hv.
    apply in_map_iff in Hv. destruct Hv as [u [<- _]].
    now apply div_zero_not_finite. }
  split; [exact Hs|].
  unfold scale. apply Forall_map.
  eapply Forall_impl; [|exact (gradient_not_finite _ _ _ Hg Hs)].
  intros v Hv. now apply mul_not_finite_l.
Qed.

End Strain.

(** C4, at an input. *)
Lemma strain_from_smoothed_witness :
  exists ds sm,
    compute_series "hour" "μm" "1/min" (lit 3) irregular_rows = Ok ds
    /\ savgol_filter (map r_diameter (dropna irregular_rows)) = Ok sm
    /\ diameter_converted ds = map (spec_diameter "μm") sm
    /\ diametrical_strain ds
       = map (fun v => ((v - spec_diameter "μm" (lit 3))
                        / spec_diameter "μm" (lit 3))%num)
             (diameter_converted ds)
    /\ smoothed_at (map r_diameter (dropna irregular_rows)) 1 (nth 1 sm NaN)
    /\ smoothed_at (map r_diameter (dropna irregular_rows)) 3 (nth 3 sm NaN).
Proof.
  destruct (strain_from_smoothed "hour" "μm" "1/min" (lit 3) irregular_rows)
    as [ds [sm [H1 [H2 [H3 [_ [_ [H4 [_ H5]]]]]]]]].
  - simpl. auto.
  - simpl. auto 10.
  - vm_compute. lia.
  - exists ds, sm.
    refine (conj H1 (conj H2 (conj H3 (conj H4
              (conj (H5 1%nat _) (H5 3%nat _)))))); vm_compute; lia.
Defined.

(** C1, the claim as stated fails: with reference diameter 0 and the five
    constant rows the transform raises nothing; it returns the four series,
    the strain being [inf] throughout. *)
Lemma zero_reference_returns_series :
  leb (Fin 0) (Fin 0) = true
  /\ is_error (compute_series "s" "mm" "1/s" (Fin 0) five_rows) = false
  /\ compute_series "s" "mm" "1/s" (Fin 0) five_rows
     = Ok {| time_converted := [lit 0; lit 1; lit 2; lit 3; lit 4];
             diameter_converted := [lit 10; lit 10; lit 10; lit 10; lit 10];
             diametrical_strain := [PInf; PInf; PInf; PInf; PInf];
             strain_rate_converted := [NaN; NaN; NaN; NaN; NaN] |}.
Proof.
  split; [vm_compute; reflexivity|].
  split; vm_compute; reflexivity.
Qed.

(** C1 as amended, at a negative reference diameter. *)
Lemma reference_not_checked_witness :
  exists ds,
    compute_series "s" "mm" "1/s" (lit (-2)) five_rows = Ok ds
    /\ diametrical_strain ds
       = map (fun v => ((v - spec_diameter "mm" (lit (-2)))
                        / spec_diameter "mm" (lit (-2)))%num)
             (diameter_converted ds)
    /\ (eqb (lit (-2)) (Fin 0) = true ->
        Forall (fun v => is_finite v = false) (diametrical_strain ds)
        /\ Forall (fun v => is_finite v = false)
             (strain_rate_converted ds)).
Proof.
  apply (reference_not_checked "s" "mm" "1/s" (lit (-2)) five_rows).
  - simpl. auto.
  - simpl. auto 10.
  - vm_compute. lia.
Defined.

(** The scenario of the specification in the exact arithmetic of this
    model: the five rows (0,10.0) ... (4,10.0) with reference diameter
    10.0 mm and units s, mm, 1/s give a strain of zeros, a strain rate of
    zeros and the raw time values.  The program computes in doubles, with
    filter weights that are themselves the rounded result of a least-squares
    solve; whether its zeros are exact there is a question of rounding,
    which this model does not cover. *)
Lemma constant_series_scenario :
  savgol_filter (map r_diameter five_rows)
  = Ok [lit 10; lit 10; lit 10; lit 10; lit 10]
  /\ compute_series "s" "mm" "1/s" (lit 10) five_rows
     = Ok {| time_converted := map r_time five_rows;
             diameter_converted := [lit 10; lit 10; lit 10; lit 10; lit 10];
             diametrical_strain := [lit 0; lit 0; lit 0; lit 0; lit 0];
             strain_rate_converted := [lit 0; lit 0; lit 0; lit 0; lit 0] |}.
Proof. split; vm_compute; reflexivity. Qed.

(** ** Effects of [plot_data] on the parent widget *)

Section Effects.

Lemma set_figure_same (p : CSVPlotter) : p = set_figure (figure p) p.
Proof. now destruct p. Qed.

Lemma only_figure_ret {A} (a : A) : only_figure (ret a).
Proof. intros p. apply set_figure_same. Qed.

Lemma only_figure_read {A} (field : CSVPlotter -> A) : only_figure (read field).
Proof. intros p. apply set_figure_same. Qed.

Lemma only_figure_bind {A B} (m : M A) (k : A -> M B) :
  only_figure m -> (forall a, only_figure (k a)) -> only_figure (bind m k).
Proof.
  intros Hm Hk p. unfold bind.
  specialize (Hm p). destruct (m p) as [[a | e] p1]; cbn [snd] in *.
  - specialize (Hk a p1). rewrite Hk at 1. now rewrite Hm.
  - exact Hm.
Qed.

Lemma only_figure_on_axes (pos : position) (f : Axes -> Axes) :
  only_figure (on_axes pos f).
Proof. intros p. reflexivity. Qed.

Lemma only_figure_try_on_axes (pos : position) (f : Axes -> result Axes) :
  only_figure (try_on_axes pos f).
Proof.
  intros p. unfold try_on_axes.
  destruct (f _); cbn [snd]; [reflexivity | apply set_figure_same].
Qed.

Lemma only_figure_for_each {A} (xs : list A) (body : A -> M unit) :
  (forall x, only_figure (body x)) -> only_figure (for_each xs body).
Proof.
  intros Hb. induction xs as [|x rest IH]; cbn [for_each].
  - apply only_figure_ret.
  - apply only_figure_bind; [apply Hb | intros _; exact IH].
Qed.

Lemma only_figure_apply_scale_and_range (pos : position) :
  only_figure (apply_scale_and_range pos).
Proof.
  unfold apply_scale_and_range.
  apply only_figure_bind; [apply only_figure_read | intros [xs ys]].
  apply only_figure_bind; [apply only_figure_read | intros [[[x0 x1] y0] y1]].
  repeat (apply only_figure_bind; [|intros _]);
    try apply only_figure_on_axes.
  - destruct x0, x1;
      (apply only_figure_try_on_axes || apply only_figure_ret).
  - destruct y0, y1;
      (apply only_figure_try_on_axes || apply only_figure_ret).
Qed.

Lemma only_figure_draw_series (d : DerivedSeries) : only_figure (draw_series d).
Proof.
  unfold draw_series.
  repeat (apply only_figure_bind; [apply only_figure_on_axes | intros _]).
  apply only_figure_for_each. exact only_figure_apply_scale_and_range.
Qed.

Lemma bind_assoc {A B C} (m : M A) (k1 : A -> M B) (k2 : B -> M C) p :
  bind (bind m k1) k2 p = bind m (fun a => bind (k1 a) k2) p.
Proof. unfold bind. now destruct (m p) as [[a | e] p1]. Qed.

Lemma bind_ok {A B} (m : M A) (k : A -> M B) p a p1 :
  m p = (Ok a, p1) -> bind m k p = k a p1.
Proof. intros H. unfold bind. now rewrite H. Qed.

Lemma bind_raise {A B} (m : M A) (k : A -> M B) p e p1 :
  m p = (Raise e, p1) -> bind m k p = (Raise e, p1).
Proof. intros H. unfold bind. now rewrite H. Qed.

Lemma bind_ret {A B} (a : A) (k : A -> M B) p : bind (ret a) k p = k a p.
Proof. reflexivity. Qed.

Lemma bind_lift_ok {A B} (a : A) (k : A -> M B) p :
  bind (lift (Ok a)) k p = k a p.
Proof. reflexivity. Qed.

Lemma bind_lift_raise {A B} (e : exn) (k : A -> M B) p :
  bind (lift (Raise e)) k p = (Raise e, p).
Proof. reflexivity. Qed.

Lemma bind_read {A B} (field : CSVPlotter -> A) (k : A -> M B) p :
  bind (read field) k p = k (field p) p.
Proof. reflexivity. Qed.

Lemma bind_modify {B} (f : CSVPlotter -> CSVPlotter) (k : unit -> M B) p :
  bind (modify f) k p = k tt (f p).
Proof. reflexivity. Qed.

(** The labels and legends cannot raise, and touch only the figure. *)
Lemma label_axes_ok (tu du su : string) (p : CSVPlotter) :
  exists fig, label_axes tu du su p = (Ok tt, set_figure fig p).
Proof. eexists. reflexivity. Qed.

(** What the [try] block does, by the outcome of the steps before the
    store.  When those raise, nothing of the widget has changed.  When they
    give the series [d], [d] is stored; then either the block runs to its
    end and queues a draw, or a later plotting step raises. *)
Lemma plot_data_try_spec (h : CSVEventHandler) (csv : result DataFrame)
    (p : CSVPlotter) :
  match steps_before_store h csv p with
  | Raise e => plot_data_try h csv p = (Raise e, p)
  | Ok d =>
      exists fig,
        plot_data_try h csv p
        = (Ok tt, queue_draw (set_figure fig (set_calculated_data d p)))
        \/ exists e,
            plot_data_try h csv p
            = (Raise e, set_figure fig (set_calculated_data d p))
  end.
Proof.
  unfold steps_before_store, plot_data_try.
  destruct (is_empty (file_path h)); [reflexivity|].
  destruct csv as [table | e]; [|reflexivity].
  cbn [rbind].
  destruct (compute_series _ _ _ _ table) as [d | e] eqn:Ec;
    repeat (rewrite bind_assoc || rewrite bind_lift_ok || rewrite bind_read);
    rewrite Ec; [rewrite bind_lift_ok | now rewrite bind_lift_raise].
  rewrite !bind_assoc, bind_modify, !bind_assoc.
  pose proof (only_figure_draw_series d (set_calculated_data d p)) as Hfig.
  destruct (draw_series d (set_calculated_data d p)) as [[[] | e] p1] eqn:Ed;
    cbn [snd] in Hfig.
  - rewrite (bind_ok _ _ _ _ _ Ed), bind_ret. cbn [local]. rewrite bind_lift_ok.
    destruct (label_axes_ok (time_unit_combo p) (diameter_unit_combo p)
                (strain_rate_unit_combo p) p1) as [fig Hl].
    exists fig. left.
    rewrite (bind_ok _ _ _ _ _ Hl). cbn [modify].
    rewrite Hfig. reflexivity.
  - exists (figure p1). right. exists e.
    rewrite (bind_raise _ _ _ _ _ Ed). now rewrite <- Hfig.
Qed.

End Effects.

(** ** [plot_data] as a whole *)

Section PlotData.

Variable h : CSVEventHandler.
Variable csv : result DataFrame.

(** The widget after [plot_data], by the outcome of the steps before the
    store. *)
Lemma plot_data_spec (p : CSVPlotter) :
  match steps_before_store h csv p with
  | Raise e =>
      plot_data_raised h csv p = Some e
      /\ plot_data h csv p = set_label (error_text e) (set_figure subplots_2x2 p)
  | Ok d =>
      exists fig,
        (plot_data_raised h csv p = None
         /\ plot_data h csv p
            = queue_draw (set_figure fig (set_calculated_data d p)))
        \/ (exists e,
              plot_data_raised h csv p = Some e
              /\ plot_data h csv p
                 = set_label (error_text e)
                     (set_figure fig (set_calculated_data d p)))
  end.
Proof.
  pose proof (plot_data_try_spec h csv
                (set_figure subplots_2x2 (set_figure [] p))) as H.
  change (steps_before_store h csv (set_figure subplots_2x2 (set_figure [] p)))
    with (steps_before_store h csv p) in H.
  unfold plot_data, plot_data_raised.
  destruct (steps_before_store h csv p) as [d | e].
  - destruct H as [fig [H | [e H]]]; exists fig; [left | right; exists e];
      rewrite H; split; reflexivity.
  - rewrite H. split; reflexivity.
Qed.

(** The figure held before the call does not matter. *)
Lemma plot_data_forgets_figure (p : CSVPlotter) (fig0 : Figure) :
  plot_data h csv (set_figure fig0 p) = plot_data h csv p.
Proof. reflexivity. Qed.

(** C9: when a step before the store raises (reading the table, dropping
    rows, smoothing, converting units, strain, strain rate), the stored
    [calculated_data] is what it was before the call; it is replaced only by
    the complete tuple of four series, once all of them are computed. *)
Theorem calculated_data_all_or_nothing (p : CSVPlotter) :
  match steps_before_store h csv p with
  | Raise _ => calculated_data (plot_data h csv p) = calculated_data p
  | Ok d => calculated_data (plot_data h csv p) = Some d
  end.
Proof.
  pose proof (plot_data_spec p) as H.
  destruct (steps_before_store h csv p) as [d | e].
  - destruct H as [fig [[_ H] | [e [_ H]]]]; now rewrite H.
  - destruct H as [_ H]. now rewrite H.
Qed.

(** C5, as the code has it: a failing call returns, the label shows the
    error, no draw is queued and what the canvas drew last is untouched; but
    the figure was cleared and given four new axes before the [try] block,
    so nothing of the figure as it was before the call is kept, and after a
    failure in reading or computing the figure is four empty axes. *)
Theorem failure_reported_figure_rebuilt (p : CSVPlotter) (e : exn) :
  plot_data_raised h csv p = Some e ->
  label (plot_data h csv p) = error_text e
  /\ canvas (plot_data h csv p) = canvas p
  /\ queued_draws (plot_data h csv p) = queued_draws p
  /\ (forall fig0, plot_data h csv (set_figure fig0 p) = plot_data h csv p)
  /\ (is_error (steps_before_store h csv p) = true ->
      figure (plot_data h csv p) = subplots_2x2
      /\ calculated_data (plot_data h csv p) = calculated_data p).
Proof.
  intros He. pose proof (plot_data_spec p) as H.
  assert (Hfig : forall fig0,
             plot_data h csv (set_figure fig0 p) = plot_data h csv p)
    by (intros fig0; apply plot_data_forgets_figure).
  destruct (steps_before_store h csv p) as [d | e'].
  - destruct H as [fig [[Hr _] | [e' [Hr H]]]]; [congruence|].
    assert (e' = e) by congruence. subst e'. rewrite H.
    split; [reflexivity|]. split; [reflexivity|]. split; [reflexivity|].
    split; [now rewrite <- H|]. intros Hd. discriminate Hd.
  - destruct H as [Hr H]. assert (e' = e) by congruence. subst e'.
    rewrite H.
    split; [reflexivity|]. split; [reflexivity|]. split; [reflexivity|].
    split; [now rewrite <- H|]. intros _. split; reflexivity.
Qed.

End PlotData.

(** C5, the claim as stated fails: after a successful call and its draw,
    each of the four axes holds a line and the canvas shows them.  The next
    call finds only four rows and fails; the figure is then four empty axes,
    and that is what the canvas shows at its next draw. *)
Lemma failing_call_clears_figure :
  plot_data_raised sample_handler (Ok four_rows) shown_widget
  = Some InsufficientDataError
  /\ map (fun ax => List.length (lines ax)) (figure shown_widget)
     = [1; 1; 1; 1]%nat
  /\ canvas shown_widget = figure shown_widget
  /\ figure (plot_data sample_handler (Ok four_rows) shown_widget)
     = subplots_2x2
  /\ canvas (canvas_draw (plot_data sample_handler (Ok four_rows) shown_widget))
     = subplots_2x2.
Proof.
  split; [vm_compute; reflexivity|].
  split; [vm_compute; reflexivity|].
  split; [vm_compute; reflexivity|].
  split; vm_compute; reflexivity.
Qed.

(** C5 as amended, at that failing call. *)
Lemma failure_reported_witness :
  label (plot_data sample_handler (Ok four_rows) shown_widget)
  = error_text InsufficientDataError
  /\ canvas (plot_data sample_handler (Ok four_rows) shown_widget)
     = canvas shown_widget
  /\ queued_draws (plot_data sample_handler (Ok four_rows) shown_widget)
     = queued_draws shown_widget.
Proof.
  destruct (failure_reported_figure_rebuilt sample_handler (Ok four_rows)
              shown_widget InsufficientDataError)
    as [H1 [H2 [H3 _]]].
  - vm_compute. reflexivity.
  - exact (conj H1 (conj H2 H3)).
Defined.

Section Stateless.

Variable h : CSVEventHandler.
Variable raw : DataFrame.

Lemma steps_are_transform (p : CSVPlotter) :
  is_empty (file_path h) = false ->
  steps_before_store h (Ok raw) p
  = transform raw (initial_diameter h)
      (time_unit_combo p, diameter_unit_combo p, strain_rate_unit_combo p).
Proof.
  intros Hp. unfold steps_before_store, transform. now rewrite Hp.
Qed.

(** [plot_data] leaves the three combo boxes as they are. *)
Lemma plot_data_keeps_selection (csv : result DataFrame) (p : CSVPlotter) :
  same_selection p (plot_data h csv p).
Proof.
  pose proof (plot_data_spec h csv p) as H. unfold same_selection.
  destruct (steps_before_store h csv p) as [d | e].
  - destruct H as [fig [[_ H] | [e [_ H]]]]; rewrite H; repeat split.
  - destruct H as [_ H]. rewrite H. repeat split.
Qed.

(** C8: the outcome of the transform is a function of the raw samples, the
    reference diameter and the unit selection alone.  Two calls on the same
    file content, reference diameter and unit selection, from widgets that
    may differ in everything else (stored data, figure, canvas, label,
    scales, ranges, queued draws), either both store the same four series,
    or both fail in the computation with the same exception. *)
Theorem stored_series_depend_on_inputs_only (p1 p2 : CSVPlotter) :
  is_empty (file_path h) = false ->
  same_selection p1 p2 ->
  match transform raw (initial_diameter h)
          (time_unit_combo p1, diameter_unit_combo p1,
           strain_rate_unit_combo p1) with
  | Ok d =>
      calculated_data (plot_data h (Ok raw) p1) = Some d
      /\ calculated_data (plot_data h (Ok raw) p2) = Some d
  | Raise e =>
      plot_data_raised h (Ok raw) p1 = Some e
      /\ plot_data_raised h (Ok raw) p2 = Some e
  end.
Proof.
  intros Hp [Ht [Hd Hs]].
  pose proof (plot_data_spec h (Ok raw) p1) as H1.
  pose proof (plot_data_spec h (Ok raw) p2) as H2.
  rewrite (steps_are_transform p1 Hp) in H1.
  rewrite (steps_are_transform p2 Hp), <- Ht, <- Hd, <- Hs in H2.
  destruct (transform raw (initial_diameter h) _) as [d | e].
  - destruct H1 as [f1 [[_ H1] | [e1 [_ H1]]]];
      destruct H2 as [f2 [[_ H2] | [e2 [_ H2]]]];
      rewrite H1, H2; split; reflexivity.
  - destruct H1 as [H1 _], H2 as [H2 _]. now split.
Qed.

(** Calling [plot_data] a second time on the same input stores what the
    first call stored. *)
Lemma plot_data_twice (csv : result DataFrame) (p : CSVPlotter) :
  calculated_data (plot_data h csv (plot_data h csv p))
  = calculated_data (plot_data h csv p).
Proof.
  pose proof (plot_data_keeps_selection csv p) as [Ht [Hd Hs]].
  pose proof (plot_data_spec h csv (plot_data h csv p)) as H2.
  pose proof (plot_data_spec h csv p) as H1.
  assert (E : steps_before_store h csv (plot_data h csv p)
              = steps_before_store h csv p).
  { unfold steps_before_store. now rewrite <- Ht, <- Hd, <- Hs. }
  rewrite E in H2.
  destruct (steps_before_store h csv p) as [d | e].
  - destruct H2 as [f2 [[_ H2] | [e2 [_ H2]]]]; rewrite H2;
      destruct H1 as [f1 [[_ H1] | [e1 [_ H1]]]]; rewrite H1; reflexivity.
  - destruct H2 as [_ H2]. rewrite H2. reflexivity.
Qed.

End Stateless.

(** C8, at an input: a fresh widget and one that has already plotted. *)
Lemma stored_series_witness :
  calculated_data (plot_data sample_handler (Ok five_rows) initial_widget)
  = calculated_data (plot_data sample_handler (Ok five_rows) shown_widget).
Proof.
  pose proof (stored_series_depend_on_inputs_only sample_handler five_rows
                initial_widget shown_widget) as H.
  destruct (transform five_rows (initial_diameter sample_handler)
              (time_unit_combo initial_widget,
               diameter_unit_combo initial_widget,
               strain_rate_unit_combo initial_widget)) as [d | e].
  - destruct H as [H1 H2].
    + reflexivity.
    + split; [reflexivity | split; reflexivity].
    + now rewrite H1, H2.
  - vm_compute. reflexivity.
Defined.

(** * The rest of the program *)

(** ** What [plot_data] draws, and when drawing fails *)

Section Rendering.

(** The loop body at one place raises exactly when a range with both bounds
    set has a bound that is not finite. *)
Lemma apply_scale_and_range_outcome (pos : position) (p : CSVPlotter) :
  fst (apply_scale_and_range pos p)
  = if range_ok (ranges p pos) then Ok tt
    else Raise (ValueError axis_limits_msg).
Proof.
  unfold apply_scale_and_range, range_ok, limits_ok.
  rewrite !bind_read.
  destruct (scales p pos) as [xs ys].
  destruct (ranges p pos) as [[[[a|] [b|]] [c|]] [e|]];
    unfold bind, on_axes, try_on_axes, modify, ret, set_xlim, set_ylim;
    cbn [fst snd];
    repeat match goal with
           | |- context [is_finite ?v] => destruct (is_finite v)
           end; reflexivity.
Qed.

Lemma for_each_ranges_outcome (ps : list position) (p : CSVPlotter) :
  fst (for_each ps apply_scale_and_range p)
  = if forallb (fun pos => range_ok (ranges p pos)) ps then Ok tt
    else Raise (ValueError axis_limits_msg).
Proof.
  revert p. induction ps as [|pos rest IH]; intros p; [reflexivity|].
  cbn [for_each forallb].
  pose proof (apply_scale_and_range_outcome pos p) as H1.
  pose proof (only_figure_apply_scale_and_range pos p) as Hf.
  unfold bind.
  destruct (apply_scale_and_range pos p) as [[[] | e] p1]; cbn [fst snd] in *.
  - destruct (range_ok (ranges p pos)); [|discriminate H1].
    cbn [andb]. rewrite IH, Hf. reflexivity.
  - destruct (range_ok (ranges p pos)); [discriminate H1|].
    cbn [andb fst]. exact H1.
Qed.

Lemma draw_series_outcome (d : DerivedSeries) (p : CSVPlotter) :
  fst (draw_series d p)
  = if ranges_ok p then Ok tt else Raise (ValueError axis_limits_msg).
Proof.
  unfold draw_series, on_axes. rewrite !bind_modify.
  rewrite for_each_ranges_outcome. reflexivity.
Qed.

(** The [try] block after the steps before the store have given [d]. *)
Lemma plot_data_try_ok (h : CSVEventHandler) (csv : result DataFrame)
    (p : CSVPlotter) (d : DerivedSeries) :
  steps_before_store h csv p = Ok d ->
  plot_data_try h csv p
  = match draw_series d (set_calculated_data d p) with
    | (Ok _, p1) =>
        (Ok tt,
         queue_draw (snd (label_axes (time_unit_combo p) (diameter_unit_combo p)
                            (strain_rate_unit_combo p) p1)))
    | (Raise e, p1) => (Raise e, p1)
    end.
Proof.
  unfold steps_before_store, plot_data_try.
  destruct (is_empty (file_path h)); [discriminate|].
  destruct csv as [table | e]; [|discriminate].
  cbn [rbind]. intros Ec.
  repeat (rewrite bind_assoc || rewrite bind_lift_ok || rewrite bind_read).
  rewrite Ec, bind_lift_ok, !bind_assoc, bind_modify, !bind_assoc.
  destruct (draw_series d (set_calculated_data d p)) as [[[] | e] p1] eqn:Ed.
  - rewrite (bind_ok _ _ _ _ _ Ed), bind_ret. cbn [local].
    rewrite bind_lift_ok.
    destruct (label_axes_ok (time_unit_combo p) (diameter_unit_combo p)
                (strain_rate_unit_combo p) p1) as [fig Hl].
    rewrite (bind_ok _ _ _ _ _ Hl), Hl. reflexivity.
  - now rewrite (bind_raise _ _ _ _ _ Ed).
Qed.

Lemma apply_scale_and_range_ok (pos : position) (p : CSVPlotter)
    (a0 a1 a2 a3 : Axes) :
  figure p = [a0; a1; a2; a3] ->
  range_ok (ranges p pos) = true ->
  apply_scale_and_range pos p
  = (Ok tt,
     set_figure (update_at (index_of pos) (dress p pos) [a0; a1; a2; a3]) p).
Proof.
  destruct p as [lb fg cv qd cd sc rg tu du su]. cbn [figure ranges].
  intros -> Hok.
  unfold apply_scale_and_range, dress, range_ok, limits_ok in *.
  rewrite !bind_read. cbn [scales ranges].
  destruct (sc pos) as [xs ys].
  destruct (rg pos) as [[[[a|] [b|]] [c|]] [e|]];
    unfold bind, on_axes, try_on_axes, modify, ret, set_xlim, set_ylim;
    repeat match type of Hok with
           | context [is_finite ?v] => destruct (is_finite v)
           end; try discriminate Hok;
    destruct pos; reflexivity.
Qed.

(** What one axes looks like once plotted, dressed and labelled. *)
Lemma rendered_axes_correct (p : CSVPlotter) (d : DerivedSeries)
    (pos : position) :
  show_legend
    (set_ylabel (rendered_ylabel p pos)
       (set_xlabel (rendered_xlabel p pos)
          (dress p pos
             (plot (xdata (rendered_line d pos)) (ydata (rendered_line d pos))
                (fmt (rendered_line d pos)) (line_label (rendered_line d pos))
                new_axes))))
  = rendered_axes p d pos.
Proof.
  unfold rendered_axes, dress.
  destruct (scales p pos) as [xs ys].
  destruct (ranges p pos) as [[[[a|] [b|]] [c|]] [e|]];
    destruct pos; reflexivity.
Qed.

Lemma ranges_ok_each (p : CSVPlotter) :
  ranges_ok p = true ->
  range_ok (ranges p P00) = true /\ range_ok (ranges p P01) = true
  /\ range_ok (ranges p P10) = true /\ range_ok (ranges p P11) = true.
Proof.
  unfold ranges_ok. cbn [forallb]. rewrite !andb_true_iff. tauto.
Qed.

(** The plots and the loop on a figure of four fresh axes. *)
Lemma draw_series_ok (d : DerivedSeries) (p : CSVPlotter) :
  figure p = subplots_2x2 ->
  ranges_ok p = true ->
  draw_series d p
  = (Ok tt,
     set_figure
       (map (fun pos =>
               dress p pos
                 (plot (xdata (rendered_line d pos)) (ydata (rendered_line d pos))
                    (fmt (rendered_line d pos))
                    (line_label (rendered_line d pos)) new_axes))
          [P00; P01; P10; P11]) p).
Proof.
  intros Hfig Hok.
  destruct (ranges_ok_each p Hok) as [H0 [H1 [H2 H3]]].
  destruct p as [lb fg cv qd cd sc rg tu du su].
  cbn [figure ranges] in *. subst fg.
  unfold draw_series, on_axes. rewrite !bind_modify. cbn [for_each].
  erewrite bind_ok
    by (apply apply_scale_and_range_ok; [reflexivity | exact H0]).
  erewrite bind_ok
    by (apply apply_scale_and_range_ok; [reflexivity | exact H1]).
  erewrite bind_ok
    by (apply apply_scale_and_range_ok; [reflexivity | exact H2]).
  erewrite bind_ok
    by (apply apply_scale_and_range_ok; [reflexivity | exact H3]).
  reflexivity.
Qed.

Variable h : CSVEventHandler.
Variable csv : result DataFrame.

(** [plot_data] takes its [except] branch in exactly two situations: a step
    before the store raises (then with that exception), or the series are
    computed and some range with both bounds set has a bound that is not
    finite (then with matplotlib's refusal of the axis limits). *)
Lemma plot_data_raises_exactly_when (p : CSVPlotter) :
  plot_data_raised h csv p
  = match steps_before_store h csv p with
    | Raise e => Some e
    | Ok _ => if ranges_ok p then None else Some (ValueError axis_limits_msg)
    end.
Proof.
  unfold plot_data_raised.
  set (p0 := set_figure subplots_2x2 (set_figure [] p)).
  change (steps_before_store h csv p) with (steps_before_store h csv p0).
  destruct (steps_before_store h csv p0) as [d | e] eqn:Es.
  - rewrite (plot_data_try_ok _ _ _ _ Es).
    pose proof (draw_series_outcome d (set_calculated_data d p0)) as Ho.
    change (ranges_ok (set_calculated_data d p0)) with (ranges_ok p) in Ho.
    destruct (draw_series d (set_calculated_data d p0)) as [[[] | e] p1];
      cbn [fst] in *; destruct (ranges_ok p); try discriminate Ho;
      [reflexivity | now injection Ho as ->].
  - pose proof (plot_data_try_spec h csv p0) as H. rewrite Es in H.
    now rewrite H.
Qed.

(** X1: when every range is acceptable and the steps before the store give
    the series [d], the call leaves a figure of four axes: diameter against
    time, strain against time, strain rate against time, strain rate against
    strain, each with its one line, its axis labels carrying the selected
    units, the scales of [parent.scales] and a legend.  For a range of
    [parent.ranges] with both bounds set the axes have been asked, by one
    accepted [set_xlim] ([set_ylim]) call, for exactly these two bounds;
    for any other range no limits have been asked for.  The call stores
    [d], queues exactly one draw and leaves label and canvas alone.  (What
    view matplotlib makes of the bounds it was asked for is not stated.) *)
Theorem successful_call_draws (p : CSVPlotter) (d : DerivedSeries) :
  steps_before_store h csv p = Ok d ->
  ranges_ok p = true ->
  figure (plot_data h csv p) = map (rendered_axes p d) [P00; P01; P10; P11]
  /\ calculated_data (plot_data h csv p) = Some d
  /\ queued_draws (plot_data h csv p) = S (queued_draws p)
  /\ label (plot_data h csv p) = label p
  /\ canvas (plot_data h csv p) = canvas p.
Proof.
  intros Es Hok. unfold plot_data.
  set (p0 := set_figure subplots_2x2 (set_figure [] p)).
  change (steps_before_store h csv p)
    with (steps_before_store h csv p0) in Es.
  rewrite (plot_data_try_ok _ _ _ _ Es).
  rewrite (draw_series_ok d (set_calculated_data d p0) eq_refl Hok).
  split; [|repeat split].
  cbn [map]. rewrite <- !rendered_axes_correct. reflexivity.
Qed.

(** X2: a range with both bounds set and a bound that is not finite makes
    the call fail after the new series are stored: the label shows
    matplotlib's refusal, no draw is queued, the canvas is untouched, and
    [calculated_data] already holds the series of this call. *)
Theorem range_failure_keeps_new_series (p : CSVPlotter) (d : DerivedSeries) :
  steps_before_store h csv p = Ok d ->
  ranges_ok p = false ->
  calculated_data (plot_data h csv p) = Some d
  /\ label (plot_data h csv p) = error_text (ValueError axis_limits_msg)
  /\ queued_draws (plot_data h csv p) = queued_draws p
  /\ canvas (plot_data h csv p) = canvas p.
Proof.
  intros Es Hbad. unfold plot_data.
  set (p0 := set_figure subplots_2x2 (set_figure [] p)).
  change (steps_before_store h csv p)
    with (steps_before_store h csv p0) in Es.
  rewrite (plot_data_try_ok _ _ _ _ Es).
  pose proof (draw_series_outcome d (set_calculated_data d p0)) as Ho.
  change (ranges_ok (set_calculated_data d p0)) with (ranges_ok p) in Ho.
  rewrite Hbad in Ho.
  pose proof (only_figure_draw_series d (set_calculated_data d p0)) as Hf.
  destruct (draw_series d (set_calculated_data d p0)) as [[[] | e] p1];
    cbn [fst snd] in *; [discriminate Ho|].
  injection Ho as ->. rewrite Hf.
  split; [reflexivity|]. split; [reflexivity|]. split; reflexivity.
Qed.

End Rendering.

(** ** The main window *)

Section Window.

Variable float_of_text : string -> option num.
Variable show : num -> string.

Lemma keeps_selection_refresh (fs : FileSystem) (h : CSVEventHandler) :
  keeps_selection (refresh fs h).
Proof. intros p. apply plot_data_keeps_selection. Qed.

Lemma keeps_selection_set_label (l : string) : keeps_selection (set_label l).
Proof. intros p. repeat split. Qed.

Lemma keeps_selection_compose (f g : CSVPlotter -> CSVPlotter) :
  keeps_selection f -> keeps_selection g ->
  keeps_selection (fun p => g (f p)).
Proof.
  intros Hf Hg p. destruct (Hf p) as [A [B C]].
  destruct (Hg (f p)) as [A' [B' C']].
  repeat split; congruence.
Qed.

Lemma keeps_selection_on_modified (h : CSVEventHandler) (src : string)
    (csv : result DataFrame) :
  keeps_selection (on_modified h src csv).
Proof.
  intros p. unfold on_modified.
  destruct (src =? file_path h)%string;
    [apply plot_data_keeps_selection | repeat split].
Qed.

Lemma invariant_with_widget (f : CSVPlotter -> CSVPlotter) (a : App) :
  keeps_selection f -> app_invariant a -> app_invariant (with_widget f a).
Proof.
  intros Hf [H1 [H2 [Ht [Hd Hs]]]].
  destruct (Hf (widget a)) as [A [B C]].
  unfold app_invariant. cbn [with_widget widget csv_file
    widget_initial_diameter event_handler observer timer].
  rewrite <- A, <- B, <- C. auto.
Qed.

Lemma invariant_manual_refresh (fs : FileSystem) (a : App) :
  app_invariant a -> app_invariant (manual_refresh fs a).
Proof.
  intros H. unfold manual_refresh.
  destruct (path_set (csv_file a)); [|exact H].
  destruct (event_handler a) as [h|]; [|exact H].
  apply invariant_with_widget; [apply keeps_selection_refresh | exact H].
Qed.

Lemma invariant_stop_observer (a : App) :
  app_invariant a -> app_invariant (stop_observer a).
Proof.
  intros [H1 [H2 H3]]. unfold app_invariant.
  cbn [stop_observer widget csv_file widget_initial_diameter event_handler
         observer timer].
  split; [|split; [|exact H3]].
  - destruct (csv_file a); [exact H1|].
    destruct H1 as [A [B C]]. rewrite C. auto.
  - destruct (observer a) as [o|]; [|exact I].
    cbn [option_map watch_handler alive]. destruct H2 as [A _].
    split; [exact A | discriminate].
Qed.

Lemma path_set_some (f : option string) :
  path_set f = true -> exists s, f = Some s /\ is_empty s = false.
Proof.
  destruct f as [s|]; [|discriminate].
  cbn [path_set]. intros H. apply negb_true_iff in H. eauto.
Qed.

Lemma invariant_save_inputs (dt it : string) (a : App) :
  app_invariant a ->
  app_invariant (state_of (save_inputs float_of_text show dt it a)).
Proof.
  intros H.
  assert (Hd : forall d, app_invariant (set_diameter d a)).
  { intros d. destruct H as [H1 [H2 H3]]. unfold app_invariant.
    cbn [set_diameter widget csv_file widget_initial_diameter event_handler
           observer timer].
    split; [|split; assumption].
    destruct (csv_file a); [|exact H1].
    destruct H1 as [A [_ C]]. split; [exact A|]. split; [discriminate|exact C]. }
  unfold save_inputs.
  destruct (float_of_text dt) as [d|];
    [|apply invariant_with_widget;
      [apply keeps_selection_set_label | exact H]].
  destruct (float_of_text it) as [v|];
    [|apply invariant_with_widget;
      [apply keeps_selection_set_label | apply Hd]].
  destruct (int_of (v * lit 1000)%num) as [rate| |]; cbn [state_of];
    try (apply invariant_with_widget;
         [apply keeps_selection_set_label | apply Hd]);
    try apply Hd.
Qed.

Lemma invariant_select_csv (fs : FileSystem) (chosen : string) (a : App) :
  app_invariant a -> app_invariant (select_csv fs chosen a).
Proof.
  intros H. unfold select_csv.
  destruct (widget_initial_diameter a) as [d|] eqn:Ed;
    [|apply invariant_with_widget;
      [apply keeps_selection_set_label | exact H]].
  destruct (is_empty chosen) eqn:Ec; [exact H|].
  destruct H as [H1 [H2 [Ht [Hd Hs]]]].
  destruct (plot_data_keeps_selection
              {| file_path := chosen; initial_diameter := d |}
              (fs chosen) (set_label ("Selected: " ++ chosen) (widget a)))
    as [A [B C]].
  unfold app_invariant, refresh.
  cbn [widget csv_file widget_initial_diameter event_handler observer timer
         file_path].
  cbn [set_label time_unit_combo diameter_unit_combo strain_rate_unit_combo]
    in A, B, C.
  rewrite <- A, <- B, <- C.
  split; [|split; [exact H2 | auto]].
  split; [exact Ec|]. split; [congruence|]. eexists. split; reflexivity.
Qed.

Lemma invariant_start_auto_refresh (fs : FileSystem) (a : App) :
  app_invariant a -> app_invariant (start_auto_refresh fs a).
Proof.
  intros H. apply invariant_stop_observer in H.
  unfold start_auto_refresh. cbv zeta.
  remember (stop_observer a) as b eqn:Eb. clear Eb.
  destruct (path_set (csv_file b)) eqn:Ep; cbn [negb];
    [|apply invariant_with_widget;
      [apply keeps_selection_set_label | exact H]].
  destruct (path_set_some _ Ep) as [f [Ef Hne]].
  unfold new_handler. rewrite Ef.
  destruct (widget_initial_diameter b) as [d|] eqn:Ed; [|exact H].
  destruct H as [H1 [H2 [Ht [Hd Hs]]]].
  destruct (plot_data_keeps_selection
              {| file_path := f; initial_diameter := d |}
              (fs f) (set_label ("Auto-refresh started for: " ++ f) (widget b)))
    as [A [B C]].
  unfold app_invariant, refresh.
  cbn [widget csv_file widget_initial_diameter event_handler observer timer
         file_path watch_handler alive].
  cbn [set_label time_unit_combo diameter_unit_combo strain_rate_unit_combo]
    in A, B, C.
  rewrite <- A, <- B, <- C, ?Ef, ?Ed.
  split; [|split; [|auto]].
  - split; [exact Hne|]. split; [discriminate|]. eexists. split; reflexivity.
  - split; [exact Hne | reflexivity].
Qed.

Lemma invariant_start_manual_refresh (fs : FileSystem) (a : App) :
  app_invariant a -> app_invariant (start_manual_refresh fs show a).
Proof.
  intros H. apply invariant_stop_observer in H.
  unfold start_manual_refresh. cbv zeta.
  assert (Hdead : match observer (stop_observer a) with
                  | Some o => alive o = false
                  | None => True
                  end).
  { cbn [stop_observer observer]. now destruct (observer a). }
  remember (stop_observer a) as b eqn:Eb. clear Eb.
  destruct (manual_refresh_rate b) as [rate|];
    [|apply invariant_with_widget;
      [apply keeps_selection_set_label | exact H]].
  destruct (path_set (csv_file b)) eqn:Ep; cbn [negb];
    [|apply invariant_with_widget;
      [apply keeps_selection_set_label | exact H]].
  destruct (path_set_some _ Ep) as [f [Ef Hne]].
  unfold new_handler. rewrite Ef.
  destruct (widget_initial_diameter b) as [d|] eqn:Ed; [|exact H].
  destruct H as [H1 [H2 [Ht [Hd Hs]]]].
  destruct (plot_data_keeps_selection
              {| file_path := f; initial_diameter := d |} (fs f)
              (set_label ("Manual refresh started (interval: "
                          ++ show (lit rate / lit 1000)%num ++ " s)")
                 (widget b)))
    as [A [B C]].
  unfold app_invariant, refresh.
  cbn [widget csv_file widget_initial_diameter event_handler observer timer
         file_path].
  cbn [set_label time_unit_combo diameter_unit_combo strain_rate_unit_combo]
    in A, B, C.
  rewrite <- A, <- B, <- C, ?Ef, ?Ed.
  split; [|split; [|auto]].
  - split; [exact Hne|]. split; [discriminate|]. eexists. split; reflexivity.
  - destruct (observer b) as [o|]; [|exact I].
    destruct H2 as [P _]. split; [exact P|]. rewrite Hdead. discriminate.
Qed.

Lemma keeps_selection_store_scale pos axis scale :
  keeps_selection (store_scale pos axis scale).
Proof. intros p. repeat split. Qed.

Lemma keeps_selection_store_range pos k v :
  keeps_selection (store_range pos k v).
Proof. intros p. repeat split. Qed.

Lemma invariant_change_unit (fs : FileSystem) (c : unit_combo)
    (text : string) (a : App) :
  In text (combo_items c) ->
  app_invariant a -> app_invariant (change_unit fs c text a).
Proof.
  intros Hin H. unfold change_unit.
  destruct (text =? combo_text c (widget a))%string; [exact H|].
  apply invariant_manual_refresh.
  destruct H as [H1 [H2 [Ht [Hd Hs]]]]. unfold app_invariant.
  cbn [with_widget widget csv_file widget_initial_diameter event_handler
         observer timer set_combo time_unit_combo diameter_unit_combo
         strain_rate_unit_combo].
  destruct c; cbn [combo_items] in Hin; auto.
Qed.

Lemma invariant_file_event (fs : FileSystem) (src : string) (a : App) :
  app_invariant a -> app_invariant (file_event fs src a).
Proof.
  intros H. unfold file_event.
  destruct (observer a) as [o|]; [|exact H].
  destruct (alive o); [|exact H].
  apply invariant_with_widget;
    [apply keeps_selection_on_modified | exact H].
Qed.

(** Every slot keeps the invariant. *)
Lemma invariant_step (fs : FileSystem) (e : event) (a : App) :
  possible e -> app_invariant a ->
  app_invariant (state_of (step float_of_text show fs e a)).
Proof.
  intros Hp H. destruct e; cbn [step state_of].
  - now apply invariant_save_inputs.
  - now apply invariant_select_csv.
  - now apply invariant_start_auto_refresh.
  - now apply invariant_start_manual_refresh.
  - now apply invariant_change_unit.
  - apply invariant_manual_refresh.
    apply invariant_with_widget;
      [apply keeps_selection_store_scale | exact H].
  - apply invariant_manual_refresh.
    apply invariant_with_widget;
      [apply keeps_selection_store_range | exact H].
  - unfold timer_tick. destruct (timer a); [|exact H].
    now apply invariant_manual_refresh.
  - now apply invariant_file_event.
Qed.

Lemma invariant_initial : app_invariant initial_app.
Proof.
  unfold app_invariant. cbn. repeat split; auto 10.
Qed.

(** [plot_data] leaves scales and ranges as they are. *)
Lemma plot_data_keeps_settings (h : CSVEventHandler) (csv : result DataFrame)
    (p : CSVPlotter) :
  scales (plot_data h csv p) = scales p
  /\ ranges (plot_data h csv p) = ranges p.
Proof.
  pose proof (plot_data_spec h csv p) as H.
  destruct (steps_before_store h csv p) as [d | e].
  - destruct H as [fig [[_ H] | [e [_ H]]]]; rewrite H; split; reflexivity.
  - destruct H as [_ H]. rewrite H. split; reflexivity.
Qed.

Lemma manual_refresh_keeps_settings (fs : FileSystem) (a : App) :
  scales (widget (manual_refresh fs a)) = scales (widget a)
  /\ ranges (widget (manual_refresh fs a)) = ranges (widget a).
Proof.
  unfold manual_refresh.
  destruct (path_set (csv_file a)); [|split; reflexivity].
  destruct (event_handler a) as [h|]; [|split; reflexivity].
  apply plot_data_keeps_settings.
Qed.

(** The stored series after a call do not depend on the label before it. *)
Lemma plot_data_ignores_label (h : CSVEventHandler) (csv : result DataFrame)
    (l : string) (p : CSVPlotter) :
  calculated_data (plot_data h csv (set_label l p))
  = calculated_data (plot_data h csv p).
Proof.
  pose proof (plot_data_spec h csv (set_label l p)) as H1.
  pose proof (plot_data_spec h csv p) as H2.
  change (steps_before_store h csv (set_label l p))
    with (steps_before_store h csv p) in H1.
  destruct (steps_before_store h csv p) as [d | e].
  - destruct H1 as [f1 [[_ H1] | [e1 [_ H1]]]];
      destruct H2 as [f2 [[_ H2] | [e2 [_ H2]]]];
      rewrite H1, H2; reflexivity.
  - destruct H1 as [_ H1], H2 as [_ H2]. rewrite H1, H2. reflexivity.
Qed.

Lemma invariant_run (es : list (FileSystem * event)) (a : App) :
  Forall (fun fe => possible (snd fe)) es ->
  app_invariant a ->
  app_invariant (state_of (run float_of_text show es a)).
Proof.
  revert a. induction es as [|[fs e] rest IH]; intros a Hp Ha; [exact Ha|].
  inversion Hp as [|? ? He Hrest]; subst. cbn [snd] in He.
  cbn [run].
  pose proof (invariant_step fs e a He Ha) as Hs.
  destruct (step float_of_text show fs e a) as [a' | a']; cbn [state_of] in *.
  - now apply IH.
  - exact Hs.
Qed.

(** X3: at every point of every run of the window, whatever the files hold:
    the timer and a running file watcher are never active together; a
    selected file is a non-empty path and comes with a handler for that very
    path and a saved diameter; and the three unit boxes hold listed units. *)
Theorem window_invariant (es : list (FileSystem * event)) :
  Forall (fun fe => possible (snd fe)) es ->
  let a := state_of (run float_of_text show es initial_app) in
  (forall o, observer a = Some o -> alive o = true -> timer a = None)
  /\ (forall f, csv_file a = Some f ->
       is_empty f = false
       /\ exists h d, event_handler a = Some h /\ file_path h = f
                      /\ widget_initial_diameter a = Some d)
  /\ (csv_file a = None -> event_handler a = None /\ timer a = None)
  /\ In (time_unit_combo (widget a)) time_units
  /\ In (diameter_unit_combo (widget a)) diameter_units
  /\ In (strain_rate_unit_combo (widget a)) strain_rate_units.
Proof.
  intros Hp a.
  destruct (invariant_run es initial_app Hp invariant_initial)
    as [H1 [H2 [Ht [Hd Hs]]]].
  fold a in H1, H2, Ht, Hd, Hs.
  split; [|split; [|split; [|auto]]].
  - intros o Ho Ha. rewrite Ho in H2. now apply H2.
  - intros f Hf. rewrite Hf in H1. destruct H1 as [A [B [h [C D]]]].
    split; [exact A|].
    destruct (widget_initial_diameter a) as [d|]; [|congruence].
    exists h, d. auto.
  - intros Hf. rewrite Hf in H1. tauto.
Qed.

(** With a non-empty path and listed units, the steps before the store
    fail only on an unreadable file or on fewer than five complete rows. *)
Lemma steps_before_store_listed (h : CSVEventHandler)
    (csv : result DataFrame) (p : CSVPlotter) :
  is_empty (file_path h) = false ->
  In (time_unit_combo p) time_units ->
  In (strain_rate_unit_combo p) strain_rate_units ->
  match csv with
  | Raise e => steps_before_store h csv p = Raise e
  | Ok table =>
      if (List.length (dropna table) <? 5)%nat
      then steps_before_store h csv p = Raise InsufficientDataError
      else exists d, steps_before_store h csv p = Ok d
  end.
Proof.
  intros Hne Ht Hs. unfold steps_before_store. rewrite Hne.
  destruct csv as [table | e]; [|reflexivity]. cbn [rbind].
  destruct (List.length (dropna table) <? 5)%nat eqn:E.
  - apply Nat.ltb_lt in E. unfold compute_series.
    rewrite savgol_filter_short by now rewrite length_map.
    reflexivity.
  - apply Nat.ltb_ge in E.
    destruct (compute_series_listed (time_unit_combo p) (diameter_unit_combo p)
                (strain_rate_unit_combo p) (initial_diameter h) table Ht Hs E)
      as [sm [g [_ [_ [_ [_ Hc]]]]]].
    eexists. exact Hc.
Qed.

(** X4: at every point of every run, on a file of the kind the model
    covers (one that cannot be read, one with a single column, or a table
    whose first two columns hold finite numbers or blanks), a refresh by the
    window's handler or by the watcher's handler can fail in three ways
    only: reading the two columns fails (the error of [pd.read_csv], or the
    [IndexError] of [df.iloc[:, 1]]), fewer than five complete rows are
    left, or a range with both bounds set has a bound that is not finite.
    In particular the unassigned local variables of [plot_data] are never
    read.  Tables with text or infinite entries in the first two columns
    are not covered. *)
Theorem refresh_fails_exactly_when (es : list (FileSystem * event))
    (fs : FileSystem) (h : CSVEventHandler) :
  Forall (fun fe => possible (snd fe)) es ->
  let a := state_of (run float_of_text show es initial_app) in
  (event_handler a = Some h
   \/ exists o, observer a = Some o /\ watch_handler o = h) ->
  plot_data_raised h (fs (file_path h)) (widget a)
  = match fs (file_path h) with
    | Raise e => Some e
    | Ok table =>
        if (List.length (dropna table) <? 5)%nat
        then Some InsufficientDataError
        else if ranges_ok (widget a) then None
             else Some (ValueError axis_limits_msg)
    end.
Proof.
  intros Hp a Hh.
  destruct (invariant_run es initial_app Hp invariant_initial)
    as [H1 [H2 [Ht [_ Hs]]]].
  fold a in H1, H2, Ht, Hs.
  assert (Hne : is_empty (file_path h) = false).
  { destruct Hh as [Hh | [o [Ho <-]]].
    - destruct (csv_file a) as [f|].
      + destruct H1 as [A [_ [h' [B C]]]]. congruence.
      + destruct H1 as [A _]. congruence.
    - rewrite Ho in H2. tauto. }
  pose proof (steps_before_store_listed h (fs (file_path h)) (widget a)
                Hne Ht Hs) as Hsteps.
  rewrite plot_data_raises_exactly_when.
  destruct (fs (file_path h)) as [table | e]; [|now rewrite Hsteps].
  destruct (List.length (dropna table) <? 5)%nat.
  - now rewrite Hsteps.
  - destruct Hsteps as [d ->]. reflexivity.
Qed.

(** X5: pressing Enter changes the saved diameter but not the handler in
    use: the next refresh computes what it would have computed without the
    new input.  The new diameter is used from the next handler on, which
    Select CSV and the two Start buttons create. *)
Theorem saved_diameter_waits_for_new_handler (fs : FileSystem)
    (dt it : string) (a : App) :
  let a' := state_of (save_inputs float_of_text show dt it a) in
  event_handler a' = event_handler a
  /\ calculated_data (widget (manual_refresh fs a'))
     = calculated_data (widget (manual_refresh fs a))
  /\ (forall d, float_of_text dt = Some d ->
       widget_initial_diameter a' = Some d
       /\ (path_set (csv_file a) = true ->
           option_map initial_diameter
             (event_handler (start_auto_refresh fs a')) = Some d)).
Proof.
  cbv zeta.
  assert (Hw : forall l b,
             event_handler b = event_handler a ->
             csv_file b = csv_file a ->
             widget b = widget a ->
             calculated_data
               (widget (manual_refresh fs (with_widget (set_label l) b)))
             = calculated_data (widget (manual_refresh fs a))).
  { intros l b Hh Hc Hwd. unfold manual_refresh.
    cbn [with_widget csv_file event_handler]. rewrite Hh, Hc.
    destruct (path_set (csv_file a));
      [|cbn [with_widget widget set_label calculated_data]; now rewrite Hwd].
    destruct (event_handler a) as [h|];
      [|cbn [with_widget widget set_label calculated_data]; now rewrite Hwd].
    cbn [with_widget widget]. rewrite Hwd. unfold refresh.
    apply plot_data_ignores_label. }
  unfold save_inputs.
  destruct (float_of_text dt) as [d|].
  2:{ split; [reflexivity|]. split; [now apply Hw|]. discriminate. }
  assert (Hauto : path_set (csv_file a) = true ->
                  forall b, csv_file b = csv_file a ->
                  widget_initial_diameter b = Some d ->
                  option_map initial_diameter
                    (event_handler (start_auto_refresh fs b)) = Some d).
  { intros Hp b Hc Hd. unfold start_auto_refresh, new_handler. cbv zeta.
    cbn [stop_observer csv_file widget_initial_diameter]. rewrite Hc, Hp, Hd.
    cbn [negb]. destruct (path_set_some _ Hp) as [f [-> _]]. reflexivity. }
  destruct (float_of_text it) as [v|].
  2:{ split; [reflexivity|]. split; [now apply Hw|].
      intros d' [= <-]. split; [reflexivity|].
      intros Hp. now apply Hauto. }
  destruct (int_of (v * lit 1000)%num) as [rate| |]; cbn [state_of].
  - split; [reflexivity|]. split; [now apply Hw|].
    intros d' [= <-]. split; [reflexivity|]. intros Hp. now apply Hauto.
  - split; [reflexivity|]. split; [now apply Hw|].
    intros d' [= <-]. split; [reflexivity|]. intros Hp. now apply Hauto.
  - split; [reflexivity|]. split.
    { unfold manual_refresh. cbn [set_diameter csv_file event_handler].
      destruct (path_set (csv_file a)); [|reflexivity].
      destruct (event_handler a); reflexivity. }
    intros d' [= <-]. split; [reflexivity|]. intros Hp. now apply Hauto.
Qed.

(** X6: an Enter with a valid diameter and an interval text that is no
    number shows the invalid-input message, yet the diameter is saved: Select
    CSV is then accepted and builds its handler with that diameter, while
    Start Manual Refresh still refuses for want of an interval and starts no
    timer. *)
Theorem diameter_saved_despite_invalid_interval (fs fs' : FileSystem)
    (dt it chosen : string) (d : num) (a : App) :
  float_of_text dt = Some d ->
  float_of_text it = None ->
  manual_refresh_rate a = None ->
  is_empty chosen = false ->
  let a1 := state_of (save_inputs float_of_text show dt it a) in
  let a2 := select_csv fs chosen a1 in
  let a3 := start_manual_refresh fs' show a2 in
  label (widget a1) = invalid_input_msg
  /\ manual_refresh_rate a1 = None
  /\ csv_file a2 = Some chosen
  /\ event_handler a2 = Some {| file_path := chosen; initial_diameter := d |}
  /\ timer a3 = timer a
  /\ label (widget a3) = "Set values and press 'Enter' first!"%string.
Proof.
  intros Hd Hi Hr Hc. cbv zeta. unfold save_inputs. rewrite Hd, Hi.
  cbn [state_of]. unfold select_csv.
  cbn [with_widget set_diameter widget_initial_diameter]. rewrite Hc.
  unfold start_manual_refresh. cbv zeta.
  cbn [stop_observer manual_refresh_rate with_widget set_diameter]. rewrite Hr.
  repeat split; try reflexivity; assumption.
Qed.

(** X7: [update_range] stores at the given place and key the number of the
    text, or nothing for an empty text or a text that is no number; the
    other three bounds of that place, the ranges of the other places and
    the scales are as before, also after the refresh it triggers. *)
Theorem update_range_stores (fs : FileSystem) (pos : position)
    (k : range_key) (value : string) (a : App) :
  let a' := update_range float_of_text fs pos k value a in
  get_bound k (ranges (widget a') pos)
  = (if is_empty value then None else float_of_text value)
  /\ (forall k', k' <> k ->
       get_bound k' (ranges (widget a') pos)
       = get_bound k' (ranges (widget a) pos))
  /\ (forall pos', pos' <> pos ->
       ranges (widget a') pos' = ranges (widget a) pos')
  /\ scales (widget a') = scales (widget a).
Proof.
  cbv zeta. unfold update_range.
  destruct (manual_refresh_keeps_settings fs
              (with_widget
                 (store_range pos k (bound_of_text float_of_text value)) a))
    as [Hs Hr].
  rewrite Hs, Hr.
  cbn [with_widget widget store_range set_ranges ranges scales].
  split; [|split; [|split; [|reflexivity]]].
  - replace (position_eqb pos pos) with true by now destruct pos.
    unfold bound_of_text.
    destruct (ranges (widget a) pos) as [[[x0 x1] y0] y1].
    now destruct k.
  - intros k' Hk.
    replace (position_eqb pos pos) with true by now destruct pos.
    destruct (ranges (widget a) pos) as [[[x0 x1] y0] y1].
    destruct k, k'; try reflexivity; congruence.
  - intros pos' Hp.
    replace (position_eqb pos' pos) with false; [reflexivity|].
    destruct pos, pos'; try reflexivity; congruence.
Qed.

(** X8: [update_scale] stores the scale of the x axis for the axis text
    ["x"] and of the y axis for any other text, at the given place only; the
    other axis, the other places and the ranges are as before, also after
    the refresh it triggers. *)
Theorem update_scale_stores (fs : FileSystem) (pos : position)
    (axis : string) (scale : axis_scale) (a : App) :
  let a' := update_scale fs pos axis scale a in
  scales (widget a') pos
  = (if (axis =? "x")%string then (scale, snd (scales (widget a) pos))
     else (fst (scales (widget a) pos), scale))
  /\ (forall pos', pos' <> pos ->
       scales (widget a') pos' = scales (widget a) pos')
  /\ ranges (widget a') = ranges (widget a).
Proof.
  cbv zeta. unfold update_scale.
  destruct (manual_refresh_keeps_settings fs
              (with_widget (store_scale pos axis scale) a)) as [Hs Hr].
  rewrite Hs, Hr.
  cbn [with_widget widget store_scale set_scales ranges scales].
  split; [|split; [|reflexivity]].
  - replace (position_eqb pos pos) with true by now destruct pos.
    reflexivity.
  - intros pos' Hp.
    replace (position_eqb pos' pos) with false; [reflexivity|].
    destruct pos, pos'; try reflexivity; congruence.
Qed.

(** X9: selecting another file while the watcher runs does not move the
    watcher: the window then shows the new selection, but a change of the
    new file is ignored, and a change of the old file replots the old file
    with the old handler. *)
Theorem watcher_keeps_its_handler (fs1 fs2 fs3 : FileSystem)
    (old_file chosen : string) (d : num) (a : App) :
  csv_file a = Some old_file ->
  is_empty old_file = false ->
  widget_initial_diameter a = Some d ->
  is_empty chosen = false ->
  let old_handler := {| file_path := old_file; initial_diameter := d |} in
  let a2 := select_csv fs2 chosen (start_auto_refresh fs1 a) in
  csv_file a2 = Some chosen
  /\ event_handler a2
     = Some {| file_path := chosen; initial_diameter := d |}
  /\ file_event fs3 old_file a2
     = with_widget (plot_data old_handler (fs3 old_file)) a2
  /\ (forall src, (src =? old_file)%string = false ->
       file_event fs3 src a2 = a2).
Proof.
  intros Hf Hne Hd Hc. cbv zeta.
  unfold start_auto_refresh, new_handler. cbv zeta.
  cbn [stop_observer csv_file widget_initial_diameter]. rewrite Hf, Hd.
  cbn [path_set]. rewrite Hne. cbn [negb].
  unfold select_csv. cbn [widget_initial_diameter]. rewrite ?Hd, Hc.
  split; [reflexivity|]. split; [reflexivity|].
  unfold file_event. cbn [observer alive watch_handler file_path].
  unfold on_modified. cbn [file_path].
  split.
  - now rewrite String.eqb_refl.
  - intros src Hs. rewrite Hs.
    unfold with_widget. cbn. reflexivity.
Qed.

End Window.

(** ** The folder handed to the file watcher *)

Section FolderPath.

Lemma split_slash_nonempty (s : string) : split_slash s <> [].
Proof.
  destruct s as [|c rest]; cbn [split_slash]; [discriminate|].
  destruct (Ascii.eqb c "/"); [discriminate|].
  destruct (split_slash rest); discriminate.
Qed.

Lemma concat_cons_char (c : ascii) (w : string) (ws : list string) :
  String.concat "/" (String c w :: ws)
  = String c (String.concat "/" (w :: ws)).
Proof. destruct ws; reflexivity. Qed.

(** Joining the parts of a path with slashes gives the path back. *)
Lemma concat_split_slash (s : string) :
  String.concat "/" (split_slash s) = s.
Proof.
  induction s as [|c rest IH]; [reflexivity|].
  cbn [split_slash].
  destruct (Ascii.eqb c "/") eqn:E.
  - apply Ascii.eqb_eq in E. subst c.
    pose proof (split_slash_nonempty rest) as Hne.
    destruct (split_slash rest) as [|w ws]; [congruence|].
    change (String.concat "/" (EmptyString :: w :: ws))
      with (String "/" (String.concat "/" (w :: ws))).
    now rewrite IH.
  - pose proof (split_slash_nonempty rest) as Hne.
    destruct (split_slash rest) as [|w ws]; [congruence|].
    rewrite concat_cons_char. now rewrite IH.
Qed.

Lemma split_slash_parts (s : string) :
  Forall (fun w => has_slash w = false) (split_slash s).
Proof.
  induction s as [|c rest IH]; [repeat constructor|].
  cbn [split_slash].
  destruct (Ascii.eqb c "/") eqn:E.
  - constructor; [reflexivity | exact IH].
  - destruct (split_slash rest) as [|w ws]; [repeat constructor|].
    + cbn [has_slash]. now rewrite E.
    + inversion IH; subst. constructor; [|assumption].
      cbn [has_slash]. now rewrite E.
Qed.

Lemma has_slash_parts (s : string) :
  has_slash s = negb (List.length (split_slash s) =? 1)%nat.
Proof.
  induction s as [|c rest IH]; [reflexivity|].
  cbn [split_slash has_slash].
  pose proof (split_slash_nonempty rest) as Hne.
  destruct (Ascii.eqb c "/").
  - destruct (split_slash rest); [congruence | reflexivity].
  - destruct (split_slash rest) as [|w ws]; [congruence|].
    cbn [orb]. rewrite IH. reflexivity.
Qed.

Lemma append_assoc (a b c : string) :
  ((a ++ b) ++ c)%string = (a ++ (b ++ c))%string.
Proof.
  induction a as [|ch a IH]; [reflexivity|]. cbn [String.append].
  now rewrite IH.
Qed.

Lemma concat_snoc (l : list string) (x : string) :
  l <> [] ->
  String.concat "/" (l ++ [x]) = (String.concat "/" l ++ "/" ++ x)%string.
Proof.
  induction l as [|a rest IH]; [congruence|]. intros _.
  destruct rest as [|b r]; [reflexivity|].
  change (String.concat "/" ((a :: b :: r) ++ [x]))
    with (a ++ "/" ++ String.concat "/" ((b :: r) ++ [x]))%string.
  rewrite IH by discriminate.
  change (String.concat "/" (a :: b :: r))
    with (a ++ "/" ++ String.concat "/" (b :: r))%string.
  now rewrite !append_assoc.
Qed.

(** X10: the folder that [start_auto_refresh] hands to the watcher, a slash
    and the last component make up the selected path again whenever the
    path contains a slash; for a path without a slash the folder is the
    empty text.  The last component never contains a slash. *)
Theorem folder_path_and_file_name (csv_file : string) :
  (if has_slash csv_file
   then (folder_path csv_file ++ "/" ++ file_name csv_file)%string = csv_file
   else folder_path csv_file = EmptyString /\ file_name csv_file = csv_file)
  /\ has_slash (file_name csv_file) = false.
Proof.
  unfold folder_path, file_name.
  pose proof (split_slash_nonempty csv_file) as Hne.
  pose proof (concat_split_slash csv_file) as Hc.
  pose proof (split_slash_parts csv_file) as Hp.
  pose proof (has_slash_parts csv_file) as Hs.
  remember (split_slash csv_file) as parts eqn:Ep. clear Ep.
  assert (Hd : parts = removelast parts ++ [List.last parts EmptyString])
    by now apply app_removelast_last.
  remember (List.last parts EmptyString) as x eqn:Ex.
  remember (removelast parts) as front eqn:Ef.
  clear Ex Ef Hne. subst parts.
  split.
  - rewrite Hs. destruct front as [|a l].
    + cbn [app String.concat] in Hc. cbn. auto.
    + rewrite length_app. cbn [List.length].
      replace (S (List.length l) + 1 =? 1)%nat with false
        by (symmetry; apply Nat.eqb_neq; lia).
      cbn [negb]. now rewrite <- concat_snoc by discriminate.
  - rewrite Forall_forall in Hp. apply Hp.
    apply in_or_app. right. now left.
Qed.

End FolderPath.

(** ** The exported table *)

Section AsciiExport.

Variable show : num -> string.

Lemma zip4_length (a b c d : list num) (n : nat) :
  List.length a = n -> List.length b = n -> List.length c = n ->
  List.length d = n ->
  List.length (zip4 a b c d) = n.
Proof.
  revert a b c d. induction n as [|n IH]; intros [|x a] [|y b] [|z c] [|w d];
    cbn [List.length zip4]; try discriminate; try reflexivity.
  intros [=Ha] [=Hb] [=Hc] [=Hd]. f_equal. now apply IH.
Qed.

Lemma zip4_nth (a b c d : list num) (i : nat) :
  (i < List.length a)%nat -> (i < List.length b)%nat ->
  (i < List.length c)%nat -> (i < List.length d)%nat ->
  nth_error (zip4 a b c d) i
  = Some (nth i a NaN, nth i b NaN, nth i c NaN, nth i d NaN).
Proof.
  revert a b c d. induction i as [|i IH]; intros [|x a] [|y b] [|z c] [|w d];
    cbn [List.length]; intros Ha Hb Hc Hd; try lia; [reflexivity|].
  cbn [zip4 nth_error nth]. apply IH; lia.
Qed.

Variable h : CSVEventHandler.
Variable table : DataFrame.
Variable chosen : string.

(** X11: after a refresh on a readable table with at least five complete
    rows (and listed units), an export to a chosen path writes the header
    with the selected units and then one text per complete row, in the order
    of the rows, each holding the converted time, the converted diameter,
    the strain and the strain rate of that row separated by tabs.  This
    holds also when the refresh failed at an axis range, because the series
    are stored before anything is drawn. *)
Theorem export_after_refresh (p : CSVPlotter) :
  is_empty (file_path h) = false ->
  In (time_unit_combo p) time_units ->
  In (strain_rate_unit_combo p) strain_rate_units ->
  (5 <= List.length (dropna table))%nat ->
  is_empty chosen = false ->
  exists d written,
    steps_before_store h (Ok table) p = Ok d
    /\ snd (export_to_ascii show chosen (plot_data h (Ok table) p))
       = Some (chosen, written)
    /\ List.length written = S (List.length (dropna table))
    /\ nth_error written 0
       = Some (export_header (time_unit_combo p) (diameter_unit_combo p)
                 (strain_rate_unit_combo p))
    /\ forall i, (i < List.length (dropna table))%nat ->
         nth_error written (S i)
         = Some (export_row show
                   (nth i (time_converted d) NaN,
                    nth i (diameter_converted d) NaN,
                    nth i (diametrical_strain d) NaN,
                    nth i (strain_rate_converted d) NaN)).
Proof.
  intros Hne Ht Hs Hn Hc.
  destruct (compute_series_listed (time_unit_combo p) (diameter_unit_combo p)
              (strain_rate_unit_combo p) (initial_diameter h) table Ht Hs Hn)
    as [sm [g [_ [Hlen [_ [Hglen Hcs]]]]]].
  rewrite convert_diameter_spec in Hcs. cbn [fst snd] in Hcs.
  match type of Hcs with
  | _ = Ok ?v => remember v as d eqn:Ed
  end.
  assert (Hsteps : steps_before_store h (Ok table) p = Ok d)
    by (unfold steps_before_store; rewrite Hne; exact Hcs).
  pose proof (plot_data_spec h (Ok table) p) as Hspec.
  rewrite Hsteps in Hspec.
  pose proof (plot_data_keeps_selection h (Ok table) p) as [A [B C]].
  assert (Hdata : calculated_data (plot_data h (Ok table) p) = Some d).
  { destruct Hspec as [fig [[_ H] | [e [_ H]]]]; rewrite H; reflexivity. }
  subst d.
  eexists. eexists. split; [exact Hsteps|].
  unfold export_to_ascii. rewrite Hdata, Hc. cbn [snd].
  rewrite <- A, <- B, <- C.
  split; [reflexivity|].
  unfold export_writes.
  cbn [time_converted diameter_converted diametrical_strain
         strain_rate_converted].
  assert (L1 : List.length (spec_time (time_unit_combo p)
                              (map r_time (dropna table)))
               = List.length (dropna table))
    by (unfold spec_time; now rewrite !length_map).
  assert (L2 : List.length (map (spec_diameter (diameter_unit_combo p)) sm)
               = List.length (dropna table))
    by now rewrite length_map.
  assert (L3 : List.length
                 (strain_of (map (spec_diameter (diameter_unit_combo p)) sm)
                    (spec_diameter (diameter_unit_combo p) (initial_diameter h)))
               = List.length (dropna table))
    by (unfold strain_of; now rewrite unscale_length, shift_down_length).
  assert (L4 : List.length
                 (scale g (lit (spec_rate_multiplier (time_unit_combo p)
                                  (strain_rate_unit_combo p))))
               = List.length (dropna table))
    by now rewrite scale_length.
  split; [|split; [reflexivity|]].
  - cbn [List.length]. f_equal. rewrite length_map.
    now apply zip4_length.
  - intros i Hi. cbn [nth_error]. rewrite nth_error_map.
    rewrite zip4_nth by lia. reflexivity.
Qed.

End AsciiExport.

(** ** The single-plot window *)

Section SinglePlot.

Variable float_of_text : string -> option num.

Lemma ranged_keeps (w : FullScreenPlot) (ax : Axes) :
  lines (ranged float_of_text w ax) = lines ax
  /\ xlabel (ranged float_of_text w ax) = xlabel ax
  /\ ylabel (ranged float_of_text w ax) = ylabel ax
  /\ xscale (ranged float_of_text w ax) = xscale ax
  /\ yscale (ranged float_of_text w ax) = yscale ax
  /\ legend (ranged float_of_text w ax) = legend ax.
Proof.
  unfold ranged, try_ranges, float_or_none.
  repeat match goal with
         | |- context [is_empty ?t] => destruct (is_empty t)
         | |- context [float_of_text ?t] => destruct (float_of_text t)
         end;
    unfold set_xlim, set_ylim;
    repeat match goal with
           | |- context [is_finite ?v] => destruct (is_finite v)
           end;
    cbn; repeat split.
Qed.

Lemma ranged_limits (w : FullScreenPlot) (ax : Axes) :
  (xlim_request (ranged float_of_text w ax), ylim_request (ranged float_of_text w ax))
  = match parsed_ranges float_of_text w with
    | Some (x_min, x_max, y_min, y_max) =>
        if limits_ok x_min x_max && limits_ok y_min y_max
        then (both_bounds x_min x_max, both_bounds y_min y_max)
        else (None, None)
    | None => (None, None)
    end.
Proof.
  unfold ranged, try_ranges, parsed_ranges, float_or_none.
  repeat match goal with
         | |- context [is_empty ?t] => destruct (is_empty t)
         | |- context [float_of_text ?t] => destruct (float_of_text t)
         end;
    unfold set_xlim, set_ylim, limits_ok;
    repeat match goal with
           | |- context [is_finite ?v] => destruct (is_finite v)
           end;
    reflexivity.
Qed.

(** X12: in a single-plot window with an axes, [update_ranges] never
    raises and leaves lines, labels, scales and legend alone.  An axis is
    left with an accepted [set_xlim] ([set_ylim]) call for its two typed
    bounds exactly when all four inputs are empty or numbers, both bounds of
    that axis are given and every fully given range is finite; in every
    other case, a text that is no number or a bound that is not finite on
    either axis included, both axes are left on automatic limits
    ([autoscale]), also the axis whose own call had been accepted.  The
    canvas is redrawn.  (What view matplotlib makes of the bounds it was
    asked for is not stated.) *)
Theorem update_ranges_limits (w : FullScreenPlot) (ax : Axes)
    (rest : list Axes) :
  (ax_index w =? "All")%string = false ->
  fs_figure w = ax :: rest ->
  exists ax',
    fs_figure (update_ranges float_of_text w) = ax' :: rest
    /\ fs_canvas (update_ranges float_of_text w) = ax' :: rest
    /\ lines ax' = lines ax /\ xlabel ax' = xlabel ax
    /\ ylabel ax' = ylabel ax /\ xscale ax' = xscale ax
    /\ yscale ax' = yscale ax /\ legend ax' = legend ax
    /\ (xlim_request ax', ylim_request ax')
       = match parsed_ranges float_of_text w with
         | Some (x_min, x_max, y_min, y_max) =>
             if limits_ok x_min x_max && limits_ok y_min y_max
             then (both_bounds x_min x_max, both_bounds y_min y_max)
             else (None, None)
         | None => (None, None)
         end.
Proof.
  intros Hidx Hfig. exists (ranged float_of_text w ax).
  unfold update_ranges. rewrite Hidx, Hfig. fold (ranged float_of_text w ax).
  split; [reflexivity|]. split; [reflexivity|].
  destruct (ranged_keeps w ax) as [A [B [C [D [E F]]]]].
  repeat (split; [assumption|]).
  apply ranged_limits.
Qed.

(** X13: [update_plot] in a single-plot window redraws its one axes from
    the tuple of series the window holds: the line is the one of the
    window's index, with the stored data as they are, whatever the unit
    boxes of the window say; the unit boxes only enter the labels.  The x
    label is "Time (unit)" for every index, also for "Plot 4", whose x data
    are the strain.  The stored tuple is not changed. *)
Theorem update_plot_shows_stored_data (w : FullScreenPlot)
    (data : DerivedSeries) (ax : Axes) (rest : list Axes) :
  (ax_index w =? "All")%string = false ->
  fs_calculated_data w = Some data ->
  fs_figure w = ax :: rest ->
  exists ax',
    fs_figure (update_plot float_of_text w) = ax' :: rest
    /\ fs_canvas (update_plot float_of_text w) = ax' :: rest
    /\ lines ax' = window_line (ax_index w) data
    /\ xlabel ax' = ("Time (" ++ fs_time_unit_combo w ++ ")")%string
    /\ xscale ax' = x_scale_combo w
    /\ yscale ax' = y_scale_combo w
    /\ legend ax' = true
    /\ fs_calculated_data (update_plot float_of_text w) = Some data.
Proof.
  intros Hidx Hdata Hfig.
  unfold update_plot. rewrite Hidx, Hdata, Hfig. cbv zeta.
  unfold update_ranges.
  cbn [set_fs_figure ax_index fs_figure]. rewrite Hidx.
  match goal with
  | |- context [try_ranges float_of_text ?w' ?a] =>
      fold (ranged float_of_text w' a);
      destruct (ranged_keeps w' a) as [A [B [C [D [E F]]]]];
      exists (ranged float_of_text w' a)
  end.
  split; [reflexivity|]. split; [reflexivity|].
  rewrite A, B, D, E, F.
  unfold plot_by_index, window_line.
  assert (Hkept : forall a b,
             fs_calculated_data
               (fs_draw (fs_draw (set_fs_figure a (set_fs_figure b w))))
             = Some data) by (intros a b; exact Hdata).
  destruct (ax_index w =? "Plot 1")%string;
    [|destruct (ax_index w =? "Plot 2")%string;
      [|destruct (ax_index w =? "Plot 3")%string;
        [|destruct (ax_index w =? "Plot 4")%string]]];
    (repeat (split; [reflexivity|])); apply Hkept.
Qed.

Lemma update_ranges_keeps (w : FullScreenPlot) :
  ax_index (update_ranges float_of_text w) = ax_index w
  /\ fs_calculated_data (update_ranges float_of_text w)
     = fs_calculated_data w
  /\ fs_time_unit_combo (update_ranges float_of_text w)
     = fs_time_unit_combo w
  /\ fs_diameter_unit_combo (update_ranges float_of_text w)
     = fs_diameter_unit_combo w
  /\ fs_strain_rate_unit_combo (update_ranges float_of_text w)
     = fs_strain_rate_unit_combo w.
Proof.
  unfold update_ranges.
  destruct (ax_index w =? "All")%string; [repeat split|].
  destruct (fs_figure w); repeat split.
Qed.

Lemma update_plot_keeps (w : FullScreenPlot) :
  ax_index (update_plot float_of_text w) = ax_index w
  /\ fs_calculated_data (update_plot float_of_text w) = fs_calculated_data w
  /\ fs_time_unit_combo (update_plot float_of_text w) = fs_time_unit_combo w
  /\ fs_diameter_unit_combo (update_plot float_of_text w)
     = fs_diameter_unit_combo w
  /\ fs_strain_rate_unit_combo (update_plot float_of_text w)
     = fs_strain_rate_unit_combo w.
Proof.
  assert (H : forall f,
             let w' := fs_draw (update_ranges float_of_text
                                  (set_fs_figure f w)) in
             ax_index w' = ax_index w
             /\ fs_calculated_data w' = fs_calculated_data w
             /\ fs_time_unit_combo w' = fs_time_unit_combo w
             /\ fs_diameter_unit_combo w' = fs_diameter_unit_combo w
             /\ fs_strain_rate_unit_combo w' = fs_strain_rate_unit_combo w).
  { intros f. cbv zeta.
    destruct (update_ranges_keeps (set_fs_figure f w)) as [A [B [C [D F]]]].
    cbn [fs_draw ax_index fs_calculated_data fs_time_unit_combo
           fs_diameter_unit_combo fs_strain_rate_unit_combo].
    rewrite A, B, C, D, F. repeat split. }
  unfold update_plot.
  destruct (ax_index w =? "All")%string; [repeat split|].
  destruct (fs_calculated_data w) as [data|] eqn:Ed;
    [|rewrite Ed; repeat split].
  destruct (fs_figure w) as [|ax rest]; [rewrite Ed; repeat split|].
  cbv zeta. apply H.
Qed.

(** X14: in a single-plot window, choosing another unit in one of its unit
    boxes redraws the plot but converts nothing: the tuple of series stays
    as it was, so a following export writes the same rows as before the
    change, under a header that names the newly chosen unit. *)
Theorem unit_change_in_window_keeps_rows (show : num -> string)
    (chosen : string) (parent_widget : CSVPlotter) (c : unit_combo)
    (text : string) (w : FullScreenPlot) (data : DerivedSeries) :
  (ax_index w =? "All")%string = false ->
  fs_calculated_data w = Some data ->
  is_empty chosen = false ->
  let w' := fs_change_unit float_of_text c text w in
  fs_calculated_data w' = Some data
  /\ fs_combo_text c w' = text
  /\ rows_written (fs_export_to_ascii show chosen parent_widget w')
     = rows_written (fs_export_to_ascii show chosen parent_widget w)
  /\ option_map (fun r => hd EmptyString (snd r))
       (fs_export_to_ascii show chosen parent_widget w')
     = Some (export_header (fs_time_unit_combo w') (fs_diameter_unit_combo w')
               (fs_strain_rate_unit_combo w')).
Proof.
  intros Hidx Hdata Hc. cbv zeta.
  assert (K : ax_index (fs_change_unit float_of_text c text w) = ax_index w
              /\ fs_calculated_data (fs_change_unit float_of_text c text w)
                 = Some data
              /\ fs_combo_text c (fs_change_unit float_of_text c text w)
                 = text).
  { unfold fs_change_unit.
    destruct (text =? fs_combo_text c w)%string eqn:E.
    - apply String.eqb_eq in E. now rewrite <- E.
    - pose proof (update_plot_keeps (fs_set_combo c text w))
        as [A [B [C [D F]]]].
      rewrite A, B. split; [reflexivity|]. split; [exact Hdata|].
      destruct c; cbn [fs_combo_text]; rewrite ?C, ?D, ?F; reflexivity. }
  destruct K as [K1 [K2 K3]].
  split; [exact K2|]. split; [exact K3|].
  unfold fs_export_to_ascii. rewrite K1, K2, Hdata, Hidx, Hc.
  split; reflexivity.
Qed.

End SinglePlot.

(** ** The properties above at sample inputs *)

(** X1, at the five constant rows and a fresh widget. *)
Lemma successful_call_draws_witness :
  exists d,
    steps_before_store sample_handler (Ok five_rows) initial_widget = Ok d
    /\ figure (plot_data sample_handler (Ok five_rows) initial_widget)
       = map (rendered_axes initial_widget d) [P00; P01; P10; P11]
    /\ queued_draws (plot_data sample_handler (Ok five_rows) initial_widget)
       = S (queued_draws initial_widget).
Proof.
  destruct (steps_before_store sample_handler (Ok five_rows) initial_widget)
    as [d | e] eqn:E.
  - destruct (successful_call_draws sample_handler (Ok five_rows)
                initial_widget d E) as [H1 [_ [H3 _]]].
    + vm_compute. reflexivity.
    + exists d. exact (conj eq_refl (conj H1 H3)).
  - vm_compute in E. discriminate E.
Defined.

(** X2, at the five constant rows and a widget with an infinite bound. *)
Lemma range_failure_keeps_new_series_witness :
  exists d,
    steps_before_store sample_handler (Ok five_rows) unbounded_widget = Ok d
    /\ calculated_data
         (plot_data sample_handler (Ok five_rows) unbounded_widget) = Some d
    /\ label (plot_data sample_handler (Ok five_rows) unbounded_widget)
       = error_text (ValueError axis_limits_msg).
Proof.
  destruct (steps_before_store sample_handler (Ok five_rows) unbounded_widget)
    as [d | e] eqn:E.
  - destruct (range_failure_keeps_new_series sample_handler (Ok five_rows)
                unbounded_widget d E) as [H1 [H2 _]].
    + vm_compute. reflexivity.
    + exists d. exact (conj eq_refl (conj H1 H2)).
  - vm_compute in E. discriminate E.
Defined.

(** X3, at the sample run. *)
Lemma window_invariant_witness :
  Forall (fun fe => possible (snd fe)) sample_run
  /\ (forall o,
        observer (state_of (run sample_float sample_show sample_run
                              initial_app)) = Some o ->
        alive o = true ->
        timer (state_of (run sample_float sample_show sample_run
                           initial_app)) = None)
  /\ In (time_unit_combo
           (widget (state_of (run sample_float sample_show sample_run
                                initial_app)))) time_units.
Proof.
  assert (Hp : Forall (fun fe => possible (snd fe)) sample_run).
  { unfold sample_run.
    repeat (apply Forall_cons; [cbn; auto|]). apply Forall_nil. }
  pose proof (window_invariant sample_float sample_show sample_run Hp) as H.
  cbv zeta in H. destruct H as [H1 [_ [_ [H4 _]]]].
  exact (conj Hp (conj H1 H4)).
Defined.

(** X4, at the sample run and the window's handler: the refresh succeeds. *)
Lemma refresh_fails_exactly_when_witness :
  exists h,
    event_handler (state_of (run sample_float sample_show sample_run
                               initial_app)) = Some h
    /\ plot_data_raised h (sample_files (file_path h))
         (widget (state_of (run sample_float sample_show sample_run
                              initial_app)))
       = None.
Proof.
  assert (Hp : Forall (fun fe => possible (snd fe)) sample_run).
  { unfold sample_run.
    repeat (apply Forall_cons; [cbn; auto|]). apply Forall_nil. }
  assert (Hh : event_handler (state_of (run sample_float sample_show
                                          sample_run initial_app))
               = Some sample_handler) by (vm_compute; reflexivity).
  pose proof (refresh_fails_exactly_when sample_float sample_show sample_run
                sample_files sample_handler Hp (or_introl Hh)) as H.
  exists sample_handler. split; [exact Hh|].
  rewrite H. vm_compute. reflexivity.
Defined.

(** X6, at the diameter 10 and an interval text that is no number. *)
Lemma diameter_saved_despite_invalid_interval_witness :
  label (widget (state_of (save_inputs sample_float sample_show "10" "abc"
                             initial_app)))
  = invalid_input_msg
  /\ event_handler
       (select_csv sample_files "data.csv"
          (state_of (save_inputs sample_float sample_show "10" "abc"
                       initial_app)))
     = Some {| file_path := "data.csv"%string; initial_diameter := lit 10 |}.
Proof.
  pose proof (diameter_saved_despite_invalid_interval sample_float sample_show
                sample_files sample_files "10" "abc" "data.csv" (lit 10)
                initial_app eq_refl eq_refl eq_refl eq_refl) as H.
  cbv zeta in H. destruct H as [H1 [_ [_ [H4 _]]]].
  exact (conj H1 H4).
Defined.

(** X9, at the window after Enter and Select CSV, and a second file. *)
Lemma watcher_keeps_its_handler_witness :
  csv_file (select_csv sample_files "other.csv"
              (start_auto_refresh sample_files selected_app))
  = Some "other.csv"%string
  /\ file_event sample_files "data.csv"
       (select_csv sample_files "other.csv"
          (start_auto_refresh sample_files selected_app))
     = with_widget
         (plot_data
            {| file_path := "data.csv"%string; initial_diameter := lit 10 |}
            (sample_files "data.csv"%string))
         (select_csv sample_files "other.csv"
            (start_auto_refresh sample_files selected_app)).
Proof.
  pose proof (watcher_keeps_its_handler sample_files sample_files sample_files
                "data.csv" "other.csv" (lit 10) selected_app
                eq_refl eq_refl eq_refl eq_refl) as H.
  cbv zeta in H. destruct H as [H1 [_ [H3 _]]].
  exact (conj H1 H3).
Defined.

(** X11, at the five constant rows. *)
Lemma export_after_refresh_witness :
  exists d written,
    steps_before_store sample_handler (Ok five_rows) initial_widget = Ok d
    /\ snd (export_to_ascii sample_show "out.txt"
              (plot_data sample_handler (Ok five_rows) initial_widget))
       = Some ("out.txt"%string, written)
    /\ List.length written = S (List.length (dropna five_rows)).
Proof.
  destruct (export_after_refresh sample_show sample_handler five_rows
              "out.txt" initial_widget)
    as [d [written [H1 [H2 [H3 _]]]]].
  - reflexivity.
  - cbn. auto.
  - cbn. auto 10.
  - vm_compute. lia.
  - reflexivity.
  - exists d, written. exact (conj H1 (conj H2 H3)).
Defined.

(** X12, at the sample window: an infinite bound gives automatic limits on
    both axes. *)
Lemma update_ranges_limits_witness :
  exists ax,
    fs_figure (update_ranges sample_float sample_window) = [ax]
    /\ (xlim_request ax, ylim_request ax) = (None, None).
Proof.
  destruct (update_ranges_limits sample_float sample_window new_axes []
              eq_refl eq_refl)
    as [ax [H1 [_ [_ [_ [_ [_ [_ [_ H9]]]]]]]]].
  exists ax. split; [exact H1|].
  rewrite H9. vm_compute. reflexivity.
Defined.

(** X13, at the sample window. *)
Lemma update_plot_shows_stored_data_witness :
  exists ax,
    fs_figure (update_plot sample_float sample_window) = [ax]
    /\ lines ax = window_line (ax_index sample_window) sample_series
    /\ xlabel ax
       = ("Time (" ++ fs_time_unit_combo sample_window ++ ")")%string.
Proof.
  destruct (update_plot_shows_stored_data sample_float sample_window
              sample_series new_axes [] eq_refl eq_refl eq_refl)
    as [ax [H1 [_ [H3 [H4 _]]]]].
  exists ax. exact (conj H1 (conj H3 H4)).
Defined.

(** X14, at the sample window and a change of its time unit to hours. *)
Lemma unit_change_in_window_keeps_rows_witness :
  fs_combo_text TimeUnit (fs_change_unit sample_float TimeUnit "hour"
                            sample_window) = "hour"%string
  /\ rows_written
       (fs_export_to_ascii sample_show "out.txt" initial_widget
          (fs_change_unit sample_float TimeUnit "hour" sample_window))
     = rows_written
         (fs_export_to_ascii sample_show "out.txt" initial_widget
            sample_window).
Proof.
  pose proof (unit_change_in_window_keeps_rows sample_float sample_show
                "out.txt" initial_widget TimeUnit "hour" sample_window
                sample_series eq_refl eq_refl eq_refl) as H.
  cbv zeta in H. destruct H as [_ [H2 [H3 _]]].
  exact (conj H2 H3).
Defined.
